(** * utils/training.py: the continual-learning training and evaluation loop

    A shallow embedding of [mask_classes], [evaluate] and [train].

    - Logits are 2-D tensors of IEEE doubles: rows of [float].
    - Python exceptions are values of [exn]; a computation that can raise
      returns [Result].
    - [evaluate] threads the model (its [training] flags are mutated,
      and the model says whether one of its two networks lies inside the
      other, because [Module.train] reaches the sub-modules);
      [train] runs in a state-and-error monad whose state also carries the
      chronological trace of calls into the loggers, the remote tracker,
      the file system and the model hooks.
    - The collaborators outside this module (the model's forward pass and
      hooks, the data loaders, the saliency metrics, numpy's mean) are the
      fields of the class [Collaborators]: every theorem holds for all of
      them. *)

From Stdlib Require Import ZArith PrimFloat.
From Stdlib Require Uint63.
From stdpp Require Import base list strings.

(** ** Tensors and slice assignment *)

(** A 2-D tensor: one list of columns per row. *)
Abbreviation Tensor := (list (list float)).

(** [-float('inf')]. *)
Definition neg_inf : float := neg_infinity.

(** How Python clamps one bound [i] of a slice over a dimension of size
    [n]: a negative bound counts from the end, and both are clipped to
    [0..n]. *)
Definition slice_index (n i : Z) : Z :=
  if (i <? 0)%Z then Z.max 0 (i + n) else Z.min i n.

(** Walks a row from column [j], overwriting the columns in [lo, hi). *)
Fixpoint fill_from (j lo hi : Z) (v : float) (row : list float) : list float :=
  match row with
  | [] => []
  | x :: r =>
      (if (lo <=? j)%Z && (j <? hi)%Z then v else x)
        :: fill_from (j + 1) lo hi v r
  end.

(** [row[start:stop] = v]. *)
Definition slice_fill (start stop : Z) (v : float) (row : list float)
  : list float :=
  let n := Z.of_nat (length row) in
  fill_from 0 (slice_index n start) (slice_index n stop) v row.

(** [outputs[:, start:stop] = v]. *)
Definition assign_columns (start stop : Z) (v : float) (outputs : Tensor)
  : Tensor :=
  slice_fill start stop v <$> outputs.

(** ** Python values and exceptions *)

(** The exceptions the module can raise by itself. *)
Inductive exn : Set :=
| ZeroDivisionError
| AssertionError
| IndexError
| UnboundLocalError
| ValueError
| RuntimeError.

Inductive Result (A : Type) : Type :=
| Ok (a : A)
| Raise (e : exn).
Arguments Ok {A} a.
Arguments Raise {A} e.

(** An accuracy entry: [evaluate] appends either a float or the int [0]. *)
Inductive PyNum : Set :=
| PyInt (z : Z)
| PyFloat (x : float).

(** A Python int used in float arithmetic ([correct += n]). *)
Definition float_of_nat (n : nat) : float :=
  PrimFloat.of_uint63 (Uint63.of_Z (Z.of_nat n)).

(** [range(n)] for a Python int [n]: empty when [n <= 0]. *)
Definition range (n : Z) : list nat := seq 0 (Z.to_nat n).

(** [enumerate(xs)]. *)
Definition enumerate {A : Type} (xs : list A) : list (nat * A) :=
  zip (seq 0 (length xs)) xs.

(** ** A state-and-exception monad

    [M S A] is a statement block over the mutable state [S]: it either
    completes with a value or raises, and the state reached is kept in
    both cases (nothing in the module catches an exception). *)
Definition M (S A : Type) : Type := S -> Result A * S.

Definition ret {S A : Type} (a : A) : M S A := fun s => (Ok a, s).

Definition bind {S A B : Type} (m : M S A) (f : A -> M S B) : M S B :=
  fun s =>
    match m s with
    | (Ok a, s') => f a s'
    | (Raise e, s') => (Raise e, s')
    end.

Definition raise {S A : Type} (e : exn) : M S A := fun s => (Raise e, s).

Definition gets {S A : Type} (f : S -> A) : M S A := fun s => (Ok (f s), s).

Definition modify {S : Type} (f : S -> S) : M S unit := fun s => (Ok tt, f s).

(** [assert b]. *)
Definition assert {S : Type} (b : bool) : M S unit :=
  if b then ret tt else raise AssertionError.

(** [if b: body]. *)
Definition when {S : Type} (b : bool) (body : M S unit) : M S unit :=
  if b then body else ret tt.

Declare Scope py_scope.
Delimit Scope py_scope with py.
Notation "x <- c1 ;; c2" := (bind c1 (fun x => c2))
  (at level 100, c1 at next level, right associativity) : py_scope.
Notation "c1 ;; c2" := (bind c1 (fun _ => c2))
  (at level 100, c2 at level 200, right associativity) : py_scope.
Open Scope py_scope.

(** How one iteration of a [for] loop ends: by falling through or
    [continue] ([Next]), or by [break]. *)
Inductive flow : Set := Next | Break.

(** [for x in xs: body]. *)
Fixpoint for_loop {S A : Type} (xs : list A) (body : A -> M S flow)
  : M S unit :=
  match xs with
  | [] => ret tt
  | x :: rest =>
      f <- body x ;;
      match f with
      | Next => for_loop rest body
      | Break => ret tt
      end
  end.

(** [[f(x) for x in xs]] where [f] may raise. *)
Fixpoint comprehension {S A B : Type} (f : A -> M S B) (xs : list A)
  : M S (list B) :=
  match xs with
  | [] => ret []
  | x :: rest =>
      y <- f x ;;
      ys <- comprehension f rest ;;
      ret (y :: ys)
  end.

(** [xs[i]] for a non-negative index. *)
Definition subscript {S A : Type} (xs : list A) (i : nat) : M S A :=
  match xs !! i with
  | Some x => ret x
  | None => raise IndexError
  end.

(** ** The data model *)

(** The data the module only passes around. *)
Class Payload : Type := {
  Image : Type;   (** an input tensor *)
  SalMap : Type;  (** the saliency predictions of a forward pass *)
  Params : Type;  (** the learnable state: weights, optimizers, buffer *)
  Source : Type;  (** what the dataset has not handed out yet *)
}.

(** [inputs] of a batch: a tensor, or a list of tensors. *)
Inductive Inputs `{Payload} : Type :=
| InTensor (x : Image)
| InList (xs : list Image).

(** A batch of a test loader: [inputs, labels = data]. *)
Definition Batch `{Payload} : Type := (Inputs * list Z)%type.

(** A batch of a train loader, a 3-tuple or (with [Some] logits) a
    4-tuple. *)
Record TrainBatch `{Payload} : Type := {
  tb_inputs : Inputs;
  tb_labels : list Z;
  tb_not_aug_inputs : Image;
  tb_logits : option Image;
}.

Record TrainLoader `{Payload} : Type := {
  batches : list TrainBatch;
  has_logits : bool;  (** [hasattr(loader.dataset, 'logits')] *)
  num_images : nat;   (** [len(loader.dataset.data)] *)
}.

Record ContinualDataset `{Payload} : Type := {
  dataset_NAME : string;
  SETTING : string;
  N_TASKS : Z;
  N_CLASSES_PER_TASK : Z;
  test_loaders : list (list Batch);
  train_loader : TrainLoader;
  source : Source;
}.

(** A [torch.nn.Module], as far as this module looks into it. *)
Record NNModule : Set := { training : bool }.

(** The model. Which optional attributes it has is fixed when it is
    built; [saliency_net = None] is a model without that attribute.
    [Module.train(mode)] sets the flag of the module and of every
    sub-module, so the model also says how its two networks lie to each
    other; both fields are [false] for separate modules and both [true]
    when the two attributes name one module. *)
Record ContinualModel `{Payload} : Type := {
  model_NAME : string;
  COMPATIBILITY : list string;
  net : NNModule;
  saliency_net : option NNModule;
  saliency_in_net : bool;
    (** [model.saliency_net in model.net.modules()] *)
  net_in_saliency : bool;
    (** [model.net in model.saliency_net.modules()] *)
  has_begin_task : bool;       (** [hasattr(model, 'begin_task')] *)
  has_end_task : bool;         (** [hasattr(model, 'end_task')] *)
  has_saliency_scheduler : bool;
    (** [hasattr(model, 'saliency_scheduler')] and it is not [None] *)
  buffer_size_in_args : bool;  (** ['buffer_size' in model.args] *)
  n_epochs : Z;                (** [model.args.n_epochs] *)
  params : Params;
}.

Definition set_net `{Payload} (n : NNModule) (model : ContinualModel)
  : ContinualModel :=
  {| model_NAME := model_NAME model;
     COMPATIBILITY := COMPATIBILITY model;
     net := n;
     saliency_net := saliency_net model;
     saliency_in_net := saliency_in_net model;
     net_in_saliency := net_in_saliency model;
     has_begin_task := has_begin_task model;
     has_end_task := has_end_task model;
     has_saliency_scheduler := has_saliency_scheduler model;
     buffer_size_in_args := buffer_size_in_args model;
     n_epochs := n_epochs model;
     params := params model |}.

Definition set_saliency_net `{Payload} (n : option NNModule)
  (model : ContinualModel) : ContinualModel :=
  {| model_NAME := model_NAME model;
     COMPATIBILITY := COMPATIBILITY model;
     net := net model;
     saliency_net := n;
     saliency_in_net := saliency_in_net model;
     net_in_saliency := net_in_saliency model;
     has_begin_task := has_begin_task model;
     has_end_task := has_end_task model;
     has_saliency_scheduler := has_saliency_scheduler model;
     buffer_size_in_args := buffer_size_in_args model;
     n_epochs := n_epochs model;
     params := params model |}.

Definition set_params `{Payload} (p : Params) (model : ContinualModel)
  : ContinualModel :=
  {| model_NAME := model_NAME model;
     COMPATIBILITY := COMPATIBILITY model;
     net := net model;
     saliency_net := saliency_net model;
     saliency_in_net := saliency_in_net model;
     net_in_saliency := net_in_saliency model;
     has_begin_task := has_begin_task model;
     has_end_task := has_end_task model;
     has_saliency_scheduler := has_saliency_scheduler model;
     buffer_size_in_args := buffer_size_in_args model;
     n_epochs := n_epochs model;
     params := p |}.

(** What [module.train(mode)] does to the flag of one module;
    [module.eval()] is [module.train(False)]. *)
Definition nn_train (mode : bool) (_ : NNModule) : NNModule :=
  {| training := mode |}.

(** [model.net.train(mode)]: the flag of [net], and that of
    [saliency_net] when it is [net] or lies inside it. *)
Definition train_mode_net `{Payload} (mode : bool) (model : ContinualModel)
  : ContinualModel :=
  let model := set_net (nn_train mode (net model)) model in
  if saliency_in_net model
  then set_saliency_net (nn_train mode <$> saliency_net model) model
  else model.

(** [model.saliency_net.train(mode)], for a model that has one: the flag
    of [saliency_net], and that of [net] when it is [saliency_net] or
    lies inside it. *)
Definition train_mode_saliency_net `{Payload} (mode : bool)
  (model : ContinualModel) : ContinualModel :=
  let model :=
    set_saliency_net (nn_train mode <$> saliency_net model) model in
  if net_in_saliency model
  then set_net (nn_train mode (net model)) model
  else model.

(** The loss returned by [meta_observe]: a float or a list of floats. *)
Inductive Loss : Set :=
| LossFloat (x : float)
| LossList (xs : list float).

(** The parsed command line, as far as [train] reads it. *)
Record Namespace : Set := {
  nowand : bool;
  disable_log : bool;
  non_verbose : bool;
  ignore_other_metrics : bool;
  debug_mode : bool;
  savecheck : bool;
  args_model : string;  (** [args.model] *)
}.

(** The collaborators: the numeric backend, the model and dataset
    classes, the saliency metrics and the remote tracker's client. *)
Class Collaborators `{Payload} : Type := {
  (** [model(inputs)] or [model(inputs, k)]: the logits. *)
  forward : ContinualModel -> Inputs -> option nat -> Tensor;
  (** The saliency predictions the same call returns first when the
      model has a [saliency_net]. *)
  saliency_forward : ContinualModel -> Inputs -> option nat -> SalMap;
  (** The indices of [torch.max(outputs.data, 1)]. *)
  torch_max : Tensor -> list Z;
  (** [torch.mean(values).item()]. *)
  torch_mean : list float -> float;
  (** [compute_saliency_metrics(sal_preds, target, ('kld', 'cc', 'sim'))]:
      one 1-D tensor per metric. *)
  compute_saliency_metrics : SalMap -> Image -> list (list float);
  (** One row of [np.mean(accs, axis=1)]. *)
  np_mean : list PyNum -> float;
  (** [model.meta_observe(...)]: the loss and the updated state. *)
  meta_observe : ContinualModel -> TrainBatch -> Loss * Params;
  begin_task : ContinualModel -> ContinualDataset -> Params;
  end_task : ContinualModel -> ContinualDataset -> Params;
  (** [dataset.get_data_loaders()]: the loaders and the dataset after. *)
  get_data_loaders :
    ContinualDataset -> (TrainLoader * list Batch) * ContinualDataset;
  (** Whether [dataset.get_scheduler(model, args)] is not [None]. *)
  get_scheduler : ContinualDataset -> ContinualModel -> Namespace -> bool;
  scheduler_step : Params -> Params;
  saliency_scheduler_step : Params -> Params;
  (** Whether [import wandb] succeeded. *)
  wandb : bool;
  (** [wandb.run.get_url()]. *)
  wandb_run_url : string;
}.

(** ** mask_classes *)

(** The tensor [outputs] holds after [mask_classes(outputs, dataset, k)]. *)
Definition mask_classes `{Payload} (outputs : Tensor)
  (dataset : ContinualDataset) (k : Z) : Tensor :=
  let outputs :=
    assign_columns 0 (k * N_CLASSES_PER_TASK dataset) neg_inf outputs in
  assign_columns ((k + 1) * N_CLASSES_PER_TASK dataset)
    (N_TASKS dataset * N_CLASSES_PER_TASK dataset) neg_inf outputs.

(** ** evaluate *)

(** What [evaluate] returns: a pair, or a triple for a model with a
    [saliency_net]. *)
Inductive EvalResult : Set :=
| Tuple2 (accs accs_mask_classes : list PyNum)
| Tuple3 (accs accs_mask_classes : list PyNum)
    (final_sal_scores : list float).

(** The local variables of [evaluate]; [final_sal_scores] is [None]
    until its first assignment. *)
Record EvalLocals : Set := {
  accs : list PyNum;
  accs_mask_classes : list PyNum;
  sal_scores : list (list (list float));
  final_sal_scores : option (list float);
  correct : float;
  correct_mask_classes : float;
  total : float;
}.

Definition init_locals : EvalLocals :=
  {| accs := []; accs_mask_classes := []; sal_scores := [];
     final_sal_scores := None;
     correct := 0; correct_mask_classes := 0; total := 0 |}.

Definition set_accs (f : list PyNum -> list PyNum) (l : EvalLocals)
  : EvalLocals :=
  {| accs := f (accs l); accs_mask_classes := accs_mask_classes l;
     sal_scores := sal_scores l; final_sal_scores := final_sal_scores l;
     correct := correct l; correct_mask_classes := correct_mask_classes l;
     total := total l |}.

Definition set_accs_mask_classes (f : list PyNum -> list PyNum)
  (l : EvalLocals) : EvalLocals :=
  {| accs := accs l; accs_mask_classes := f (accs_mask_classes l);
     sal_scores := sal_scores l; final_sal_scores := final_sal_scores l;
     correct := correct l; correct_mask_classes := correct_mask_classes l;
     total := total l |}.

Definition set_sal_scores
  (f : list (list (list float)) -> list (list (list float)))
  (l : EvalLocals) : EvalLocals :=
  {| accs := accs l; accs_mask_classes := accs_mask_classes l;
     sal_scores := f (sal_scores l); final_sal_scores := final_sal_scores l;
     correct := correct l; correct_mask_classes := correct_mask_classes l;
     total := total l |}.

Definition set_final_sal_scores (v : option (list float)) (l : EvalLocals)
  : EvalLocals :=
  {| accs := accs l; accs_mask_classes := accs_mask_classes l;
     sal_scores := sal_scores l; final_sal_scores := v;
     correct := correct l; correct_mask_classes := correct_mask_classes l;
     total := total l |}.

(** [correct, correct_mask_classes, total = c, cm, t]. *)
Definition set_counts (c cm t : float) (l : EvalLocals) : EvalLocals :=
  {| accs := accs l; accs_mask_classes := accs_mask_classes l;
     sal_scores := sal_scores l; final_sal_scores := final_sal_scores l;
     correct := c; correct_mask_classes := cm; total := t |}.

(** The number of [True] in [pred == labels] for two 1-D tensors: equal
    lengths are compared entry by entry, a tensor of one entry is
    broadcast along the other, and other lengths do not go together
    ([None]). *)
Definition count_equal (pred labels : list Z) : option nat :=
  match pred, labels with
  | [p], _ => Some (length (filter (fun l => Z.eqb p l = true) labels))
  | _, [l] => Some (length (filter (fun p => Z.eqb p l = true) pred))
  | _, _ =>
      if Nat.eqb (length pred) (length labels)
      then Some (length (filter (fun pl => Z.eqb (fst pl) (snd pl) = true)
                           (zip pred labels)))
      else None
  end.

(** [torch.sum(pred == labels).item()]; torch raises RuntimeError for
    sizes that do not match. *)
Definition sum_equal {S : Type} (pred labels : list Z) : M S nat :=
  match count_equal pred labels with
  | Some n => ret n
  | None => raise RuntimeError
  end.

(** Python's float division. *)
Definition py_div {S : Type} (x y : float) : M S float :=
  if PrimFloat.eqb y 0 then raise ZeroDivisionError
  else ret (PrimFloat.div x y).

(** ['class-il' in model.COMPATIBILITY]. *)
Definition class_il_compatible `{Payload} (model : ContinualModel) : bool :=
  bool_decide ("class-il" ∈ COMPATIBILITY model).

(** [dataset.SETTING == 'class-il']. *)
Definition class_il_setting `{Payload} (dataset : ContinualDataset) : bool :=
  bool_decide (SETTING dataset = "class-il").

(** [hasattr(model, 'saliency_net')]. *)
Definition has_saliency_net `{Payload} (model : ContinualModel) : bool :=
  bool_decide (is_Some (saliency_net model)).

(** The body of [for data in test_loader]. *)
Definition evaluate_batch `{Collaborators} (model : ContinualModel)
  (dataset : ContinualDataset) (k : nat) (data : Batch)
  : M EvalLocals flow :=
  let '(inputs, labels) := data in
  let task := if class_il_compatible model then None else Some k in
  let outputs := forward model inputs task in
  let pred := torch_max outputs in
  n <- sum_equal pred labels ;;
  modify (fun l =>
    set_counts (correct l + float_of_nat n)
      (correct_mask_classes l) (total l) l) ;;
  modify (fun l =>
    set_counts (correct l) (correct_mask_classes l)
      (total l + float_of_nat (length labels)) l) ;;
  when (has_saliency_net model)
    match inputs with
    | InTensor _ => raise AssertionError
    | InList xs =>
        target <- subscript xs 1 ;;
        let sal_preds := saliency_forward model inputs task in
        let sal_metrics := compute_saliency_metrics sal_preds target in
        modify (set_sal_scores (fun s => s ++ [sal_metrics]))
    end ;;
  when (class_il_setting dataset)
    (let outputs := mask_classes outputs dataset (Z.of_nat k) in
     let pred := torch_max outputs in
     n <- sum_equal pred labels ;;
     modify (fun l =>
       set_counts (correct l)
         (correct_mask_classes l + float_of_nat n)
         (total l) l)) ;;
  ret Next.

(** The body of [for k, test_loader in enumerate(dataset.test_loaders)]. *)
Definition evaluate_loader `{Collaborators} (model : ContinualModel)
  (dataset : ContinualDataset) (last : bool) (entry : nat * list Batch)
  : M EvalLocals flow :=
  let '(k, test_loader) := entry in
  if last && (Z.of_nat k <? Z.of_nat (length (test_loaders dataset)) - 1)%Z
  then ret Next
  else
    modify (set_counts 0 0 0) ;;
    for_loop test_loader (evaluate_batch model dataset k) ;;
    acc <- (if class_il_compatible model
            then c <- gets correct ;;
                 t <- gets total ;;
                 q <- py_div c t ;;
                 ret (PyFloat (q * 100))
            else ret (PyInt 0)) ;;
    modify (set_accs (fun a => a ++ [acc])) ;;
    cm <- gets correct_mask_classes ;;
    t <- gets total ;;
    q <- py_div cm t ;;
    modify (set_accs_mask_classes (fun a => a ++ [PyFloat (q * 100)])) ;;
    when (has_saliency_net model)
      (modify (set_final_sal_scores (Some [])) ;;
       scores <- gets sal_scores ;;
       first <- subscript scores 0 ;;
       for_loop (range (Z.of_nat (length first))) (fun m_index =>
         scores <- gets sal_scores ;;
         values <- comprehension (fun s => subscript s m_index) scores ;;
         let values := concat values in
         modify (fun l =>
           set_final_sal_scores
             ((fun f => f ++ [torch_mean values]) <$> final_sal_scores l) l) ;;
         ret Next)) ;;
    ret Next.

(** [evaluate(model, dataset, last)]: what it returns or raises, and the
    model it leaves behind. *)
Definition evaluate `{Collaborators} (model : ContinualModel)
  (dataset : ContinualDataset) (last : bool)
  : Result EvalResult * ContinualModel :=
  let status := training (net model) in
  let model := train_mode_net false model in
  let sal_status := training <$> saliency_net model in
  let model :=
    match sal_status with
    | Some _ => train_mode_saliency_net false model
    | None => model
    end in
  match for_loop (enumerate (test_loaders dataset))
          (evaluate_loader model dataset last) init_locals with
  | (Raise e, _) => (Raise e, model)
  | (Ok _, l) =>
      let model := train_mode_net status model in
      match sal_status with
      | Some sal_status =>
          let model := train_mode_saliency_net sal_status model in
          match final_sal_scores l with
          | Some scores =>
              (Ok (Tuple3 (accs l) (accs_mask_classes l) scores), model)
          | None => (Raise UnboundLocalError, model)
          end
      | None => (Ok (Tuple2 (accs l) (accs_mask_classes l)), model)
      end
  end.

(** The model [evaluate] hands back once its loader loop has completed:
    the calls of [train] and [eval] it has made on the two networks, in
    their order. *)
Definition after_evaluate `{Payload} (model : ContinualModel)
  : ContinualModel :=
  let status := training (net model) in
  let model := train_mode_net false model in
  let sal_status := training <$> saliency_net model in
  let model :=
    match sal_status with
    | Some _ => train_mode_saliency_net false model
    | None => model
    end in
  let model := train_mode_net status model in
  match sal_status with
  | Some sal_status => train_mode_saliency_net sal_status model
  | None => model
  end.

(** ** train: its state and what it does to the outside *)

(** The files of a checkpoint that are opened for pickling. *)
Inductive artifact : Set := BufferPickle | ArgsPickle | ResultsPickle.

(** The calls [train] makes into the loggers, the remote tracker, the
    file system, the dataset and the model, in the order it makes them.
    [t] is the task of the enclosing iteration. *)
Inductive event : Set :=
| Print (task : option nat)
| WandbInit
| WandbLog (t : nat) (mean_acc : list float) (sal_metrics : list float)
    (class_accs task_accs : list PyNum) (with_sal_lr : bool)
| WandbLogSummary (url : string)
| WandbFinish
| LoggerNew
| LoggerLog (t : nat) (mean_acc : list float)
| LoggerLogFullacc (t : nat) (accs : EvalResult)
| LoggerAddBwt (results results_mask_classes : list (list PyNum))
| LoggerAddForgetting (results results_mask_classes : list (list PyNum))
| LoggerWrite
| GetDataLoaders (t : nat)
| BeginTask (t : nat)
| Evaluate (t : nat) (last : bool)
| MetaObserve (t epoch i : nat)
| Progress (t epoch i : nat)
| SchedulerStep (t epoch : nat)
| SaliencySchedulerStep (t epoch : nat)
| EndTask (t : nat)
| MakeDir (t : nat)
| SaveNet (t : nat)
| SaveSaliencyNet (t : nat)
| OpenFile (a : artifact) (t : nat)
| DumpBuffer (t : nat)
| DumpArgs (t : nat)
| DumpResults (t : nat) (results results_mask_classes : list (list PyNum))
    (sal_metrics : list float).

(** The mutable objects [train] works on, its two result lists and the
    trace of its calls so far. *)
Record TrainState `{Payload} : Type := {
  st_model : ContinualModel;
  st_dataset : ContinualDataset;
  results : list (list PyNum);
  results_mask_classes : list (list PyNum);
  wandb_url : option string;  (** [args.wandb_url], once assigned *)
  trace : list event;
}.

Definition set_model `{Payload} (f : ContinualModel -> ContinualModel)
  (s : TrainState) : TrainState :=
  {| st_model := f (st_model s); st_dataset := st_dataset s;
     results := results s; results_mask_classes := results_mask_classes s;
     wandb_url := wandb_url s; trace := trace s |}.

Definition set_dataset `{Payload} (d : ContinualDataset) (s : TrainState)
  : TrainState :=
  {| st_model := st_model s; st_dataset := d;
     results := results s; results_mask_classes := results_mask_classes s;
     wandb_url := wandb_url s; trace := trace s |}.

Definition set_results `{Payload}
  (f : list (list PyNum) -> list (list PyNum)) (s : TrainState)
  : TrainState :=
  {| st_model := st_model s; st_dataset := st_dataset s;
     results := f (results s);
     results_mask_classes := results_mask_classes s;
     wandb_url := wandb_url s; trace := trace s |}.

Definition set_results_mask_classes `{Payload}
  (f : list (list PyNum) -> list (list PyNum)) (s : TrainState)
  : TrainState :=
  {| st_model := st_model s; st_dataset := st_dataset s;
     results := results s;
     results_mask_classes := f (results_mask_classes s);
     wandb_url := wandb_url s; trace := trace s |}.

Definition set_wandb_url `{Payload} (u : option string) (s : TrainState)
  : TrainState :=
  {| st_model := st_model s; st_dataset := st_dataset s;
     results := results s; results_mask_classes := results_mask_classes s;
     wandb_url := u; trace := trace s |}.

Definition add_event `{Payload} (e : event) (s : TrainState) : TrainState :=
  {| st_model := st_model s; st_dataset := st_dataset s;
     results := results s; results_mask_classes := results_mask_classes s;
     wandb_url := wandb_url s; trace := trace s ++ [e] |}.

(** Records one call. *)
Definition tell `{Payload} (e : event) : M TrainState unit :=
  modify (add_event e).

Definition init_state `{Payload} (model : ContinualModel)
  (dataset : ContinualDataset) : TrainState :=
  {| st_model := model; st_dataset := dataset;
     results := []; results_mask_classes := [];
     wandb_url := None; trace := [] |}.

(** [accs[0]] and [accs[1]] of what [evaluate] returned. *)
Definition class_il_accs (r : EvalResult) : list PyNum :=
  match r with Tuple2 a _ => a | Tuple3 a _ _ => a end.

Definition task_il_accs (r : EvalResult) : list PyNum :=
  match r with Tuple2 _ a => a | Tuple3 _ a _ => a end.

(** The rows numpy sees in [np.mean(accs, axis=1)]. *)
Definition rows (r : EvalResult) : list (list PyNum) :=
  match r with
  | Tuple2 a am => [a; am]
  | Tuple3 a am s => [a; am; PyFloat <$> s]
  end.

(** [model.net.train()]. *)
Definition net_train `{Payload} : M TrainState unit :=
  modify (set_model (train_mode_net true)).

(** [evaluate(model, dataset, last)] called from iteration [t]. *)
Definition call_evaluate `{Collaborators} (t : nat) (last : bool)
  : M TrainState EvalResult :=
  tell (Evaluate t last) ;;
  fun s =>
    let '(r, model) := evaluate (st_model s) (st_dataset s) last in
    (r, set_model (fun _ => model) s).

(** [xs[i] = xs[i] + ys], for a non-negative [i]. *)
Definition extend_entry {S : Type} (xs : list (list PyNum)) (i : nat)
  (ys : list PyNum) : M S (list (list PyNum)) :=
  old <- subscript xs i ;;
  ret (<[i := old ++ ys]> xs).

(** [if t and not args.ignore_other_metrics: ...] at the start of
    iteration [t]. *)
Definition evaluate_previous `{Collaborators} (args : Namespace) (t : nat)
  : M TrainState unit :=
  when (negb (Nat.eqb t 0) && negb (ignore_other_metrics args))
    (accs <- call_evaluate t true ;;
     r <- gets results ;;
     r <- extend_entry r (t - 1) (class_il_accs accs) ;;
     modify (set_results (fun _ => r)) ;;
     dataset <- gets st_dataset ;;
     when (class_il_setting dataset)
       (rm <- gets results_mask_classes ;;
        rm <- extend_entry rm (t - 1) (task_il_accs accs) ;;
        modify (set_results_mask_classes (fun _ => rm)))).

(** Unpacking a train batch into three or four names. *)
Definition unpack `{Payload} (with_logits : bool) (data : TrainBatch)
  : M TrainState unit :=
  match with_logits, tb_logits data with
  | true, Some _ | false, None => ret tt
  | _, _ => raise ValueError
  end.

(** [assert not math.isnan(...)] on the loss or its first entry. *)
Definition check_loss `{Payload} (loss : Loss) : M TrainState unit :=
  match loss with
  | LossList xs => x <- subscript xs 0 ;; assert (negb (is_nan x))
  | LossFloat x => assert (negb (is_nan x))
  end.

(** The body of [for i, data in enumerate(train_loader)]. *)
Definition train_batch `{Collaborators} (args : Namespace) (t epoch : nat)
  (entry : nat * TrainBatch) : M TrainState flow :=
  let '(i, data) := entry in
  if debug_mode args && (3 <? i)%nat then ret Break
  else
    dataset <- gets st_dataset ;;
    unpack (has_logits (train_loader dataset)) data ;;
    model <- gets st_model ;;
    let '(loss, p) := meta_observe model data in
    tell (MetaObserve t epoch i) ;;
    modify (set_model (set_params p)) ;;
    check_loss loss ;;
    tell (Progress t epoch i) ;;
    ret Next.

(** The body of [for epoch in range(model.args.n_epochs)]. *)
Definition train_epoch `{Collaborators} (args : Namespace) (t : nat)
  (loader : TrainLoader) (scheduler : bool) (epoch : nat)
  : M TrainState flow :=
  if bool_decide (args_model args = "joint") then ret Next
  else
    for_loop (enumerate (batches loader)) (train_batch args t epoch) ;;
    when scheduler
      (tell (SchedulerStep t epoch) ;;
       modify (set_model (fun m => set_params (scheduler_step (params m)) m))) ;;
    model <- gets st_model ;;
    when (has_saliency_net model && has_saliency_scheduler model)
      (tell (SaliencySchedulerStep t epoch) ;;
       modify (set_model (fun m =>
         set_params (saliency_scheduler_step (params m)) m))) ;;
    ret Next.

(** [sal_metrics] and the rebound [accs] after the end-of-task
    evaluation: the last entry of a triple is split off for a model with
    a [saliency_net]. *)
Definition split_saliency `{Payload} (model : ContinualModel)
  (accs : EvalResult) : list float * EvalResult :=
  match accs with
  | Tuple3 a am s =>
      if has_saliency_net model then (s, Tuple2 a am)
      else ([0; 0; 0]%float, accs)
  | Tuple2 _ _ => ([0; 0; 0]%float, accs)
  end.

(** [if not args.disable_log: ...] and [if not args.nowand: ...] after
    the end-of-task evaluation. *)
Definition report `{Collaborators} (args : Namespace) (t : nat)
  (accs : EvalResult) (sal_metrics : list float) : M TrainState unit :=
  let mean_acc := np_mean <$> rows accs in
  tell (Print (Some t)) ;;
  when (negb (disable_log args))
    (tell (LoggerLog t mean_acc) ;;
     tell (LoggerLogFullacc t accs)) ;;
  when (negb (nowand args))
    (_ <- subscript mean_acc 0 ;;
     _ <- subscript mean_acc 1 ;;
     _ <- subscript sal_metrics 0 ;;
     _ <- subscript sal_metrics 1 ;;
     _ <- subscript sal_metrics 2 ;;
     model <- gets st_model ;;
     tell (WandbLog t mean_acc sal_metrics (class_il_accs accs)
             (task_il_accs accs)
             (has_saliency_net model && has_saliency_scheduler model))).

(** [if args.savecheck: ...]. The local [logger] is bound only when
    [args.disable_log] is false, so [logger.dump()] raises otherwise. *)
Definition checkpoint `{Collaborators} (args : Namespace) (t : nat)
  (sal_metrics : list float) : M TrainState unit :=
  when (savecheck args)
    (tell (Print (Some t)) ;;
     tell (MakeDir t) ;;
     tell (SaveNet t) ;;
     model <- gets st_model ;;
     when (has_saliency_net model) (tell (SaveSaliencyNet t)) ;;
     when (buffer_size_in_args model)
       (tell (OpenFile BufferPickle t) ;;
        tell (DumpBuffer t)) ;;
     tell (OpenFile ArgsPickle t) ;;
     tell (DumpArgs t) ;;
     tell (OpenFile ResultsPickle t) ;;
     r <- gets results ;;
     rm <- gets results_mask_classes ;;
     (if disable_log args then raise UnboundLocalError else ret tt) ;;
     tell (DumpResults t r rm sal_metrics)).

(** The first part of the body of the main loop, up to the [end_task]
    hook: everything before the end-of-task evaluation. *)
Definition task_training `{Collaborators} (args : Namespace) (t : nat)
  : M TrainState unit :=
  net_train ;;
  dataset <- gets st_dataset ;;
  let '((loader, _), dataset) := get_data_loaders dataset in
  tell (GetDataLoaders t) ;;
  modify (set_dataset dataset) ;;
  model <- gets st_model ;;
  when (has_begin_task model)
    (tell (BeginTask t) ;;
     modify (set_model (set_params (begin_task model dataset)))) ;;
  evaluate_previous args t ;;
  model <- gets st_model ;;
  let scheduler := get_scheduler dataset model args in
  tell (Print (Some t)) ;;
  for_loop (range (n_epochs model)) (train_epoch args t loader scheduler) ;;
  model <- gets st_model ;;
  dataset <- gets st_dataset ;;
  when (has_end_task model)
    (tell (EndTask t) ;;
     modify (set_model (set_params (end_task model dataset)))).

(** The rest of the body: the end-of-task evaluation, the two appends,
    the report and the checkpoint. *)
Definition task_closing `{Collaborators} (args : Namespace) (t : nat)
  : M TrainState unit :=
  accs <- call_evaluate t false ;;
  modify (set_results (fun r => r ++ [class_il_accs accs])) ;;
  modify (set_results_mask_classes (fun r => r ++ [task_il_accs accs])) ;;
  model <- gets st_model ;;
  let '(sal_metrics, accs) := split_saliency model accs in
  report args t accs sal_metrics ;;
  checkpoint args t sal_metrics.

(** The body of the main loop, [for t in range(dataset.N_TASKS)]. *)
Definition train_task `{Collaborators} (args : Namespace) (t : nat)
  : M TrainState flow :=
  task_training args t ;;
  task_closing args t ;;
  ret Next.

(** What follows the main loop. *)
Definition finish `{Collaborators} (args : Namespace) : M TrainState unit :=
  when (negb (disable_log args) && negb (ignore_other_metrics args))
    (r <- gets results ;;
     rm <- gets results_mask_classes ;;
     tell (LoggerAddBwt r rm) ;;
     tell (LoggerAddForgetting r rm)) ;;
  when (negb (disable_log args))
    (tell LoggerWrite ;;
     when (negb (nowand args)) (tell (WandbLogSummary wandb_run_url))) ;;
  when (negb (nowand args)) (tell WandbFinish).

(** What precedes it. The loaders of [dataset_copy] are thrown away, so
    of the warm-up loop only [model.net.train()] is left. *)
Definition start `{Collaborators} (args : Namespace) : M TrainState unit :=
  tell (Print None) ;;
  when (negb (nowand args))
    (assert wandb ;;
     tell WandbInit ;;
     modify (set_wandb_url (Some wandb_run_url))) ;;
  modify (set_results (fun _ => [])) ;;
  modify (set_results_mask_classes (fun _ => [])) ;;
  when (negb (disable_log args)) (tell LoggerNew) ;;
  when (negb (ignore_other_metrics args))
    (dataset <- gets st_dataset ;;
     for_loop (range (N_TASKS dataset)) (fun _ => net_train ;; ret Next)) ;;
  tell (Print None).

(** [train(model, dataset, args)]: whether it returns or raises, and the
    state it leaves. Moving tensors to the device changes none of what
    is modelled and is left out. *)
Definition train `{Collaborators} (model : ContinualModel)
  (dataset : ContinualDataset) (args : Namespace)
  : Result unit * TrainState :=
  (start args ;;
   dataset <- gets st_dataset ;;
   for_loop (range (N_TASKS dataset)) (train_task args) ;;
   finish args) (init_state model dataset).

(** The iteration of the main loop a call belongs to. *)
Definition event_task (e : event) : option nat :=
  match e with
  | Print task => task
  | WandbLog t _ _ _ _ _ | LoggerLog t _ | LoggerLogFullacc t _
  | GetDataLoaders t | BeginTask t | Evaluate t _
  | MetaObserve t _ _ | Progress t _ _
  | SchedulerStep t _ | SaliencySchedulerStep t _ | EndTask t
  | MakeDir t | SaveNet t | SaveSaliencyNet t | OpenFile _ t
  | DumpBuffer t | DumpArgs t | DumpResults t _ _ _ => Some t
  | WandbInit | WandbLogSummary _ | WandbFinish | LoggerNew
  | LoggerAddBwt _ _ | LoggerAddForgetting _ _ | LoggerWrite => None
  end.

(** ** The vocabulary of the statements about traces *)

(** Calls into the local logger. *)
Definition is_logger_event (e : event) : bool :=
  match e with
  | LoggerNew | LoggerLog _ _ | LoggerLogFullacc _ _ | LoggerAddBwt _ _
  | LoggerAddForgetting _ _ | LoggerWrite => true
  | _ => false
  end.

(** Calls into the remote tracker. *)
Definition is_wandb_event (e : event) : bool :=
  match e with
  | WandbInit | WandbLog _ _ _ _ _ _ | WandbLogSummary _ | WandbFinish => true
  | _ => false
  end.

(** What a checkpoint does to the file system. *)
Definition is_file_event (e : event) : bool :=
  match e with
  | MakeDir _ | SaveNet _ | SaveSaliencyNet _ | OpenFile _ _
  | DumpBuffer _ | DumpArgs _ | DumpResults _ _ _ _ => true
  | _ => false
  end.

(** The backward-transfer and forgetting metrics. *)
Definition is_metrics_event (e : event) : bool :=
  match e with
  | LoggerAddBwt _ _ | LoggerAddForgetting _ _ => true
  | _ => false
  end.

(** What iteration [t] does before its end-of-task evaluation: fetching
    the loaders, the hooks, the evaluation of the new task, training. *)
Definition is_work_event (e : event) : bool :=
  match e with
  | Print (Some _) | GetDataLoaders _ | BeginTask _ | Evaluate _ true
  | MetaObserve _ _ _ | Progress _ _ _ | SchedulerStep _ _
  | SaliencySchedulerStep _ _ | EndTask _ => true
  | _ => false
  end.

(** What iteration [t] may do under [args], however it ends. *)
Definition allowed (args : Namespace) (t : nat) (e : event) : Prop :=
  event_task e = Some t /\
  is_metrics_event e = false /\
  (disable_log args = true -> is_logger_event e = false) /\
  (nowand args = true -> is_wandb_event e = false) /\
  (savecheck args = false -> is_file_event e = false).

(** The calls before the main loop of a run that got that far. *)
Definition start_events (args : Namespace) : list event :=
  [Print None]
  ++ (if nowand args then [] else [WandbInit])
  ++ (if disable_log args then [] else [LoggerNew])
  ++ [Print None].

(** The calls of a completed [report]. *)
Definition report_events (args : Namespace) (t : nat)
  (mean_acc : list float) (accs : EvalResult) (sal_metrics : list float)
  (with_sal_lr : bool) : list event :=
  [Print (Some t)]
  ++ (if disable_log args then []
      else [LoggerLog t mean_acc; LoggerLogFullacc t accs])
  ++ (if nowand args then []
      else [WandbLog t mean_acc sal_metrics (class_il_accs accs)
              (task_il_accs accs) with_sal_lr]).

(** The calls of a completed [checkpoint], for a model that has a
    saliency network ([with_saliency]) or a buffer ([with_buffer]). *)
Definition checkpoint_events (args : Namespace) (t : nat)
  (with_saliency with_buffer : bool)
  (r rm : list (list PyNum)) (sal_metrics : list float) : list event :=
  if savecheck args then
    [Print (Some t); MakeDir t; SaveNet t]
    ++ (if with_saliency then [SaveSaliencyNet t] else [])
    ++ (if with_buffer then [OpenFile BufferPickle t; DumpBuffer t] else [])
    ++ [OpenFile ArgsPickle t; DumpArgs t; OpenFile ResultsPickle t;
        DumpResults t r rm sal_metrics]
  else [].

(** The calls after the main loop, on the final result lists. *)
Definition finish_events (args : Namespace) (r rm : list (list PyNum))
  (url : string) : list event :=
  (if negb (disable_log args) && negb (ignore_other_metrics args)
   then [LoggerAddBwt r rm; LoggerAddForgetting r rm] else [])
  ++ (if disable_log args then []
      else LoggerWrite :: (if nowand args then [] else [WandbLogSummary url]))
  ++ (if nowand args then [] else [WandbFinish]).

Arguments start_events : simpl never.
Arguments report_events : simpl never.
Arguments checkpoint_events : simpl never.
Arguments finish_events : simpl never.

(** The calls of a completed iteration [t]: its work, the end-of-task
    evaluation, the report and the checkpoint. *)
Definition task_segment (args : Namespace) (t : nat)
  (with_saliency with_buffer : bool) (seg : list event) : Prop :=
  exists work mean_acc accs sal_metrics with_sal_lr r rm,
    seg = work ++ [Evaluate t false]
          ++ report_events args t mean_acc accs sal_metrics with_sal_lr
          ++ checkpoint_events args t with_saliency with_buffer r rm
               sal_metrics /\
    Forall (fun e => is_work_event e = true) work /\
    length r = Datatypes.S t /\ length rm = Datatypes.S t.

(** The optional parts of a model that [train] asks about. *)
Definition model_shape `{Payload} (model : ContinualModel)
  : bool * bool * bool :=
  (has_saliency_net model, has_saliency_scheduler model,
   buffer_size_in_args model).

(** Every run of the block [m], however it ends, relates the state
    before to the state after by [R]. *)
Definition respects {S A : Type} (R : S -> S -> Prop) (m : M S A) : Prop :=
  forall s r s', m s = (r, s') -> R s s'.

(** The trace has grown by calls that all satisfy [P]. *)
Definition extends_with `{Payload} (P : event -> Prop) (s s' : TrainState)
  : Prop :=
  exists evs, trace s' = trace s ++ evs /\ Forall P evs.

(** The result lists are as long as they were, and the model has the
    shape it had. *)
Definition steady `{Payload} (s s' : TrainState) : Prop :=
  length (results s') = length (results s) /\
  length (results_mask_classes s') = length (results_mask_classes s) /\
  model_shape (st_model s') = model_shape (st_model s).

(** The two result lists are what they were. *)
Definition same_results `{Payload} (s s' : TrainState) : Prop :=
  results s' = results s /\
  results_mask_classes s' = results_mask_classes s.

(** Every entry of the two result lists is where it was; it may have
    been extended, and entries may have been appended. *)
Definition grown `{Payload} (s s' : TrainState) : Prop :=
  (forall (i : nat) old, results s !! i = Some old ->
     exists more, results s' !! i = Some (old ++ more)) /\
  (forall (i : nat) old, results_mask_classes s !! i = Some old ->
     exists more, results_mask_classes s' !! i = Some (old ++ more)).

(** From [s] to [s'] only the trace has changed, by the calls [evs]. *)
Definition told `{Payload} (evs : list event) (s s' : TrainState) : Prop :=
  trace s' = trace s ++ evs /\
  st_model s' = st_model s /\
  st_dataset s' = st_dataset s /\
  results s' = results s /\
  results_mask_classes s' = results_mask_classes s /\
  wandb_url s' = wandb_url s.

(** What the flags of [args] leave of a call: no call into the logger
    with [disable_log], none into the remote tracker with [nowand], no
    file of a checkpoint without [savecheck]. *)
Definition flagged (args : Namespace) (e : event) : Prop :=
  (disable_log args = true -> is_logger_event e = false) /\
  (nowand args = true -> is_wandb_event e = false) /\
  (savecheck args = false -> is_file_event e = false).

(** A call made while iteration [t] trains. *)
Definition work_of (t : nat) (e : event) : Prop :=
  is_work_event e = true /\ event_task e = Some t.

(** The value of [total] after the batches of a test loader: the number
    of its labels, summed in floating point. *)
Definition loader_total `{Payload} (loader : list Batch) : float :=
  foldl (fun t data => (t + float_of_nat (length data.2))%float) 0%float
    loader.

(** The dataset with other test loaders. *)
Definition with_test_loaders `{Payload} (loaders : list (list Batch))
  (dataset : ContinualDataset) : ContinualDataset :=
  {| dataset_NAME := dataset_NAME dataset;
     SETTING := SETTING dataset;
     N_TASKS := N_TASKS dataset;
     N_CLASSES_PER_TASK := N_CLASSES_PER_TASK dataset;
     test_loaders := loaders;
     train_loader := train_loader dataset;
     source := source dataset |}.

(** The collaborators with another forward pass. *)
Definition with_forward `{Collaborators}
  (fwd : ContinualModel -> Inputs -> option nat -> Tensor)
  (sal_fwd : ContinualModel -> Inputs -> option nat -> SalMap)
  : Collaborators :=
  {| forward := fwd;
     saliency_forward := sal_fwd;
     torch_max := torch_max;
     torch_mean := torch_mean;
     compute_saliency_metrics := compute_saliency_metrics;
     np_mean := np_mean;
     meta_observe := meta_observe;
     begin_task := begin_task;
     end_task := end_task;
     get_data_loaders := get_data_loaders;
     get_scheduler := get_scheduler;
     scheduler_step := scheduler_step;
     saliency_scheduler_step := saliency_scheduler_step;
     wandb := wandb;
     wandb_run_url := wandb_run_url |}.

(** The predictions for a batch can be compared with its labels, before
    the mask and, in the class-il setting, after it. *)
Definition comparable `{Collaborators} (model : ContinualModel)
  (dataset : ContinualDataset) (k : nat) (data : Batch) : bool :=
  let task := if class_il_compatible model then None else Some k in
  let outputs := forward model data.1 task in
  bool_decide (is_Some (count_equal (torch_max outputs) data.2))
  && (negb (class_il_setting dataset)
      || bool_decide
           (is_Some
              (count_equal
                 (torch_max (mask_classes outputs dataset (Z.of_nat k)))
                 data.2))).

(** Both networks of the model are in evaluation mode. *)
Definition in_eval_mode `{Payload} (model : ContinualModel) : Prop :=
  training (net model) = false /\
  forall n, saliency_net model = Some n -> training n = false.

(** ** A small concrete instance

    Two tasks of two classes each. An input is its own logits, a test
    batch holds two samples, and the collaborators are simple enough to
    run the loop by computation. *)
Module Toy.

Definition payload : Payload :=
  {| Image := Tensor; SalMap := Tensor; Params := nat; Source := nat |}.
#[local] Existing Instance payload.

(** The index of the first largest entry of a row. *)
Fixpoint argmax_from (i best : Z) (m : float) (row : list float) : Z :=
  match row with
  | [] => best
  | x :: r =>
      if PrimFloat.ltb m x then argmax_from (i + 1) i x r
      else argmax_from (i + 1) best m r
  end.

Definition argmax (row : list float) : Z :=
  match row with
  | [] => 0
  | x :: r => argmax_from 1 0 x r
  end.

Definition mean (xs : list float) : float :=
  (foldr PrimFloat.add 0 xs / float_of_nat (length xs))%float.

Definition to_float (x : PyNum) : float :=
  match x with
  | PyInt z => PrimFloat.of_uint63 (Uint63.of_Z z)
  | PyFloat f => f
  end.

Definition logits (inputs : Inputs) : Tensor :=
  match inputs with
  | InTensor x => x
  | InList xs => default [] (head xs)
  end.

(** Task [t] has the classes [2t] and [2t+1]; its test batch has one
    sample the full logits get wrong and the masked logits get right,
    and one both get right. *)
Definition test_batch (t : nat) : Batch :=
  match t with
  | 0%nat =>
      (InList [[[1; 2; 3; 0]; [4; 1; 0; 0]]; [[0; 1]]]%float, [1; 0]%Z)
  | _ =>
      (InList [[[5; 0; 1; 2]; [0; 0; 3; 1]]; [[1; 0]]]%float, [3; 2]%Z)
  end.

Definition train_batch_of (t : nat) : TrainBatch :=
  {| tb_inputs := fst (test_batch t); tb_labels := snd (test_batch t);
     tb_not_aug_inputs := []; tb_logits := None |}.

(** The collaborators, with or without the wandb library. *)
Definition collaborators_of (installed : bool) : Collaborators :=
  {| forward := fun _ inputs _ => logits inputs;
     saliency_forward := fun _ inputs _ => logits inputs;
     torch_max := fun outputs => argmax <$> outputs;
     torch_mean := mean;
     compute_saliency_metrics := fun sal target =>
       [mean <$> sal; mean <$> target; [1%float]];
     np_mean := fun xs => mean (to_float <$> xs);
     meta_observe := fun model _ => (LossFloat 0.5, S (params model));
     begin_task := fun model _ => params model;
     end_task := fun model _ => params model;
     get_data_loaders := fun dataset =>
       let t := source dataset in
       let loader :=
         {| batches := [train_batch_of t; train_batch_of t];
            has_logits := false; num_images := 4 |} in
       ((loader, [test_batch t]),
        {| dataset_NAME := dataset_NAME dataset;
           SETTING := SETTING dataset;
           N_TASKS := N_TASKS dataset;
           N_CLASSES_PER_TASK := N_CLASSES_PER_TASK dataset;
           test_loaders := test_loaders dataset ++ [[test_batch t]];
           train_loader := loader;
           source := S t |});
     get_scheduler := fun _ _ _ => true;
     scheduler_step := fun p => p;
     saliency_scheduler_step := fun p => p;
     wandb := installed;
     wandb_run_url := "https://wandb.test/run" |}.

Definition collaborators : Collaborators := collaborators_of true.
Definition offline : Collaborators := collaborators_of false.
#[local] Existing Instance collaborators.

Definition dataset : ContinualDataset :=
  {| dataset_NAME := "toy"; SETTING := "class-il";
     N_TASKS := 2; N_CLASSES_PER_TASK := 2;
     test_loaders := [];
     train_loader := {| batches := []; has_logits := false;
                        num_images := 0 |};
     source := 0%nat |}.

(** The dataset once both tasks have been handed out. *)
Definition dataset_seen : ContinualDataset :=
  snd (get_data_loaders (snd (get_data_loaders dataset))).

Definition model : ContinualModel :=
  {| model_NAME := "sgd"; COMPATIBILITY := ["class-il"; "task-il"];
     net := {| training := true |}; saliency_net := None;
     saliency_in_net := false; net_in_saliency := false;
     has_begin_task := true; has_end_task := true;
     has_saliency_scheduler := false; buffer_size_in_args := false;
     n_epochs := 1; params := 0%nat |}.

(** The same model with a saliency network, a saliency scheduler and
    a buffer. *)
Definition saliency_model : ContinualModel :=
  {| model_NAME := "ser"; COMPATIBILITY := ["class-il"; "task-il"];
     net := {| training := true |};
     saliency_net := Some {| training := true |};
     saliency_in_net := false; net_in_saliency := false;
     has_begin_task := true; has_end_task := true;
     has_saliency_scheduler := true; buffer_size_in_args := true;
     n_epochs := 1; params := 0%nat |}.

Definition args : Namespace :=
  {| nowand := false; disable_log := false; non_verbose := false;
     ignore_other_metrics := false; debug_mode := false;
     savecheck := true; args_model := "ser" |}.

(** Checkpoints without a local logger. *)
Definition args_no_log : Namespace :=
  {| nowand := true; disable_log := true; non_verbose := false;
     ignore_other_metrics := true; debug_mode := false;
     savecheck := true; args_model := "ser" |}.

(** Two rows of logits over the four classes. *)
Definition outputs : list (list float) :=
  [[1; 2; 3; 0]; [4; 1; 0; 0]]%float.

(** What [evaluate] returns on the saliency model once both tasks
    have been handed out, for all loaders and for the last one. *)
Definition evaluated_all : EvalResult :=
  Tuple3 [PyFloat 50; PyFloat 50] [PyFloat 100; PyFloat 100]
    [1.4375; 0.5; 1]%float.

Definition evaluated_last : EvalResult :=
  Tuple3 [PyFloat 50] [PyFloat 100] [1.5; 0.5; 1]%float.

(** The state a full run on the saliency model ends in. *)
Definition final_state : TrainState :=
  (train saliency_model dataset args).2.

(** The state of that run between its two iterations, and after the
    training part of the second. *)
Definition after_first_task : TrainState :=
  ((start args ;; for_loop (range 1) (train_task args))
     (init_state saliency_model dataset)).2.

Definition trained_second_task : TrainState :=
  (task_training args 1 after_first_task).2.

End Toy.

(** ** The guards of the training loop *)

(** What [args] lets through of the calls that sit behind a test in
    [train]: a batch is observed only if [args.model] is not 'joint'
    and, in debug mode, only at an index up to 3; the schedulers step
    only if [args.model] is not 'joint'; the newest task is evaluated
    ahead of its training only after the first iteration and without
    [ignore_other_metrics]; the results are dumped only by a checkpoint
    that has a logger. *)
Definition guarded (args : Namespace) (e : event) : Prop :=
  match e with
  | MetaObserve _ _ i | Progress _ _ i =>
      args_model args <> "joint" /\
      (debug_mode args = true -> (i <= 3)%nat)
  | SchedulerStep _ _ | SaliencySchedulerStep _ _ =>
      args_model args <> "joint"
  | Evaluate t true => t <> 0%nat /\ ignore_other_metrics args = false
  | DumpResults _ _ _ _ =>
      savecheck args = true /\ disable_log args = false
  | _ => True
  end.

(** The two result lists are equally long. *)
Definition balanced `{Payload} (s : TrainState) : Prop :=
  length (results s) = length (results_mask_classes s).

(** Further inputs: loaders without batches, no task at all, a loss
    that is not a number, other command lines. *)
Module Edge.

#[local] Existing Instance Toy.payload.
#[local] Existing Instance Toy.collaborators.

(** Rows with a column beyond the four classes. *)
Definition wide_outputs : list (list float) :=
  [[1; 2; 3; 0; 7]; [4; 1; 0; 0; 9]]%float.

(** The newest test loader holds no batch. *)
Definition dataset_stale : ContinualDataset :=
  with_test_loaders [[Toy.test_batch 0]; []] Toy.dataset.

(** The saliency model with both networks in evaluation mode. *)
Definition saliency_model_eval : ContinualModel :=
  set_saliency_net (Some {| training := false |})
    (set_net {| training := false |} Toy.saliency_model).

(** The saliency model with its saliency network built into [net], as
    one of its sub-modules; and what [evaluate] leaves of it. *)
Definition nested_model : ContinualModel :=
  {| model_NAME := "ser"; COMPATIBILITY := ["class-il"; "task-il"];
     net := {| training := true |};
     saliency_net := Some {| training := true |};
     saliency_in_net := true; net_in_saliency := false;
     has_begin_task := true; has_end_task := true;
     has_saliency_scheduler := true; buffer_size_in_args := true;
     n_epochs := 1; params := 0%nat |}.

Definition nested_model_after : ContinualModel :=
  set_saliency_net (Some {| training := false |}) nested_model.

(** The saliency model with a frozen [net] that is a sub-module of its
    saliency network; and what [evaluate] leaves of it. *)
Definition enclosed_model : ContinualModel :=
  {| model_NAME := "ser"; COMPATIBILITY := ["class-il"; "task-il"];
     net := {| training := false |};
     saliency_net := Some {| training := true |};
     saliency_in_net := false; net_in_saliency := true;
     has_begin_task := true; has_end_task := true;
     has_saliency_scheduler := true; buffer_size_in_args := true;
     n_epochs := 1; params := 0%nat |}.

Definition enclosed_model_after : ContinualModel :=
  set_net {| training := true |} enclosed_model.

(** A dataset without tasks. *)
Definition dataset_no_task : ContinualDataset :=
  {| dataset_NAME := "none"; SETTING := "class-il";
     N_TASKS := 0; N_CLASSES_PER_TASK := 2;
     test_loaders := [];
     train_loader := {| batches := []; has_logits := false;
                        num_images := 0 |};
     source := 0%nat |}.

Definition args_debug : Namespace :=
  {| nowand := true; disable_log := false; non_verbose := false;
     ignore_other_metrics := false; debug_mode := true;
     savecheck := false; args_model := "ser" |}.

Definition args_joint : Namespace :=
  {| nowand := true; disable_log := false; non_verbose := false;
     ignore_other_metrics := true; debug_mode := false;
     savecheck := false; args_model := "joint" |}.

(** Collaborators whose every training step returns the loss [loss]. *)
Definition observing (loss : Loss) : Collaborators :=
  {| forward := @forward _ Toy.collaborators;
     saliency_forward := @saliency_forward _ Toy.collaborators;
     torch_max := @torch_max _ Toy.collaborators;
     torch_mean := @torch_mean _ Toy.collaborators;
     compute_saliency_metrics :=
       @compute_saliency_metrics _ Toy.collaborators;
     np_mean := @np_mean _ Toy.collaborators;
     meta_observe := fun model _ => (loss, S (params model));
     begin_task := @begin_task _ Toy.collaborators;
     end_task := @end_task _ Toy.collaborators;
     get_data_loaders := @get_data_loaders _ Toy.collaborators;
     get_scheduler := @get_scheduler _ Toy.collaborators;
     scheduler_step := @scheduler_step _ Toy.collaborators;
     saliency_scheduler_step :=
       @saliency_scheduler_step _ Toy.collaborators;
     wandb := true;
     wandb_run_url := @wandb_run_url _ Toy.collaborators |}.

(** A list of losses that starts with NaN, and one that holds NaN
    further on. *)
Definition diverging : Collaborators :=
  observing (LossList [nan; 0.5]%float).

Definition diverging_late : Collaborators :=
  observing (LossList [0.5; nan]%float).

(** The state in which the first batch of the first task is met. *)
Definition first_batch_state : TrainState :=
  set_dataset (get_data_loaders Toy.dataset).2
    (init_state Toy.model Toy.dataset).

(** Both tasks handed out, in the task-il setting. *)
Definition dataset_task_il : ContinualDataset :=
  {| dataset_NAME := "toy"; SETTING := "task-il";
     N_TASKS := 2; N_CLASSES_PER_TASK := 2;
     test_loaders := test_loaders Toy.dataset_seen;
     train_loader := train_loader Toy.dataset_seen;
     source := source Toy.dataset_seen |}.

(** Five batches an epoch. *)
Definition long_loader : TrainLoader :=
  {| batches := replicate 5 (Toy.train_batch_of 0);
     has_logits := false; num_images := 10 |}.

Definition long_epochs : Collaborators :=
  {| forward := @forward _ Toy.collaborators;
     saliency_forward := @saliency_forward _ Toy.collaborators;
     torch_max := @torch_max _ Toy.collaborators;
     torch_mean := @torch_mean _ Toy.collaborators;
     compute_saliency_metrics :=
       @compute_saliency_metrics _ Toy.collaborators;
     np_mean := @np_mean _ Toy.collaborators;
     meta_observe := @meta_observe _ Toy.collaborators;
     begin_task := @begin_task _ Toy.collaborators;
     end_task := @end_task _ Toy.collaborators;
     get_data_loaders := fun dataset =>
       let '((_, test_loader), dataset) :=
         @get_data_loaders _ Toy.collaborators dataset in
       ((long_loader, test_loader),
        {| dataset_NAME := dataset_NAME dataset;
           SETTING := SETTING dataset;
           N_TASKS := N_TASKS dataset;
           N_CLASSES_PER_TASK := N_CLASSES_PER_TASK dataset;
           test_loaders := test_loaders dataset;
           train_loader := long_loader;
           source := source dataset |});
     get_scheduler := @get_scheduler _ Toy.collaborators;
     scheduler_step := @scheduler_step _ Toy.collaborators;
     saliency_scheduler_step :=
       @saliency_scheduler_step _ Toy.collaborators;
     wandb := true;
     wandb_run_url := @wandb_run_url _ Toy.collaborators |}.

(** Where the runs on these inputs end. *)
Definition debug_run : Result unit * TrainState :=
  @train _ long_epochs Toy.model Toy.dataset args_debug.

Definition joint_run : Result unit * TrainState :=
  train Toy.model Toy.dataset args_joint.

Definition no_log_run : Result unit * TrainState :=
  train Toy.model Toy.dataset Toy.args_no_log.

Definition diverging_run : Result unit * TrainState :=
  @train _ diverging Toy.model Toy.dataset args_debug.

End Edge.

(** * Properties *)

(** ** Running blocks *)

Section Blocks.
Context {S : Type}.

(** A sequence completes only if its first block completes. *)
Lemma bind_ok {A B : Type} (m : M S A) (f : A -> M S B) s b s' :
  bind m f s = (Ok b, s') ->
  exists a s1, m s = (Ok a, s1) /\ f a s1 = (Ok b, s').
Proof.
  unfold bind. destruct (m s) as [[a|e] s1]; [eauto | discriminate].
Qed.

(** However a sequence ends, either its first block raised, or it
    completed and the rest ended that way. *)
Lemma bind_any {A B : Type} (m : M S A) (f : A -> M S B) s r s' :
  bind m f s = (r, s') ->
  (exists e, m s = (Raise e, s') /\ r = Raise e) \/
  (exists a s1, m s = (Ok a, s1) /\ f a s1 = (r, s')).
Proof.
  unfold bind. destruct (m s) as [[a|e] s1]; [eauto |].
  intros [= <- <-]. eauto.
Qed.

(** A property every iteration keeps, however it ends, holds however
    the loop ends. *)
Lemma for_loop_preserves {A : Type} (P : S -> Prop) (xs : list A)
  (body : A -> M S flow) :
  (forall x s r s', P s -> body x s = (r, s') -> P s') ->
  forall s r s', P s -> for_loop xs body s = (r, s') -> P s'.
Proof.
  intros Hbody. induction xs as [|x xs IH]; intros s r s' HP; cbn.
  - intros [= <- <-]. done.
  - intros [(e & Hx & _)|(f & s1 & Hx & Hrest)]%bind_any.
    + eauto.
    + destruct f.
      * apply (IH s1 r s'); [eapply Hbody; eauto | exact Hrest].
      * unfold ret in Hrest. injection Hrest as <- <-. eauto.
Qed.

(** An invariant indexed by the number of iterations done, for a loop
    whose body never breaks. *)
Lemma for_loop_counts {A : Type} (I : nat -> S -> Prop) (xs : list A)
  (body : A -> M S flow) :
  (forall i x s f s', xs !! i = Some x -> I i s ->
     body x s = (Ok f, s') -> f = Next /\ I (Datatypes.S i) s') ->
  forall s s', I 0%nat s -> for_loop xs body s = (Ok tt, s') ->
    I (length xs) s'.
Proof.
  revert I. induction xs as [|x xs IH]; intros I Hbody s s' HI; cbn.
  - intros [= <-]. done.
  - intros (f & s1 & Hx & Hrest)%bind_ok.
    destruct (Hbody 0%nat x s f s1 eq_refl HI Hx) as [-> HI1].
    refine (IH (fun i => I (Datatypes.S i)) _ s1 s' HI1 Hrest).
    intros i y t g t' Hy. apply (Hbody (Datatypes.S i)). done.
Qed.

(** Without a break, a loop over a concatenation is the two loops in
    sequence. *)
Lemma for_loop_app {A : Type} (xs ys : list A) (body : A -> M S flow) :
  (forall x s f s', body x s = (Ok f, s') -> f = Next) ->
  forall s,
    for_loop (xs ++ ys) body s =
    (for_loop xs body ;; for_loop ys body) s.
Proof.
  intros Hnext. induction xs as [|x xs IH]; intros s; cbn; [done|].
  unfold bind. destruct (body x s) as [[f|e] s1] eqn:Hx; [|done].
  rewrite (Hnext _ _ _ _ Hx). rewrite IH. done.
Qed.

End Blocks.

(** ** mask_classes *)

Lemma fill_from_length j lo hi v row :
  length (fill_from j lo hi v row) = length row.
Proof. revert j. induction row as [|x r IH]; intros j; cbn; [done|]. by rewrite IH. Qed.

Lemma fill_from_lookup j lo hi v row (i : nat) :
  fill_from j lo hi v row !! i =
  (fun x => if (lo <=? j + Z.of_nat i)%Z && (j + Z.of_nat i <? hi)%Z
            then v else x) <$> row !! i.
Proof.
  revert j i. induction row as [|x r IH]; intros j i; [done|].
  destruct i as [|i]; cbn.
  - by rewrite Z.add_0_r.
  - rewrite IH. by replace (j + 1 + Z.of_nat i)%Z with (j + Z.pos (Pos.of_succ_nat i))%Z by lia.
Qed.

Lemma slice_fill_length start stop v row :
  length (slice_fill start stop v row) = length row.
Proof. apply fill_from_length. Qed.

(** Column [j] of a row after [row[start:stop] = v]. *)
Lemma slice_fill_lookup start stop v row (j : nat) :
  slice_fill start stop v row !! j =
  (fun x =>
     if (slice_index (Z.of_nat (length row)) start <=? Z.of_nat j)%Z
        && (Z.of_nat j <? slice_index (Z.of_nat (length row)) stop)%Z
     then v else x) <$> row !! j.
Proof. unfold slice_fill. by rewrite fill_from_lookup. Qed.

Section MaskClasses.
Context `{Payload}.

Lemma mask_classes_length outputs (dataset : ContinualDataset) k :
  length (mask_classes outputs dataset k) = length outputs.
Proof.
  unfold mask_classes, assign_columns. cbv zeta. by rewrite !length_fmap.
Qed.

Lemma mask_classes_row outputs (dataset : ContinualDataset) k (i : nat) :
  mask_classes outputs dataset k !! i =
  (fun row =>
     slice_fill ((k + 1) * N_CLASSES_PER_TASK dataset)
       (N_TASKS dataset * N_CLASSES_PER_TASK dataset) neg_inf
       (slice_fill 0 (k * N_CLASSES_PER_TASK dataset) neg_inf row))
    <$> outputs !! i.
Proof.
  unfold mask_classes, assign_columns. cbv zeta.
  rewrite !list_lookup_fmap. by destruct (outputs !! i).
Qed.

(** C1. For an output tensor with at least N_TASKS * N_CLASSES_PER_TASK
    columns and a task index 0 <= k < N_TASKS, mask_classes keeps the
    shape of the tensor, and in every row the columns before
    k * N_CLASSES_PER_TASK and those from (k+1) * N_CLASSES_PER_TASK up
    to N_TASKS * N_CLASSES_PER_TASK hold -infinity, while the columns
    of task k hold what they held before. *)
Theorem mask_classes_spec outputs (dataset : ContinualDataset) (k : Z) :
  (0 <= k < N_TASKS dataset)%Z ->
  Forall (fun row =>
    (N_TASKS dataset * N_CLASSES_PER_TASK dataset
     <= Z.of_nat (length row))%Z) outputs ->
  let c := N_CLASSES_PER_TASK dataset in
  length (mask_classes outputs dataset k) = length outputs /\
  forall (i : nat) (row : list float),
    outputs !! i = Some row ->
    exists row',
      mask_classes outputs dataset k !! i = Some row' /\
      length row' = length row /\
      forall j : nat,
        ((Z.of_nat j < k * c)%Z \/
         ((k + 1) * c <= Z.of_nat j < N_TASKS dataset * c)%Z ->
         row' !! j = Some neg_inf) /\
        ((k * c <= Z.of_nat j < (k + 1) * c)%Z ->
         row' !! j = row !! j).
Proof.
  intros Hk Hwide c. split; [apply mask_classes_length|].
  intros i row Hrow. rewrite mask_classes_row, Hrow. cbn.
  eexists. split; [done|]. split; [by rewrite !slice_fill_length|].
  pose proof (proj1 (Forall_lookup _ _) Hwide i row Hrow) as Hn.
  cbn in Hn. fold c in Hn |- *.
  intros j. rewrite !slice_fill_lookup, slice_fill_length.
  set (n := Z.of_nat (length row)) in *.
  assert (Hj : (Z.of_nat j < N_TASKS dataset * c)%Z ->
               exists x, row !! j = Some x).
  { intros Hlt. apply lookup_lt_is_Some. lia. }
  unfold slice_index. split.
  - intros Hin.
    destruct Hj as [x ->]; [nia|]. cbn. f_equal.
    destruct Hin as [Hlo|Hmid].
    + assert (0 < c)%Z by nia.
      repeat (case_match; try lia; try nia; try done);
        repeat match goal with
               | E : andb _ _ = _ |- _ =>
                   first [apply andb_true_iff in E as [? ?]
                         |apply andb_false_iff in E as [?|?]]
               end; lia || nia.
    + assert (0 < c)%Z by nia.
      repeat (case_match; try lia; try nia; try done);
        repeat match goal with
               | E : andb _ _ = _ |- _ =>
                   first [apply andb_true_iff in E as [? ?]
                         |apply andb_false_iff in E as [?|?]]
               end; lia || nia.
  - intros Hin. assert (0 < c)%Z by nia.
    destruct (row !! j) as [x|]; [cbn; f_equal|done].
    repeat (case_match; try lia; try nia; try done);
      repeat match goal with
             | E : andb _ _ = _ |- _ =>
                 first [apply andb_true_iff in E as [? ?]
                       |apply andb_false_iff in E as [?|?]]
             end; lia || nia.
Qed.

End MaskClasses.

(** ** evaluate *)

(** Runs a block symbolically: unfolds the statements and splits on every
    test met on the way. *)
Ltac unfold_block :=
  unfold sum_equal, subscript, py_div, when, assert, bind, ret, modify, gets,
    raise in *;
  cbn beta iota in *.

Ltac exec :=
  unfold_block; repeat (case_match; simplify_eq/=; unfold_block).

(** Splits a model into its attributes, the flags of its networks and
    how they lie to each other included. *)
Ltac destruct_model model :=
  destruct model as [? ? [?] [[?]|] [] [] ? ? ? ? ? ?].

(** Loops with the same body are the same loop. *)
Lemma for_loop_ext {S A : Type} (xs : list A) (body body' : A -> M S flow) :
  (forall x s, body x s = body' x s) ->
  forall s, for_loop xs body s = for_loop xs body' s.
Proof.
  intros Hext. induction xs as [|x xs IH]; intros s; cbn; [done|].
  unfold bind. rewrite Hext. destruct (body' x s) as [[[]|e] s1]; auto.
Qed.

Section Evaluate.
Context `{Collaborators}.

(** The batch loop leaves the three lists alone. *)
Lemma evaluate_batch_frame model dataset k data l r l' :
  evaluate_batch model dataset k data l = (r, l') ->
  accs l' = accs l /\
  accs_mask_classes l' = accs_mask_classes l /\
  final_sal_scores l' = final_sal_scores l.
Proof.
  unfold evaluate_batch. destruct data as [inputs labels].
  intros Hrun. exec; done.
Qed.

Lemma batches_frame model dataset k loader l r l' :
  for_loop loader (evaluate_batch model dataset k) l = (r, l') ->
  accs l' = accs l /\
  accs_mask_classes l' = accs_mask_classes l /\
  final_sal_scores l' = final_sal_scores l.
Proof.
  apply (for_loop_preserves (fun x =>
    accs x = accs l /\ accs_mask_classes x = accs_mask_classes l /\
    final_sal_scores x = final_sal_scores l)); [|done].
  intros data s r0 s' (Ha & Hb & Hc) Hrun.
  apply evaluate_batch_frame in Hrun as (-> & -> & ->). done.
Qed.

(** The list comprehension over the saliency scores reads only. *)
Lemma comprehension_subscript {A : Type} (xs : list (list A)) (i : nat)
  (l : EvalLocals) r l' :
  comprehension (fun s => subscript s i) xs l = (r, l') -> l' = l.
Proof.
  revert r l'. induction xs as [|x xs IH]; intros r l' Hrun; cbn in Hrun.
  - by injection Hrun as _ <-.
  - unfold bind at 1, subscript at 1 in Hrun.
    destruct (x !! i); [|by injection Hrun as _ <-].
    unfold ret at 1, bind at 1 in Hrun.
    destruct (comprehension _ xs l) as [[ys|e] l1];
      pose proof (IH _ _ eq_refl) as ->; by injection Hrun as _ <-.
Qed.

(** The loop over the metrics only extends [final_sal_scores]. *)
Lemma metrics_frame (ms : list nat) l r l' :
  is_Some (final_sal_scores l) ->
  for_loop ms (fun m_index =>
    scores <- gets sal_scores ;;
    values <- comprehension (fun s => subscript s m_index) scores ;;
    let values := concat values in
    modify (fun l =>
      set_final_sal_scores
        ((fun f => f ++ [torch_mean values]) <$> final_sal_scores l) l) ;;
    ret Next) l = (r, l') ->
  accs l' = accs l /\
  accs_mask_classes l' = accs_mask_classes l /\
  is_Some (final_sal_scores l').
Proof.
  intros Hsome.
  apply (for_loop_preserves (fun x =>
    accs x = accs l /\ accs_mask_classes x = accs_mask_classes l /\
    is_Some (final_sal_scores x))); [|done].
  intros m s r0 s' (Ha & Hb & [f Hf]) Hrun.
  unfold bind at 1, gets at 1 in Hrun. unfold bind at 1 in Hrun.
  destruct (comprehension _ _ s) as [[ys|e] s1] eqn:Hc;
    apply comprehension_subscript in Hc as ->.
  - exec. injection Hrun as <- <-. cbn. rewrite Hf. cbn. eauto.
  - injection Hrun as <- <-. rewrite Hf; eauto.
Qed.

(** One iteration of the loader loop: it never breaks, and unless it
    is skipped it appends one entry to each list. *)
Lemma evaluate_loader_ok model dataset last k loader l f l' :
  evaluate_loader model dataset last (k, loader) l = (Ok f, l') ->
  f = Next /\
  if last && (Z.of_nat k <? Z.of_nat (length (test_loaders dataset)) - 1)%Z
  then l' = l
  else
    exists a b,
      accs l' = accs l ++ [a] /\
      accs_mask_classes l' = accs_mask_classes l ++ [b] /\
      (class_il_compatible model = false -> a = PyInt 0) /\
      (has_saliency_net model = true -> is_Some (final_sal_scores l')) /\
      (has_saliency_net model = false ->
       final_sal_scores l' = final_sal_scores l).
Proof.
  unfold evaluate_loader.
  destruct (last && _); [by intros [= <- <-]|].
  intros Hrun. unfold bind at 1, modify at 1 in Hrun.
  unfold bind at 1 in Hrun.
  destruct (for_loop loader _ _) as [[[]|e] l1] eqn:Hbatches; [|done].
  apply batches_frame in Hbatches as (Ha & Hb & Hc). cbn in Ha, Hb, Hc.
  destruct (has_saliency_net model) eqn:Hsal.
  - exec;
      match goal with
      | Hm : for_loop _ _ _ = _ |- _ =>
          apply metrics_frame in Hm as (Hx & Hy & Hz); [|by eauto];
          cbn in Hx, Hy; rewrite Hx, Hy, Ha, Hb
      end; (split; [done|]); eexists _, _; done.
  - exec; (split; [done|]); eexists _, _; cbn;
      rewrite ?Ha, ?Hb, ?Hc; done.
Qed.

Lemma enumerate_length {A : Type} (xs : list A) :
  length (enumerate xs) = length xs.
Proof.
  unfold enumerate. rewrite length_zip_with, length_seq. lia.
Qed.

Lemma enumerate_lookup {A : Type} (xs : list A) (i k : nat) (x : A) :
  enumerate xs !! i = Some (k, x) -> k = i /\ xs !! i = Some x.
Proof.
  unfold enumerate. intros (a & b & [= -> ->] & Ha & Hb)%lookup_zip_with_Some.
  apply lookup_seq in Ha as [-> _]. done.
Qed.

(** Switching the networks to evaluation mode changes none of the
    attributes the loops read. *)
Lemma eval_mode_attributes (model : ContinualModel) :
  let model' :=
    set_saliency_net (nn_train false <$> saliency_net model)
      (set_net (nn_train false (net model)) model) in
  class_il_compatible model' = class_il_compatible model /\
  has_saliency_net model' = has_saliency_net model.
Proof.
  split; [done|]. unfold has_saliency_net. cbn.
  destruct (saliency_net model); done.
Qed.

(** The loader loop, when it completes. *)
Lemma loaders_loop model dataset last l' :
  for_loop (enumerate (test_loaders dataset))
    (evaluate_loader model dataset last) init_locals = (Ok tt, l') ->
  let n := length (test_loaders dataset) in
  length (accs l') = length (accs_mask_classes l') /\
  length (accs l') = (if last then (if n is 0 then 0 else 1) else n)%nat /\
  (class_il_compatible model = false -> Forall (eq (PyInt 0)) (accs l')) /\
  (has_saliency_net model = true -> n <> 0%nat ->
   is_Some (final_sal_scores l')).
Proof.
  intros Hrun n.
  pose (I := fun (i : nat) (l : EvalLocals) =>
    length (accs l) = length (accs_mask_classes l) /\
    length (accs l) =
      (if last then (if bool_decide (i = n /\ n <> 0) then 1 else 0)
       else i)%nat /\
    (class_il_compatible model = false -> Forall (eq (PyInt 0)) (accs l)) /\
    (has_saliency_net model = true -> (0 < length (accs l))%nat ->
     is_Some (final_sal_scores l))).
  assert (HI : I (length (enumerate (test_loaders dataset))) l').
  { refine (for_loop_counts I _ _ _ init_locals l' _ Hrun).
    - intros i [k loader] l f l1 [-> Hi]%enumerate_lookup
        (Hlen & Hcount & Hzero & Hfinal) Hstep.
      apply lookup_lt_Some in Hi. fold n in Hi.
      apply evaluate_loader_ok in Hstep as [-> Hstep]. split; [done|].
      fold n in Hstep. unfold I.
      destruct last; cbn [andb] in Hstep.
      + destruct (Z.ltb_spec (Z.of_nat i) (Z.of_nat n - 1)).
        * subst l1. rewrite bool_decide_eq_false_2 in Hcount by lia.
          rewrite bool_decide_eq_false_2 by lia. done.
        * destruct Hstep as (a & b & Ha & Hb & Hz & Hs & _).
          rewrite bool_decide_eq_false_2 in Hcount by lia.
          rewrite bool_decide_eq_true_2 by lia.
          rewrite Ha, Hb, !length_app, <- Hlen, Hcount. cbn.
          split_and!; [done|done| |by eauto].
          intros Hc. apply Forall_app. split; [by eauto|].
          constructor; [|done]. symmetry. by eauto.
      + destruct Hstep as (a & b & Ha & Hb & Hz & Hs & _).
        rewrite Ha, Hb, !length_app, <- Hlen, Hcount. cbn.
        split_and!; [done|lia| |by eauto].
        intros Hc. apply Forall_app. split; [by eauto|].
        constructor; [|done]. symmetry. by eauto.
    - unfold I. cbn. split_and!; [done| |done|lia].
      destruct last; [|done]. by rewrite bool_decide_eq_false_2 by lia. }
  rewrite enumerate_length in HI. fold n in HI.
  destruct HI as (Hlen & Hcount & Hzero & Hfinal).
  split_and!; [done| |done|].
  - rewrite Hcount. destruct last; [|done].
    destruct n; [by rewrite bool_decide_eq_false_2 by lia|].
    by rewrite bool_decide_eq_true_2 by lia.
  - intros Hs Hn. apply Hfinal; [done|]. rewrite Hcount.
    destruct last; [|lia]. rewrite bool_decide_eq_true_2 by lia. lia.
Qed.

(** After the two calls of [eval] both flags are off, however the
    networks lie to each other. *)
Lemma eval_mode_model (model : ContinualModel) :
  match training <$> saliency_net (train_mode_net false model) with
  | Some _ => train_mode_saliency_net false (train_mode_net false model)
  | None => train_mode_net false model
  end =
  set_saliency_net (nn_train false <$> saliency_net model)
    (set_net (nn_train false (net model)) model).
Proof. by destruct_model model. Qed.

(** Separate networks get their flags back. *)
Lemma after_evaluate_separate (model : ContinualModel) :
  saliency_net model = None \/
  (saliency_in_net model = false /\ net_in_saliency model = false) ->
  after_evaluate model = model.
Proof.
  destruct_model model; cbn; intros [?|[? ?]]; by simplify_eq.
Qed.

(** The flag of [net] comes back unless [net] lies inside
    [saliency_net]; the flag of [saliency_net] comes back unless it lies
    inside [net]. *)
Lemma after_evaluate_flags (model : ContinualModel) :
  (net_in_saliency model = false \/ saliency_net model = None ->
   training (net (after_evaluate model)) = training (net model)) /\
  (saliency_in_net model = false ->
   training <$> saliency_net (after_evaluate model)
   = training <$> saliency_net model).
Proof.
  destruct_model model; cbn; split; try done; by intros [?|?].
Qed.

(** The flags apart, [evaluate] leaves the model alone. *)
Lemma after_evaluate_attributes (model : ContinualModel) :
  set_saliency_net (saliency_net model)
    (set_net (net model) (after_evaluate model)) = model /\
  has_saliency_net (after_evaluate model) = has_saliency_net model.
Proof. by destruct_model model. Qed.

(** [evaluate] in one piece: the loop runs on the model in evaluation
    mode, and a completed loop hands the model back with the flags that
    the calls of [train] leave. *)
Lemma evaluate_unfold model dataset last :
  evaluate model dataset last =
  let eval_model :=
    set_saliency_net (nn_train false <$> saliency_net model)
      (set_net (nn_train false (net model)) model) in
  match for_loop (enumerate (test_loaders dataset))
          (evaluate_loader eval_model dataset last) init_locals with
  | (Raise e, _) => (Raise e, eval_model)
  | (Ok _, l) =>
      match saliency_net model with
      | Some _ =>
          match final_sal_scores l with
          | Some scores =>
              (Ok (Tuple3 (accs l) (accs_mask_classes l) scores),
               after_evaluate model)
          | None => (Raise UnboundLocalError, after_evaluate model)
          end
      | None =>
          (Ok (Tuple2 (accs l) (accs_mask_classes l)), after_evaluate model)
      end
  end.
Proof.
  unfold evaluate, after_evaluate. cbv zeta. rewrite eval_mode_model.
  destruct (for_loop _ _ _) as [[[]|e] l]; [|done].
  by destruct_model model.
Qed.

(** What a returning call of [evaluate] went through: the loader loop
    completed on the model in evaluation mode, from fresh locals. *)
Lemma evaluate_ok model dataset last r model' :
  evaluate model dataset last = (Ok r, model') ->
  exists l,
    for_loop (enumerate (test_loaders dataset))
      (evaluate_loader
         (set_saliency_net (nn_train false <$> saliency_net model)
            (set_net (nn_train false (net model)) model))
         dataset last) init_locals = (Ok tt, l) /\
    class_il_accs r = accs l /\
    task_il_accs r = accs_mask_classes l /\
    model' = after_evaluate model /\
    match saliency_net model with
    | Some _ =>
        exists scores,
          final_sal_scores l = Some scores /\
          r = Tuple3 (accs l) (accs_mask_classes l) scores
    | None => r = Tuple2 (accs l) (accs_mask_classes l)
    end.
Proof.
  rewrite evaluate_unfold. cbv zeta.
  destruct (for_loop _ _ _) as [[[]|e] l] eqn:Hloop; [|done].
  destruct (saliency_net model).
  - destruct (final_sal_scores l) as [f|] eqn:Hf; [|done].
    intros [= <- <-]. exists l. split_and!; [done..|]. by exists f.
  - intros [= <- <-]. exists l. done.
Qed.

(** C10. Whenever evaluate returns, it returns a triple (class-il
    accuracies, task-il accuracies, mean saliency scores) for a model
    with a saliency_net attribute, and a pair otherwise. *)
Theorem evaluate_return_shape model dataset last r model' :
  evaluate model dataset last = (Ok r, model') ->
  match saliency_net model with
  | Some _ => exists a am scores, r = Tuple3 a am scores
  | None => exists a am, r = Tuple2 a am
  end.
Proof.
  intros (l & _ & _ & _ & _ & Hshape)%evaluate_ok.
  destruct (saliency_net model); [|by eauto].
  destruct Hshape as (scores & _ & ->). eauto.
Qed.

(** When the loader loop raises, the exception leaves [evaluate] with
    the network still in evaluation mode. *)
Lemma evaluate_raise_keeps_eval_mode model dataset last e model' :
  evaluate model dataset last = (Raise e, model') ->
  e <> UnboundLocalError ->
  training (net model') = false.
Proof.
  rewrite evaluate_unfold. cbv zeta.
  destruct (for_loop _ _ _) as [[[]|e0] l]; [|by intros [= _ <-]].
  destruct (saliency_net model); [|done].
  destruct (final_sal_scores l); [done|]. by intros [= <- _].
Qed.

(** A model with a saliency network and no test loader: the name
    [final_sal_scores] is read before it was ever assigned. *)
Lemma evaluate_without_loaders model dataset last :
  is_Some (saliency_net model) ->
  test_loaders dataset = [] ->
  evaluate model dataset last
  = (Raise UnboundLocalError, after_evaluate model).
Proof.
  intros [sn Hsn] Hnil. rewrite evaluate_unfold, Hnil, Hsn. done.
Qed.

(** *** When evaluate returns *)

(** Without a saliency network a batch raises only where its
    predictions cannot be compared with its labels. *)
Lemma evaluate_batch_returns model dataset k data l :
  has_saliency_net model = false ->
  comparable model dataset k data = true ->
  exists l',
    evaluate_batch model dataset k data l = (Ok Next, l') /\
    total l' = (total l + float_of_nat (length data.2))%float.
Proof.
  intros Hsal. destruct data as [inputs labels].
  unfold comparable, evaluate_batch. cbn [fst snd].
  intros [[n Hn]%bool_decide_eq_true Hmask]%andb_true_iff.
  rewrite Hsal. unfold sum_equal. rewrite Hn.
  unfold when, bind, modify, ret.
  destruct (class_il_setting dataset); cbn in Hmask.
  - apply bool_decide_eq_true in Hmask as [m Hm]. rewrite Hm.
    eexists; split; reflexivity.
  - eexists; split; reflexivity.
Qed.

Lemma batches_return model dataset k loader : forall l,
  has_saliency_net model = false ->
  forallb (comparable model dataset k) loader = true ->
  exists l',
    for_loop loader (evaluate_batch model dataset k) l = (Ok tt, l') /\
    total l' =
      foldl (fun t data => (t + float_of_nat (length data.2))%float)
        (total l) loader.
Proof.
  induction loader as [|data loader IH]; intros l Hsal Hfit.
  - by exists l.
  - cbn [for_loop foldl]. unfold bind at 1.
    cbn [forallb] in Hfit. apply andb_true_iff in Hfit as [Hdata Hfit].
    destruct (evaluate_batch_returns model dataset k data l Hsal Hdata)
      as (l1 & -> & <-).
    by apply IH.
Qed.

Lemma evaluate_loader_returns model dataset last k loader l :
  has_saliency_net model = false ->
  forallb (comparable model dataset k) loader = true ->
  PrimFloat.eqb (loader_total loader) 0 = false ->
  exists l', evaluate_loader model dataset last (k, loader) l = (Ok Next, l').
Proof.
  intros Hsal Hfit Hnonzero. unfold evaluate_loader.
  destruct (last && _); [by eexists|].
  unfold bind at 1, modify at 1. unfold bind at 1.
  destruct (batches_return model dataset k loader (set_counts 0 0 0 l) Hsal
              Hfit)
    as (l1 & -> & Htotal).
  change (total (set_counts 0 0 0 l)) with 0%float in Htotal.
  fold (loader_total loader) in Htotal.
  rewrite Hsal. unfold py_div, when, bind, gets, modify, ret.
  destruct (class_il_compatible model); cbn.
  - rewrite Htotal, Hnonzero. cbn. rewrite Htotal, Hnonzero. by eexists.
  - rewrite Htotal, Hnonzero. by eexists.
Qed.

Lemma loaders_return model dataset last (entries : list (nat * list Batch)) :
  forall l,
  has_saliency_net model = false ->
  forallb (fun e => forallb (comparable model dataset e.1) e.2) entries
  = true ->
  Forall (fun e => PrimFloat.eqb (loader_total e.2) 0 = false) entries ->
  exists l',
    for_loop entries (evaluate_loader model dataset last) l = (Ok tt, l').
Proof.
  induction entries as [|[k loader] entries IH]; intros l Hsal Hfit Hall.
  - by eexists.
  - apply Forall_cons in Hall as [Hnonzero Hall].
    cbn [forallb fst snd] in Hfit.
    apply andb_true_iff in Hfit as [Hloader Hfit].
    cbn [for_loop]. unfold bind at 1.
    destruct (evaluate_loader_returns model dataset last k loader l Hsal
                Hloader Hnonzero) as (l1 & ->).
    by apply IH.
Qed.

(** For a model without a saliency network, [evaluate] returns as soon
    as every test loader holds a label and the predictions for every
    batch can be compared with its labels. *)
Lemma evaluate_returns model dataset last :
  saliency_net model = None ->
  forallb (fun e =>
    forallb
      (comparable
         (set_saliency_net (nn_train false <$> saliency_net model)
            (set_net (nn_train false (net model)) model))
         dataset e.1) e.2)
    (enumerate (test_loaders dataset)) = true ->
  Forall (fun loader => PrimFloat.eqb (loader_total loader) 0 = false)
    (test_loaders dataset) ->
  exists accs accs_mask,
    evaluate model dataset last = (Ok (Tuple2 accs accs_mask), model).
Proof.
  intros Hnone Hfit Hall. rewrite evaluate_unfold. cbv zeta.
  match goal with
  | |- context [for_loop ?xs (evaluate_loader ?m _ _) ?l] =>
      destruct (loaders_return m dataset last xs l) as (l' & ->)
  end.
  - unfold has_saliency_net. cbn. by rewrite Hnone.
  - done.
  - apply Forall_lookup. intros i [k loader] [-> Hi]%enumerate_lookup.
    by eapply (proj1 (Forall_lookup _ _) Hall).
  - rewrite Hnone, after_evaluate_separate by auto. by eexists _, _.
Qed.

(** *** The order of the entries *)






(** *** Evaluating the last loader only *)

Lemma enumerate_snoc {A : Type} (xs : list A) (y : A) :
  enumerate (xs ++ [y]) = enumerate xs ++ [(length xs, y)].
Proof.
  unfold enumerate. rewrite length_app. cbn.
  rewrite seq_app, zip_with_app by (by rewrite length_seq). done.
Qed.

(** With last=True, the loaders before the last one are passed over. *)
Lemma skipped_loaders model dataset (entries : list (nat * list Batch)) l :
  Forall (fun e =>
    (Z.of_nat e.1 < Z.of_nat (length (test_loaders dataset)) - 1)%Z)
    entries ->
  for_loop entries (evaluate_loader model dataset true) l = (Ok tt, l).
Proof.
  induction 1 as [|[k loader] entries Hk _ IH]; [done|]. cbn.
  unfold bind. cbn. cbn in Hk.
  destruct (Z.ltb_spec (Z.of_nat k)
              (Z.of_nat (length (test_loaders dataset)) - 1)); [|lia].
  cbn. apply IH.
Qed.

Lemma last_loader_only model dataset earlier newest l :
  test_loaders dataset = earlier ++ [newest] ->
  for_loop (enumerate (test_loaders dataset))
    (evaluate_loader model dataset true) l =
  for_loop [(length earlier, newest)]
    (evaluate_loader model dataset true) l.
Proof.
  intros Hloaders. rewrite Hloaders at 1. rewrite enumerate_snoc.
  rewrite for_loop_app.
  - unfold bind at 1. rewrite skipped_loaders; [done|].
    apply Forall_lookup. intros i [k loader] [-> Hi]%enumerate_lookup.
    apply lookup_lt_Some in Hi. rewrite Hloaders, length_app. cbn. lia.
  - intros [k loader] s f s' Hrun.
    by apply evaluate_loader_ok in Hrun as [-> _].
Qed.

(** With last=True the result does not depend on what the loaders
    before the last one hold. *)
Lemma evaluate_last_only model dataset earlier earlier' newest :
  test_loaders dataset = earlier ++ [newest] ->
  length earlier' = length earlier ->
  evaluate model (with_test_loaders (earlier' ++ [newest]) dataset) true =
  evaluate model dataset true.
Proof.
  intros Hloaders Hlen. rewrite !evaluate_unfold. cbv zeta.
  rewrite (last_loader_only _ dataset earlier newest) by done.
  rewrite (last_loader_only _ (with_test_loaders _ dataset) earlier' newest)
    by done.
  rewrite Hlen. cbn [for_loop]. unfold bind.
  replace (evaluate_loader _ (with_test_loaders _ dataset) true
             (length earlier, newest) init_locals)
    with (evaluate_loader
            (set_saliency_net (nn_train false <$> saliency_net model)
               (set_net (nn_train false (net model)) model))
            dataset true (length earlier, newest) init_locals); [done|].
  unfold evaluate_loader. cbn [test_loaders with_test_loaders].
  by rewrite Hloaders, !length_app, Hlen.
Qed.

End Evaluate.

(** ** The mode of the networks during and after evaluate *)

Section EvaluationMode.
Context `{Collaborators}.

(** A batch is evaluated alike by forward passes that agree on the
    model at hand. *)
Lemma evaluate_batch_forward fwd sal_fwd model dataset k data l :
  (forall inputs task,
     fwd model inputs task = forward model inputs task /\
     sal_fwd model inputs task = saliency_forward model inputs task) ->
  @evaluate_batch _ (with_forward fwd sal_fwd) model dataset k data l
  = evaluate_batch model dataset k data l.
Proof.
  intros Hagree. unfold evaluate_batch. destruct data as [inputs labels].
  cbn [forward saliency_forward torch_max compute_saliency_metrics
       with_forward].
  destruct (Hagree inputs
              (if class_il_compatible model then None else Some k))
    as [-> ->].
  done.
Qed.

Lemma evaluate_loader_forward fwd sal_fwd model dataset last entry l :
  (forall inputs task,
     fwd model inputs task = forward model inputs task /\
     sal_fwd model inputs task = saliency_forward model inputs task) ->
  @evaluate_loader _ (with_forward fwd sal_fwd) model dataset last entry l
  = evaluate_loader model dataset last entry l.
Proof.
  intros Hagree. unfold evaluate_loader. destruct entry as [k loader].
  destruct (last && _); [done|].
  unfold bind at 1 3, modify at 1 3.
  unfold bind at 1 3.
  rewrite (for_loop_ext loader
             (@evaluate_batch _ (with_forward fwd sal_fwd) model dataset k)
             (evaluate_batch model dataset k))
    by (intros; by apply evaluate_batch_forward).
  done.
Qed.

(** C8. Whenever evaluate returns, model.net.training is what it was
    before the call unless net is saliency_net or one of its
    sub-modules, and model.saliency_net.training is what it was unless
    saliency_net is net or one of its sub-modules; so both flags are
    restored for separate networks. In between the networks are in
    evaluation mode: evaluate returns the same with any other forward
    pass that agrees with the model's on networks in evaluation mode,
    and whatever the two flags were on entry. *)
Theorem evaluate_restores_training model dataset last r model' :
  evaluate model dataset last = (Ok r, model') ->
  (net_in_saliency model = false \/ saliency_net model = None ->
   training (net model') = training (net model)) /\
  (saliency_in_net model = false ->
   training <$> saliency_net model' = training <$> saliency_net model) /\
  (forall fwd sal_fwd,
     (forall m inputs task, in_eval_mode m ->
        fwd m inputs task = forward m inputs task /\
        sal_fwd m inputs task = saliency_forward m inputs task) ->
     @evaluate _ (with_forward fwd sal_fwd) model dataset last
     = (Ok r, model')) /\
  forall b1 b2 : bool,
    (evaluate
       (set_saliency_net (nn_train b2 <$> saliency_net model)
          (set_net (nn_train b1 (net model)) model))
       dataset last).1 = Ok r.
Proof.
  intros Hrun.
  pose proof (evaluate_ok _ _ _ _ _ Hrun) as (l & _ & _ & _ & -> & _).
  destruct (after_evaluate_flags model) as [Hnet Hsal].
  split_and!; [done..| |].
  - intros fwd sal_fwd Hagree. rewrite <- Hrun.
    rewrite !evaluate_unfold. cbv zeta.
    rewrite (for_loop_ext _
               (@evaluate_loader _ (with_forward fwd sal_fwd) _ dataset last)
               (evaluate_loader
                  (set_saliency_net (nn_train false <$> saliency_net model)
                     (set_net (nn_train false (net model)) model))
                  dataset last)); [done|].
    intros entry l0. apply evaluate_loader_forward.
    intros inputs task. apply Hagree. split; [done|].
    cbn. destruct (saliency_net model); by intros sn [= <-].
  - intros b1 b2. rewrite evaluate_unfold in Hrun |- *. cbv zeta in *.
    replace (set_saliency_net
               (nn_train false <$>
                  saliency_net
                    (set_saliency_net (nn_train b2 <$> saliency_net model)
                       (set_net (nn_train b1 (net model)) model)))
               (set_net
                  (nn_train false
                     (net
                        (set_saliency_net
                           (nn_train b2 <$> saliency_net model)
                           (set_net (nn_train b1 (net model)) model))))
                  (set_saliency_net (nn_train b2 <$> saliency_net model)
                     (set_net (nn_train b1 (net model)) model))))
      with (set_saliency_net (nn_train false <$> saliency_net model)
              (set_net (nn_train false (net model)) model))
      by (by destruct_model model).
    destruct (for_loop _ _ _) as [[[]|e] l0]; [|done].
    cbn [saliency_net set_saliency_net set_net].
    destruct (saliency_net model); cbn.
    + destruct (final_sal_scores l0); [|done]. by injection Hrun as <-.
    + by injection Hrun as <-.
Qed.

End EvaluationMode.

(** ** Blocks that respect a preorder on states *)

Section Respects.
Context {S : Type} (R : S -> S -> Prop) `{!PreOrder R}.

Lemma respects_ret {A : Type} (a : A) : respects R (ret a).
Proof. by intros s r s' [= _ <-]. Qed.

Lemma respects_raise {A : Type} (e : exn) : respects R (@raise S A e).
Proof. by intros s r s' [= _ <-]. Qed.

Lemma respects_gets {A : Type} (f : S -> A) : respects R (gets f).
Proof. by intros s r s' [= _ <-]. Qed.

Lemma respects_modify (f : S -> S) :
  (forall s, R s (f s)) -> respects R (modify f).
Proof. intros Hf s r s' [= _ <-]. apply Hf. Qed.

Lemma respects_bind {A B : Type} (m : M S A) (f : A -> M S B) :
  respects R m -> (forall a, respects R (f a)) -> respects R (bind m f).
Proof.
  intros Hm Hf s r s' [(e & Hrun & _)|(a & s1 & Hrun & Hrest)]%bind_any.
  - by eapply Hm.
  - etrans; [by eapply Hm | by eapply Hf].
Qed.

Lemma respects_when (b : bool) (body : M S unit) :
  (b = true -> respects R body) -> respects R (when b body).
Proof. destruct b; [by auto | intros _; apply respects_ret]. Qed.

Lemma respects_assert (b : bool) : respects R (assert b).
Proof. destruct b; [apply respects_ret | apply respects_raise]. Qed.

Lemma respects_subscript {A : Type} (xs : list A) (i : nat) :
  respects R (subscript xs i).
Proof.
  unfold subscript. destruct (xs !! i);
    [apply respects_ret | apply respects_raise].
Qed.

Lemma respects_for_loop {A : Type} (xs : list A) (body : A -> M S flow) :
  (forall x, respects R (body x)) -> respects R (for_loop xs body).
Proof.
  intros Hbody s r s'.
  apply (for_loop_preserves (R s)); [|done].
  intros x s1 r1 s2 Hs Hrun. etrans; [done | by eapply Hbody].
Qed.

End Respects.

Section Traces.
Context `{Payload}.

#[export] Instance extends_with_preorder (P : event -> Prop) :
  PreOrder (extends_with P).
Proof.
  split.
  - intros s. exists []. by rewrite app_nil_r.
  - intros s1 s2 s3 (e1 & H1 & HP1) (e2 & H2 & HP2).
    exists (e1 ++ e2). rewrite H2, H1, app_assoc. split; [done|].
    by apply Forall_app.
Qed.

#[export] Instance steady_preorder : PreOrder steady.
Proof.
  split.
  - done.
  - intros s1 s2 s3 (? & ? & ?) (? & ? & ?). unfold steady.
    split_and!; congruence.
Qed.

#[export] Instance same_results_preorder : PreOrder same_results.
Proof.
  split.
  - done.
  - intros s1 s2 s3 [? ?] [? ?]. unfold same_results. split; congruence.
Qed.

#[export] Instance grown_preorder : PreOrder grown.
Proof.
  split.
  - split; intros i old Hi; exists []; by rewrite app_nil_r.
  - intros s1 s2 s3 [H1 H1m] [H2 H2m]. split; intros i old Hi.
    + destruct (H1 _ _ Hi) as [more1 Hi1].
      destruct (H2 _ _ Hi1) as [more2 Hi2].
      exists (more1 ++ more2). by rewrite app_assoc.
    + destruct (H1m _ _ Hi) as [more1 Hi1].
      destruct (H2m _ _ Hi1) as [more2 Hi2].
      exists (more1 ++ more2). by rewrite app_assoc.
Qed.

Lemma same_results_grown (s s' : TrainState) :
  same_results s s' -> grown s s'.
Proof.
  intros [Hr Hrm]. split; intros i old Hi; exists [];
    rewrite app_nil_r; congruence.
Qed.

(** Switching the mode of the network leaves the shape of the model
    alone. *)
Lemma train_mode_net_shape mode (model : ContinualModel) :
  model_shape (train_mode_net mode model) = model_shape model.
Proof. by destruct_model model. Qed.

Lemma steady_train_mode mode (s : TrainState) :
  steady s (set_model (train_mode_net mode) s).
Proof. split_and!; [done..|]. apply train_mode_net_shape. Qed.

(** One recorded call extends the trace by that call. *)
Lemma extends_with_event (P : event -> Prop) e s :
  P e -> extends_with P s (add_event e s).
Proof. intros HP. exists [e]. split; [done|]. by constructor. Qed.

(** A change that leaves the trace alone. *)
Lemma extends_with_silent (P : event -> Prop) s s' :
  trace s' = trace s -> extends_with P s s'.
Proof. intros Heq. exists []. by rewrite app_nil_r. Qed.

(** Calls that satisfy [P] also satisfy what [P] implies. *)
Lemma extends_with_mono (P Q : event -> Prop) s s' :
  (forall e, P e -> Q e) -> extends_with P s s' -> extends_with Q s s'.
Proof.
  intros HPQ (evs & Heq & HP). exists evs. split; [done|].
  by eapply Forall_impl.
Qed.

End Traces.

(** Applies the rules above along the structure of a block; the blocks
    already dealt with are looked up among the [blocks] hints. *)
Create HintDb blocks.

Tactic Notation "respects_rule" uconstr(lem) :=
  apply lem; try solve [typeclasses eauto].

Ltac respects_step :=
  first
    [ solve [auto 1 with blocks]
    | lazymatch goal with
      | |- respects _ (bind _ _) =>
          respects_rule respects_bind; [|intros ?]
      | |- respects _ (ret _) => respects_rule respects_ret
      | |- respects _ (raise _) => respects_rule respects_raise
      | |- respects _ (gets _) => respects_rule respects_gets
      | |- respects _ (assert _) => respects_rule respects_assert
      | |- respects _ (subscript _ _) => respects_rule respects_subscript
      | |- respects _ (when _ _) => respects_rule respects_when; intros ?
      | |- respects _ (for_loop _ _) =>
          respects_rule respects_for_loop; intros ?
      | |- respects _ (tell _) =>
          unfold tell; respects_rule respects_modify; intros ?
      | |- respects _ (modify _) => respects_rule respects_modify; intros ?
      | |- respects _ net_train => unfold net_train
      | |- respects _ (extend_entry _ _ _) => unfold extend_entry
      | |- respects _ (unpack _ _) => unfold unpack
      | |- respects _ (check_loss _) => unfold check_loss
      | |- respects _ (if ?b then _ else _) => destruct b eqn:?
      | |- respects _ (match ?x with _ => _ end) => destruct x eqn:?
      end ].

(** The goals the rules leave: one recorded call, or a change of the
    state that is silent. *)
Ltac respects_side :=
  lazymatch goal with
  | |- extends_with _ _ (add_event _ _) =>
      apply extends_with_event; try done
  | |- extends_with _ _ _ => apply extends_with_silent; done
  | |- steady _ _ => first [done | apply steady_train_mode]
  end.

Ltac respects_auto := repeat respects_step; try respects_side.

Section Train.
Context `{Collaborators}.

(** [evaluate] leaves the shape of the model alone, however it ends. *)
Lemma evaluate_shape model dataset last r model' :
  evaluate model dataset last = (r, model') ->
  model_shape model' = model_shape model.
Proof.
  rewrite evaluate_unfold. cbv zeta.
  destruct (for_loop _ _ _) as [[[]|e] l].
  - destruct_model model; cbn;
      try destruct (final_sal_scores l); by intros [= _ <-].
  - intros [= _ <-]. by destruct_model model.
Qed.


Lemma call_evaluate_extends (P : event -> Prop) t last :
  P (Evaluate t last) -> respects (extends_with P) (call_evaluate t last).
Proof.
  intros HP. unfold call_evaluate. respects_rule respects_bind.
  - unfold tell. apply respects_modify. intros s.
    by apply extends_with_event.
  - intros _ s r s'.
    destruct (evaluate _ _ _) as [r0 m]. intros [= _ <-].
    by apply extends_with_silent.
Qed.

Lemma call_evaluate_steady t last : respects steady (call_evaluate t last).
Proof.
  unfold call_evaluate. respects_rule respects_bind.
  - unfold tell. by apply respects_modify.
  - intros _ s r s'.
    destruct (evaluate _ _ _) as [r0 m] eqn:Hrun. intros [= _ <-].
    apply evaluate_shape in Hrun. done.
Qed.

Lemma call_evaluate_work t :
  respects (extends_with (work_of t)) (call_evaluate t true).
Proof. by apply call_evaluate_extends. Qed.

Hint Resolve call_evaluate_work call_evaluate_steady : blocks.

Lemma evaluate_previous_work args t :
  respects (extends_with (work_of t)) (evaluate_previous args t).
Proof. unfold evaluate_previous. respects_auto. Qed.

Lemma train_batch_work args t epoch entry :
  respects (extends_with (work_of t)) (train_batch args t epoch entry).
Proof. unfold train_batch. respects_auto. Qed.

Lemma train_batch_steady args t epoch entry :
  respects steady (train_batch args t epoch entry).
Proof. unfold train_batch. respects_auto. Qed.

Hint Resolve evaluate_previous_work train_batch_work train_batch_steady
  : blocks.

Lemma train_epoch_work args t loader scheduler epoch :
  respects (extends_with (work_of t))
    (train_epoch args t loader scheduler epoch).
Proof. unfold train_epoch. respects_auto. Qed.

Lemma train_epoch_steady args t loader scheduler epoch :
  respects steady (train_epoch args t loader scheduler epoch).
Proof. unfold train_epoch. respects_auto. Qed.

Hint Resolve train_epoch_work train_epoch_steady : blocks.

(** Extending one entry keeps the number of entries. *)
Lemma extend_entry_length {S : Type} xs i ys (s : S) r s' :
  extend_entry xs i ys s = (Ok r, s') -> length r = length xs /\ s' = s.
Proof.
  unfold extend_entry. intros Hrun. exec.
  by rewrite length_insert.
Qed.

Lemma evaluate_previous_steady args t :
  respects steady (evaluate_previous args t).
Proof.
  unfold evaluate_previous. respects_rule respects_when. intros _.
  intros s r s' Hrun.
  apply bind_any in Hrun as [(e & Hrun & _)|(accs & s1 & Hrun & Hrest)];
    [by eapply call_evaluate_steady|].
  apply call_evaluate_steady in Hrun. etrans; [done|]. clear Hrun.
  unfold bind at 1, gets at 1 in Hrest. unfold bind at 1 in Hrest.
  destruct (extend_entry _ _ _ s1) as [[r1|e] s2] eqn:Hext.
  - apply extend_entry_length in Hext as [Hlen ->].
    unfold bind at 1, modify at 1 in Hrest.
    unfold bind at 1, gets at 1 in Hrest.
    destruct (class_il_setting _); [|by injection Hrest as _ <-].
    unfold when, bind at 1, gets at 1 in Hrest. cbn in Hrest.
    unfold bind at 1 in Hrest.
    destruct (extend_entry _ _ _ _) as [[r2|e] s3] eqn:Hext.
    + apply extend_entry_length in Hext as [Hlen2 ->].
      by injection Hrest as _ <-.
    + unfold extend_entry in Hext. exec; done.
  - unfold extend_entry in Hext. exec; done.
Qed.

Hint Resolve evaluate_previous_steady : blocks.

Lemma task_training_work args t :
  respects (extends_with (work_of t)) (task_training args t).
Proof. unfold task_training. respects_auto. Qed.

(** Training leaves the lengths of the result lists and the shape of
    the model alone. *)
Lemma task_training_steady args t :
  respects steady (task_training args t).
Proof. unfold task_training. respects_auto. Qed.

(** Work on task [t] is allowed whatever the flags are. *)
Lemma work_allowed args t e : work_of t e -> allowed args t e.
Proof.
  intros [Hwork Htag]. unfold allowed.
  destruct e as [[]| | | | | | | | | | | | |? []| | | | | | | | | | | |];
    done.
Qed.

Lemma report_allowed args t accs sal_metrics :
  respects (extends_with (allowed args t)) (report args t accs sal_metrics).
Proof.
  unfold report. respects_auto;
    unfold allowed; cbn; destruct (disable_log args), (nowand args); done.
Qed.

Lemma checkpoint_allowed args t sal_metrics :
  respects (extends_with (allowed args t)) (checkpoint args t sal_metrics).
Proof.
  unfold checkpoint. respects_auto;
    unfold allowed; cbn; destruct (savecheck args); done.
Qed.

Hint Resolve report_allowed checkpoint_allowed : blocks.

Lemma task_closing_allowed args t :
  respects (extends_with (allowed args t)) (task_closing args t).
Proof.
  unfold task_closing. respects_rule respects_bind.
  { by apply call_evaluate_extends. }
  intros accs. respects_auto.
Qed.

(** Whatever iteration [t] calls, however it ends, is allowed. *)
Lemma train_task_allowed args t :
  respects (extends_with (allowed args t)) (train_task args t).
Proof.
  unfold train_task. respects_rule respects_bind.
  { intros s r s' Hrun. apply task_training_work in Hrun.
    eapply extends_with_mono; [apply work_allowed | done]. }
  intros _. respects_rule respects_bind.
  { apply task_closing_allowed. }
  intros _. respects_rule respects_ret.
Qed.

(** *** Completed blocks *)

Lemma told_nil s : told [] s s.
Proof. unfold told. by rewrite app_nil_r. Qed.

Lemma told_event e s : told [e] s (add_event e s).
Proof. done. Qed.

Lemma told_app evs1 evs2 s1 s2 s3 :
  told evs1 s1 s2 -> told evs2 s2 s3 -> told (evs1 ++ evs2) s1 s3.
Proof.
  intros (Ht1 & ? & ? & ? & ? & ?) (Ht2 & ? & ? & ? & ? & ?).
  unfold told. rewrite Ht2, Ht1, app_assoc.
  split_and!; congruence.
Qed.

(** A returning evaluation is recorded; of the state it changes the
    model only, which it leaves as [evaluate] hands it back. *)
Lemma call_evaluate_ok t last s accs s' :
  call_evaluate t last s = (Ok accs, s') ->
  evaluate (st_model s) (st_dataset s) last = (Ok accs, st_model s') /\
  s' = set_model (fun _ => st_model s') (add_event (Evaluate t last) s) /\
  model_shape (st_model s') = model_shape (st_model s).
Proof.
  unfold call_evaluate, tell, bind at 1, modify at 1. cbn.
  destruct (evaluate _ _ _) as [r m] eqn:Hrun. intros [= -> <-].
  split_and!; [done..|]. by eapply evaluate_shape.
Qed.

Lemma report_ok args t accs sal_metrics s s' :
  report args t accs sal_metrics s = (Ok tt, s') ->
  told (report_events args t (np_mean <$> rows accs) accs sal_metrics
          (has_saliency_net (st_model s)
           && has_saliency_scheduler (st_model s))) s s'.
Proof.
  unfold report, report_events, tell. intros Hrun.
  destruct (disable_log args), (nowand args); exec;
    unfold told; cbn; rewrite <- ?app_assoc; done.
Qed.

(** A checkpoint that completes had a logger to dump. *)
Lemma checkpoint_ok args t sal_metrics s s' :
  checkpoint args t sal_metrics s = (Ok tt, s') ->
  told (checkpoint_events args t (has_saliency_net (st_model s))
          (buffer_size_in_args (st_model s)) (results s)
          (results_mask_classes s) sal_metrics) s s' /\
  (savecheck args = true -> disable_log args = false).
Proof.
  unfold checkpoint, checkpoint_events, tell. intros Hrun.
  destruct (savecheck args);
    [|exec; simplify_eq; split; [apply told_nil|done]].
  destruct (disable_log args); [by exec|].
  destruct (has_saliency_net (st_model s)) eqn:Hsal,
    (buffer_size_in_args (st_model s)) eqn:Hbuf;
    exec; cbn in *; simplify_eq;
    (split; [|done]); unfold told; cbn; rewrite <- ?app_assoc; done.
Qed.

(** The second half of a completed iteration. *)
Lemma task_closing_ok args t s s' :
  task_closing args t s = (Ok tt, s') ->
  exists accs,
    evaluate (st_model s) (st_dataset s) false = (Ok accs, st_model s') /\
    model_shape (st_model s') = model_shape (st_model s) /\
    st_dataset s' = st_dataset s /\
    results s' = results s ++ [class_il_accs accs] /\
    results_mask_classes s' =
      results_mask_classes s ++ [task_il_accs accs] /\
    (savecheck args = true -> disable_log args = false) /\
    exists mean_acc accs' sal_metrics with_sal_lr,
      trace s' =
        trace s ++ [Evaluate t false]
        ++ report_events args t mean_acc accs' sal_metrics with_sal_lr
        ++ checkpoint_events args t (has_saliency_net (st_model s))
             (buffer_size_in_args (st_model s)) (results s')
             (results_mask_classes s') sal_metrics.
Proof.
  unfold task_closing.
  intros (accs & s1 & Heval & Hrest)%bind_ok.
  apply call_evaluate_ok in Heval as (Heval & Hs1 & Hsh1).
  assert (trace s1 = trace s ++ [Evaluate t false] /\
          st_dataset s1 = st_dataset s /\ results s1 = results s /\
          results_mask_classes s1 = results_mask_classes s)
    as (Ht1 & Hd1 & Hr1 & Hrm1) by (by rewrite Hs1).
  clear Hs1.
  unfold bind at 1, modify at 1 in Hrest.
  unfold bind at 1, modify at 1 in Hrest.
  unfold bind at 1, gets at 1 in Hrest.
  destruct (split_saliency _ accs) as [sal_metrics accs'].
  apply bind_ok in Hrest as ([] & s2 & Hreport & Hcheck).
  apply report_ok in Hreport as (Ht2 & Hm2 & Hd2 & Hr2 & Hrm2 & _).
  apply checkpoint_ok in Hcheck
    as [(Ht3 & Hm3 & Hd3 & Hr3 & Hrm3 & _) Hlog].
  cbn in Ht2, Hm2, Hd2, Hr2, Hrm2.
  pose proof Hsh1 as Hshape. injection Hsh1 as Hsal _ Hbuf.
  exists accs.
  rewrite Hm3, Hm2, Hd3, Hd2, Hr3, Hr2, Hrm3, Hrm2, Hd1, Hr1, Hrm1.
  split_and!; [done..|].
  eexists _, accs', sal_metrics, _.
  rewrite Ht3, Ht2, Hm2, Hr2, Hrm2, Hr1, Hrm1. cbn.
  rewrite Ht1, <- !app_assoc, <- Hsal, <- Hbuf. done.
Qed.

(** A completed iteration. With [t] entries in each result list
    before, it is a [task_segment]. *)
Lemma train_task_ok args t s f s' :
  train_task args t s = (Ok f, s') ->
  f = Next /\
  length (results s') = Datatypes.S (length (results s)) /\
  length (results_mask_classes s') =
    Datatypes.S (length (results_mask_classes s)) /\
  model_shape (st_model s') = model_shape (st_model s) /\
  (savecheck args = true -> disable_log args = false) /\
  exists seg,
    trace s' = trace s ++ seg /\
    Forall (allowed args t) seg /\
    (length (results s) = t -> length (results_mask_classes s) = t ->
     task_segment args t (has_saliency_net (st_model s))
       (buffer_size_in_args (st_model s)) seg).
Proof.
  intros Hrun.
  destruct (train_task_allowed _ _ _ _ _ Hrun) as (seg & Hseg & Hall).
  unfold train_task in Hrun.
  apply bind_ok in Hrun as ([] & s1 & Htrain & Hrun).
  apply bind_ok in Hrun as ([] & s2 & Hclose & Hrun).
  injection Hrun as <- <-.
  pose proof (task_training_steady _ _ _ _ _ Htrain) as (Hr1 & Hrm1 & Hsh1).
  apply task_training_work in Htrain as (work & Hw & Hwork).
  apply task_closing_ok in Hclose
    as (accs & _ & Hm2 & _ & Hr2 & Hrm2 & Hlog & mean & accs' & sal & lr
        & Ht2).
  split_and!; [done|..].
  - rewrite Hr2, length_app, Hr1. cbn. lia.
  - rewrite Hrm2, length_app, Hrm1. cbn. lia.
  - by rewrite Hm2.
  - done.
  - exists seg. split_and!; [done..|]. intros Hlen Hlenm.
    exists work, mean, accs', sal, lr, (results s2),
      (results_mask_classes s2).
    injection Hsh1 as Hsal _ Hbuf.
    rewrite <- Hsal, <- Hbuf. split_and!.
    + apply (app_inv_head (trace s)). rewrite <- Hseg, Ht2, Hw.
      by rewrite <- !app_assoc.
    + eapply Forall_impl; [done|]. by intros e [? _].
    + rewrite Hr2, length_app, Hr1. cbn. lia.
    + rewrite Hrm2, length_app, Hrm1. cbn. lia.
Qed.

(** A completed run of the main loop over the tasks [a, a + n), entered
    with [a] entries in each result list: one segment per task. *)
Lemma tasks_loop args n : forall a s s',
  for_loop (seq a n) (train_task args) s = (Ok tt, s') ->
  length (results s) = a ->
  length (results_mask_classes s) = a ->
  length (results s') = (a + n)%nat /\
  length (results_mask_classes s') = (a + n)%nat /\
  model_shape (st_model s') = model_shape (st_model s) /\
  (n <> 0%nat -> savecheck args = true -> disable_log args = false) /\
  exists segs,
    length segs = n /\
    trace s' = trace s ++ concat segs /\
    forall i seg, segs !! i = Some seg ->
      Forall (allowed args (a + i)) seg /\
      task_segment args (a + i) (has_saliency_net (st_model s))
        (buffer_size_in_args (st_model s)) seg.
Proof.
  induction n as [|n IH]; intros a s s' Hrun Hr Hrm; cbn in Hrun.
  - injection Hrun as <-. rewrite Nat.add_0_r.
    split_and!; [done..|]. exists []. rewrite app_nil_r.
    split_and!; [done..|]. by intros i seg [=].
  - apply bind_ok in Hrun as (f & s1 & Hstep & Hrun).
    apply train_task_ok in Hstep
      as (-> & Hr1 & Hrm1 & Hsh1 & Hlog & seg & Ht1 & Hall & Hseg).
    apply IH in Hrun
      as (Hr2 & Hrm2 & Hsh2 & _ & segs & Hlen & Ht2 & Hsegs); [|lia..].
    split_and!; [lia|lia|congruence|done|].
    exists (seg :: segs). cbn. rewrite Ht2, Ht1, <- app_assoc, Hlen.
    split_and!; [done..|].
    intros [|i] seg'; cbn.
    + intros [= <-]. rewrite Nat.add_0_r. split; [done|]. by apply Hseg.
    + intros Hi. apply Hsegs in Hi. rewrite <- Nat.add_succ_comm.
      injection Hsh1 as Hsal _ Hbuf. by rewrite <- Hsal, <- Hbuf.
Qed.

(** The warm-up loop only switches the network to training mode. *)
Lemma warm_up_loop (xs : list nat) s r s' :
  for_loop xs (fun _ => net_train ;; ret Next) s = (r, s') ->
  r = Ok tt /\
  trace s' = trace s /\ st_dataset s' = st_dataset s /\
  results s' = results s /\
  results_mask_classes s' = results_mask_classes s /\
  model_shape (st_model s') = model_shape (st_model s).
Proof.
  revert s. induction xs as [|x xs IH]; intros s; cbn.
  - by intros [= <- <-].
  - intros (-> & -> & -> & -> & -> & ->)%IH. split_and!; [done..|].
    apply train_mode_net_shape.
Qed.

(** A completed [start]. *)
Lemma start_ok args s s' :
  start args s = (Ok tt, s') ->
  trace s' = trace s ++ start_events args /\
  st_dataset s' = st_dataset s /\
  results s' = [] /\ results_mask_classes s' = [] /\
  model_shape (st_model s') = model_shape (st_model s) /\
  (nowand args = false -> wandb = true).
Proof.
  unfold start, start_events, tell. intros Hrun.
  destruct (nowand args), (disable_log args), (ignore_other_metrics args),
    wandb; exec;
    repeat match goal with
           | Hloop : for_loop _ _ _ = _ |- _ =>
               apply warm_up_loop in Hloop
                 as (? & Ht & Hd & Hr & Hrm & Hsh);
               cbn in Ht, Hd, Hr, Hrm, Hsh
           end;
    simplify_eq; cbn; rewrite ?Ht, <- ?app_assoc; try done;
    split_and!; try done; unfold model_shape; congruence.
Qed.

(** [finish] always completes. *)
Lemma finish_ok args s r s' :
  finish args s = (r, s') ->
  r = Ok tt /\
  told (finish_events args (results s) (results_mask_classes s)
          wandb_run_url) s s'.
Proof.
  unfold finish, finish_events, tell. intros Hrun.
  destruct (disable_log args), (ignore_other_metrics args), (nowand args);
    exec; simplify_eq; (split; [done|]);
    unfold told; cbn; rewrite <- ?app_assoc, ?app_nil_r; done.
Qed.

(** *** Whole runs *)

(** A completed run: the calls of [start], one segment per task, the
    calls of [finish]. *)
Lemma train_ok model dataset args s' :
  train model dataset args = (Ok tt, s') ->
  let n := Z.to_nat (N_TASKS dataset) in
  exists s1 s2 segs,
    start args (init_state model dataset) = (Ok tt, s1) /\
    for_loop (seq 0 n) (train_task args) s1 = (Ok tt, s2) /\
    trace s1 = start_events args /\
    trace s2 = start_events args ++ concat segs /\
    trace s' =
      start_events args ++ concat segs
      ++ finish_events args (results s') (results_mask_classes s')
           wandb_run_url /\
    length segs = n /\
    (forall t seg, segs !! t = Some seg ->
       Forall (allowed args t) seg /\
       task_segment args t (has_saliency_net model)
         (buffer_size_in_args model) seg) /\
    length (results s') = n /\
    length (results_mask_classes s') = n /\
    (nowand args = false -> wandb = true) /\
    (n <> 0%nat -> savecheck args = true -> disable_log args = false).
Proof.
  intros Hrun. cbv zeta. set (n := Z.to_nat (N_TASKS dataset)).
  unfold train in Hrun.
  apply bind_ok in Hrun as ([] & s1 & Hstart & Hrun).
  unfold bind at 1, gets at 1 in Hrun.
  apply bind_ok in Hrun as ([] & s2 & Hloop & Hfinish).
  pose proof (start_ok _ _ _ Hstart) as (Ht1 & Hd1 & Hr1 & Hrm1 & Hsh1 & Hw).
  cbn in Ht1, Hd1, Hsh1. rewrite Hd1 in Hloop. unfold range in Hloop.
  fold n in Hloop.
  pose proof (tasks_loop _ _ _ _ _ Hloop) as Hsegs.
  rewrite Hr1, Hrm1 in Hsegs.
  destruct (Hsegs eq_refl eq_refl)
    as (Hr2 & Hrm2 & Hsh2 & Hlog & segs & Hlen & Ht2 & Hseg).
  apply finish_ok in Hfinish as (_ & Ht3 & _ & _ & Hr3 & Hrm3 & _).
  injection Hsh1 as Hsal _ Hbuf. rewrite Hsal, Hbuf in Hseg.
  exists s1, s2, segs.
  rewrite Hr3, Hrm3, Ht3, Ht2, Ht1, <- app_assoc.
  split_and!; done.
Qed.

(** However a run ends, its calls obey the flags. *)
Lemma train_flagged model dataset args r s' :
  train model dataset args = (r, s') -> Forall (flagged args) (trace s').
Proof.
  unfold train. intros Hrun.
  assert (Hbody : forall t, respects (extends_with (flagged args))
                              (train_task args t)).
  { intros t s0 r0 s0' Hstep. apply train_task_allowed in Hstep.
    eapply extends_with_mono; [|done].
    intros e (_ & _ & ? & ? & ?). done. }
  enough (Hall : extends_with (flagged args) (init_state model dataset) s').
  { destruct Hall as (evs & -> & Hall). done. }
  revert Hrun. generalize (init_state model dataset). intros s0.
  revert s0 r s'. change (respects (extends_with (flagged args))
    (start args ;;
     dataset <- gets st_dataset ;;
     for_loop (range (N_TASKS dataset)) (train_task args) ;;
     finish args)).
  unfold start, finish. respects_auto;
    unfold flagged; cbn;
    destruct (disable_log args), (nowand args), (savecheck args); done.
Qed.

(** *** The shape of the trace *)

Lemma start_events_untagged args :
  Forall (fun e => event_task e = None /\ is_metrics_event e = false)
    (start_events args).
Proof.
  unfold start_events.
  destruct (nowand args), (disable_log args); repeat constructor.
Qed.

Lemma finish_events_untagged args r rm url :
  Forall (fun e => event_task e = None) (finish_events args r rm url).
Proof.
  unfold finish_events.
  destruct (nowand args), (disable_log args), (ignore_other_metrics args);
    repeat constructor.
Qed.

(** The segments of the tasks [a, a + length segs) hold calls of these
    tasks only, and none of the two metrics. *)
Lemma segments_tags args (segs : list (list event)) (a : nat) :
  (forall i seg, segs !! i = Some seg -> Forall (allowed args (a + i)) seg) ->
  Forall (fun e => is_metrics_event e = false /\
                   exists u, event_task e = Some u /\
                             (a <= u < a + length segs)%nat)
    (concat segs).
Proof.
  revert a. induction segs as [|seg segs IH]; intros a Hsegs; cbn; [done|].
  apply Forall_app. split.
  - specialize (Hsegs 0%nat seg eq_refl). rewrite Nat.add_0_r in Hsegs.
    eapply Forall_impl; [done|]. intros e (Htag & Hm & _). split; [done|].
    exists a. split; [done|lia].
  - eapply Forall_impl.
    + apply (IH (Datatypes.S a)). intros i seg' Hi.
      rewrite Nat.add_succ_comm. by apply (Hsegs (Datatypes.S i)).
    + intros e (Hm & u & Hu & Hrange). split; [done|].
      exists u. split; [done|lia].
Qed.

(** The segment of a task holds its end-of-task evaluation. *)
Lemma segments_evaluation args sal buf (segs : list (list event)) (a u : nat) :
  (forall i seg, segs !! i = Some seg -> task_segment args (a + i) sal buf seg) ->
  (u < length segs)%nat ->
  Evaluate (a + u) false ∈ concat segs.
Proof.
  intros Hsegs Hu.
  destruct (lookup_lt_is_Some_2 segs u Hu) as [seg Hseg].
  apply list_elem_of_In, in_concat. exists seg. split.
  - apply list_elem_of_In. by eapply list_elem_of_lookup_2.
  - destruct (Hsegs _ _ Hseg) as (work & ? & ? & ? & ? & ? & ? & -> & _).
    apply list_elem_of_In, elem_of_app. right. apply elem_of_cons. by left.
Qed.

(** C4. In a run of train that returns, logger.add_bwt and
    logger.add_forgetting are each called exactly once, on the final
    results and results_mask_classes and after the end-of-task
    evaluation of every task, when args.disable_log and
    args.ignore_other_metrics are both false, and are not called at all
    otherwise; nothing is done for any task after them. *)
Theorem train_metrics_once model dataset args s' :
  train model dataset args = (Ok tt, s') ->
  exists before after,
    trace s' =
      before
      ++ (if negb (disable_log args) && negb (ignore_other_metrics args)
          then [LoggerAddBwt (results s') (results_mask_classes s');
                LoggerAddForgetting (results s') (results_mask_classes s')]
          else [])
      ++ after /\
    Forall (fun e => is_metrics_event e = false) before /\
    (forall t : nat, (t < Z.to_nat (N_TASKS dataset))%nat ->
       Evaluate t false ∈ before) /\
    Forall (fun e => is_metrics_event e = false /\ event_task e = None)
      after.
Proof.
  intros Hrun.
  destruct (train_ok _ _ _ _ Hrun)
    as (s1 & s2 & segs & _ & _ & _ & _ & Ht3 & Hlen & Hsegs & _).
  exists (start_events args ++ concat segs),
    ((if disable_log args then []
      else LoggerWrite
           :: (if nowand args then [] else [WandbLogSummary wandb_run_url]))
     ++ (if nowand args then [] else [WandbFinish])).
  split_and!.
  - rewrite Ht3. unfold finish_events. by rewrite <- !app_assoc.
  - apply Forall_app. split.
    + eapply Forall_impl; [apply start_events_untagged|]. by intros e [_ ?].
    + eapply Forall_impl.
      * apply (segments_tags args segs 0). intros i seg Hi.
        by apply Hsegs.
      * by intros e [? _].
  - intros t Ht. apply elem_of_app. right.
    eapply (segments_evaluation args _ _ segs 0 t); [|lia].
    intros i seg Hi. by apply Hsegs.
  - destruct (disable_log args), (nowand args); repeat constructor.
Qed.

Lemma work_not_logged e :
  is_work_event e = true ->
  is_logger_event e = false /\ is_wandb_event e = false.
Proof. by destruct e. Qed.

Lemma checkpoint_events_not_logged args t sal buf r rm sal_metrics :
  Forall (fun e => is_logger_event e = false /\ is_wandb_event e = false)
    (checkpoint_events args t sal buf r rm sal_metrics).
Proof.
  unfold checkpoint_events.
  destruct (savecheck args), sal, buf; repeat constructor.
Qed.

(** C6. However a run of train ends, it calls nothing of the local
    logger when args.disable_log is true and nothing of the remote
    tracker when args.nowand is true. With args.nowand false and no
    wandb library it fails an assertion, having done no more than
    print the arguments. And when it returns, its calls are those of
    [start_events] (wandb.init and the creation of the Logger, each
    once and only if its flag is false), then for every task in turn
    a segment in which only the calls of [report_events] go to the
    logger (log, log_fullacc) and the tracker (wandb.log), after the
    end-of-task evaluation, then those of [finish_events]
    (logger.write once, wandb.finish once at the very end). *)
Theorem train_logging model dataset args r s' :
  train model dataset args = (r, s') ->
  (disable_log args = true ->
   Forall (fun e => is_logger_event e = false) (trace s')) /\
  (nowand args = true ->
   Forall (fun e => is_wandb_event e = false) (trace s')) /\
  (nowand args = false -> wandb = false ->
   r = Raise AssertionError /\ trace s' = [Print None]) /\
  (r = Ok tt ->
   exists segs,
     length segs = Z.to_nat (N_TASKS dataset) /\
     trace s' =
       start_events args ++ concat segs
       ++ finish_events args (results s') (results_mask_classes s')
            wandb_run_url /\
     forall t seg, segs !! t = Some seg ->
       exists work mean_acc accs sal_metrics with_sal_lr saved,
         seg = work ++ [Evaluate t false]
               ++ report_events args t mean_acc accs sal_metrics
                    with_sal_lr
               ++ saved /\
         Forall (fun e => is_logger_event e = false /\
                          is_wandb_event e = false)
           (work ++ [Evaluate t false] ++ saved)).
Proof.
  intros Hrun. split_and!.
  - intros Hflag. eapply Forall_impl; [by eapply train_flagged|].
    intros e (Hlog & _). by apply Hlog.
  - intros Hflag. eapply Forall_impl; [by eapply train_flagged|].
    intros e (_ & Hwandb & _). by apply Hwandb.
  - intros Hflag Hwandb. revert Hrun.
    unfold train, start, tell, bind, modify, when, assert.
    rewrite Hflag, Hwandb. cbn. by intros [= <- <-].
  - intros ->.
    destruct (train_ok _ _ _ _ Hrun)
      as (s1 & s2 & segs & _ & _ & _ & _ & Ht3 & Hlen & Hsegs & _).
    exists segs. split_and!; [done..|].
    intros t seg
      (_ & work & mean & accs & sal & lr & rs & rms & -> & Hwork & _)%Hsegs.
    exists work, mean, accs, sal, lr,
      (checkpoint_events args t (has_saliency_net model)
         (buffer_size_in_args model) rs rms sal).
    split; [done|]. apply Forall_app. split.
    + eapply Forall_impl; [done|]. apply work_not_logged.
    + apply Forall_cons. split; [done|].
      apply checkpoint_events_not_logged.
Qed.

(** *** The evaluation before training *)

Lemma extend_entry_ok {S : Type} xs i ys (s : S) r s' :
  extend_entry xs i ys s = (Ok r, s') ->
  s' = s /\ exists old, xs !! i = Some old /\ r = <[i := old ++ ys]> xs.
Proof. unfold extend_entry. intros Hrun. exec. eauto. Qed.

(** A completed [evaluate_previous] in an iteration [t >= 1]. *)
Lemma evaluate_previous_ok args t s s' :
  t <> 0%nat ->
  ignore_other_metrics args = false ->
  evaluate_previous args t s = (Ok tt, s') ->
  exists accs old,
    evaluate (st_model s) (st_dataset s) true = (Ok accs, st_model s') /\
    trace s' = trace s ++ [Evaluate t true] /\
    st_dataset s' = st_dataset s /\
    results s !! (t - 1)%nat = Some old /\
    results s' = <[(t - 1)%nat := old ++ class_il_accs accs]> (results s) /\
    if class_il_setting (st_dataset s)
    then exists old_mask,
           results_mask_classes s !! (t - 1)%nat = Some old_mask /\
           results_mask_classes s' =
             <[(t - 1)%nat := old_mask ++ task_il_accs accs]>
               (results_mask_classes s)
    else results_mask_classes s' = results_mask_classes s.
Proof.
  intros Ht Hflag. unfold evaluate_previous. rewrite Hflag.
  replace (t =? 0)%nat with false by (symmetry; by apply Nat.eqb_neq).
  cbn [negb andb when].
  intros (accs & s1 & Heval & Hrest)%bind_ok.
  apply call_evaluate_ok in Heval as (Heval & Hs1 & _).
  assert (trace s1 = trace s ++ [Evaluate t true] /\
          st_dataset s1 = st_dataset s /\ results s1 = results s /\
          results_mask_classes s1 = results_mask_classes s)
    as (Ht1 & Hd1 & Hr1 & Hrm1) by (by rewrite Hs1).
  clear Hs1.
  unfold bind at 1, gets at 1 in Hrest.
  apply bind_ok in Hrest as (r & s2 & Hext & Hrest).
  apply extend_entry_ok in Hext as (-> & old & Hold & ->).
  unfold bind at 1, modify at 1 in Hrest.
  unfold bind at 1, gets at 1 in Hrest.
  cbn [st_dataset set_results] in Hrest.
  rewrite Hr1 in Hold, Hrest. rewrite Hd1 in Hrest. exists accs, old.
  destruct (class_il_setting (st_dataset s)); cbn [when] in Hrest.
  - unfold bind at 1, gets at 1 in Hrest.
    apply bind_ok in Hrest as (rm & s3 & Hext & Hrest).
    apply extend_entry_ok in Hext as (-> & oldm & Holdm & ->).
    injection Hrest as <-.
    cbn [results_mask_classes set_results] in Holdm.
    rewrite Hrm1 in Holdm.
    cbn [trace st_model st_dataset results results_mask_classes
         set_results set_results_mask_classes].
    rewrite Hrm1. split_and!; [done..|]. eauto.
  - injection Hrest as <-.
    cbn [trace st_model st_dataset results results_mask_classes
         set_results set_results_mask_classes].
    done.
Qed.

(** Training on the batches leaves the two result lists alone, however
    it ends. *)
Lemma train_batch_same_results args t epoch entry :
  respects same_results (train_batch args t epoch entry).
Proof. unfold train_batch. respects_auto; done. Qed.

Hint Resolve train_batch_same_results : blocks.

Lemma train_epoch_same_results args t loader scheduler epoch :
  respects same_results (train_epoch args t loader scheduler epoch).
Proof. unfold train_epoch. respects_auto; done. Qed.

Hint Resolve train_epoch_same_results : blocks.

(** C2. A completed training part of an iteration t >= 1 with
    args.ignore_other_metrics false has done this, in this order:
    fetched the loaders of task t and run begin_task; called evaluate
    with last=True on the model and dataset so reached, a call whose
    result depends on no test loader but the newest; and only then
    trained. When it is over, results[t-1] is what it was followed by
    the class-il accuracies that call returned, results_mask_classes[t-1]
    is what it was followed by the task-il accuracies when
    dataset.SETTING is 'class-il' and is unchanged otherwise, and every
    other entry of the two lists is what it was. *)
Theorem train_evaluates_previous args t s s' :
  t <> 0%nat ->
  ignore_other_metrics args = false ->
  task_training args t s = (Ok tt, s') ->
  let dataset := (get_data_loaders (st_dataset s)).2 in
  let model :=
    let model := train_mode_net true (st_model s) in
    if has_begin_task model
    then set_params (begin_task model dataset) model
    else model in
  exists accs model_e old trained,
    (* the evaluation, on the newest task only *)
    evaluate model dataset true = (Ok accs, model_e) /\
    (forall earlier earlier' newest,
       test_loaders dataset = earlier ++ [newest] ->
       length earlier' = length earlier ->
       evaluate model (with_test_loaders (earlier' ++ [newest]) dataset) true
       = evaluate model dataset true) /\
    (* it comes before the training *)
    trace s' =
      trace s ++ [GetDataLoaders t]
      ++ (if has_begin_task (st_model s) then [BeginTask t] else [])
      ++ [Evaluate t true] ++ trained /\
    Forall (work_of t) trained /\
    Forall (fun e => forall last, e <> Evaluate t last) trained /\
    (* the two updates *)
    results s !! (t - 1)%nat = Some old /\
    results s' = <[(t - 1)%nat := old ++ class_il_accs accs]> (results s) /\
    (forall i : nat, i <> (t - 1)%nat -> results s' !! i = results s !! i) /\
    (if class_il_setting dataset
     then exists old_mask,
            results_mask_classes s !! (t - 1)%nat = Some old_mask /\
            results_mask_classes s' =
              <[(t - 1)%nat := old_mask ++ task_il_accs accs]>
                (results_mask_classes s)
     else results_mask_classes s' = results_mask_classes s) /\
    (forall i : nat, i <> (t - 1)%nat ->
       results_mask_classes s' !! i = results_mask_classes s !! i).
Proof.
  intros Ht Hflag. cbv zeta. unfold task_training.
  unfold bind at 1, net_train at 1, modify at 1.
  unfold bind at 1, gets at 1. cbn [st_dataset set_model].
  destruct (get_data_loaders (st_dataset s)) as [[loader tl] d1] eqn:Hget.
  cbn [snd].
  unfold bind at 1, tell at 1, modify at 1.
  unfold bind at 1, modify at 1.
  unfold bind at 1, gets at 1.
  intros ([] & s_a & Hbegin & Hrest)%bind_ok.
  apply bind_ok in Hrest as ([] & s_b & Heval & Hrest).
  assert (Ha : trace s_a = trace s ++ [GetDataLoaders t]
                            ++ (if has_begin_task (st_model s)
                                then [BeginTask t] else []) /\
               st_dataset s_a = d1 /\ results s_a = results s /\
               results_mask_classes s_a = results_mask_classes s /\
               st_model s_a =
                 (if has_begin_task (train_mode_net true (st_model s))
                  then set_params
                         (begin_task (train_mode_net true (st_model s)) d1)
                         (train_mode_net true (st_model s))
                  else train_mode_net true (st_model s)) /\
               has_begin_task (train_mode_net true (st_model s))
               = has_begin_task (st_model s)).
  { assert (has_begin_task (train_mode_net true (st_model s))
            = has_begin_task (st_model s)) as Hb
      by (by destruct_model (st_model s)).
    cbn in Hbegin. rewrite Hb in Hbegin |- *.
    destruct (has_begin_task (st_model s)); exec;
      simplify_eq; cbn; rewrite <- ?app_assoc; done. }
  destruct Ha as (Hta & Hda & Hra & Hrma & Hma & Hb).
  apply evaluate_previous_ok in Heval
    as (accs & old & Hev & Htb & _ & Hold & Hrb & Hmask);
    [|done..].
  set (P := fun e : event => forall last, e <> Evaluate t last).
  assert (Hbatch : forall epoch entry,
            respects (extends_with P) (train_batch args t epoch entry))
    by (intros; unfold train_batch; respects_auto; done).
  assert (Hepoch : forall ldr scheduler epoch,
            respects (extends_with P)
              (train_epoch args t ldr scheduler epoch))
    by (intros; unfold train_epoch; respects_auto; done).
  match type of Hrest with
  | ?m s_b = _ =>
      assert (Hwork : respects (extends_with (work_of t)) m)
        by respects_auto;
      assert (Hguard : respects (extends_with P) m)
        by (respects_auto; done);
      assert (Hkeep : respects same_results m)
        by (respects_auto; done)
  end.
  pose proof (Hkeep _ _ _ Hrest) as [Hr' Hrm'].
  pose proof (Hguard _ _ _ Hrest) as (trained' & Htrained' & Hnone).
  apply Hwork in Hrest as (trained & Htrained & Hall).
  assert (trained' = trained) as ->
    by (apply (app_inv_head (trace s_b)); congruence).
  rewrite Hra in Hold, Hrb. rewrite Hrma, Hda in Hmask.
  rewrite Hma, Hda in Hev.
  exists accs, (st_model s_b), old, trained.
  rewrite Hr', Hrm', Htrained, Htb, Hta, <- !app_assoc.
  split_and!; try done.
  - intros earlier earlier' newest. apply evaluate_last_only.
  - intros i Hi. rewrite Hrb. by apply list_lookup_insert_ne.
  - intros i Hi. destruct (class_il_setting _).
    + destruct Hmask as (oldm & _ & ->). by apply list_lookup_insert_ne.
    + by rewrite Hmask.
Qed.

(** *** The order of the results *)

(** A completed [evaluate_previous] extends an entry at most. *)
Lemma evaluate_previous_grown args t s s' :
  evaluate_previous args t s = (Ok tt, s') -> grown s s'.
Proof.
  destruct (negb (t =? 0)%nat && negb (ignore_other_metrics args)) eqn:Hc.
  - apply andb_true_iff in Hc as [Ht Hflag].
    apply negb_true_iff in Hflag. apply negb_true_iff, Nat.eqb_neq in Ht.
    intros (accs & old & _ & _ & _ & Hold & Hr & Hmask)%evaluate_previous_ok;
      [|done..].
    split; intros i o Hi.
    + rewrite Hr. destruct (decide (i = (t - 1)%nat)) as [->|Hne].
      * rewrite list_lookup_insert_eq by (by eapply lookup_lt_Some).
        simplify_eq. eauto.
      * rewrite list_lookup_insert_ne by done. exists [].
        by rewrite app_nil_r.
    + destruct (class_il_setting _).
      * destruct Hmask as (oldm & Holdm & ->).
        destruct (decide (i = (t - 1)%nat)) as [->|Hne].
        -- rewrite list_lookup_insert_eq by (by eapply lookup_lt_Some).
           simplify_eq. eauto.
        -- rewrite list_lookup_insert_ne by done. exists [].
           by rewrite app_nil_r.
      * rewrite Hmask. exists []. by rewrite app_nil_r.
  - unfold evaluate_previous. rewrite Hc. by intros [= <-].
Qed.

(** So does the completed training part of an iteration. *)
Lemma task_training_grown args t s s' :
  task_training args t s = (Ok tt, s') -> grown s s'.
Proof.
  unfold task_training.
  unfold bind at 1, net_train at 1, modify at 1.
  unfold bind at 1, gets at 1. cbn [st_dataset set_model].
  destruct (get_data_loaders (st_dataset s)) as [[loader tl] d1] eqn:Hget.
  unfold bind at 1, tell at 1, modify at 1.
  unfold bind at 1, modify at 1.
  unfold bind at 1, gets at 1.
  intros ([] & s_a & Hbegin & Hrest)%bind_ok.
  apply bind_ok in Hrest as ([] & s_b & Heval & Hrest).
  assert (same_results s s_a) as Ha.
  { cbn in Hbegin.
    destruct (has_begin_task _); exec; by simplify_eq. }
  apply evaluate_previous_grown in Heval.
  match type of Hrest with
  | ?m s_b = _ =>
      assert (Hkeep : respects same_results m)
        by (respects_auto; done)
  end.
  apply Hkeep in Hrest.
  etrans; [by apply same_results_grown|].
  etrans; [done|]. by apply same_results_grown.
Qed.

(** A completed iteration appends to each list what its end-of-task
    evaluation returned. *)
Lemma train_task_appends args t s f s' :
  train_task args t s = (Ok f, s') ->
  exists s_m accs,
    task_training args t s = (Ok tt, s_m) /\
    evaluate (st_model s_m) (st_dataset s_m) false
      = (Ok accs, st_model s') /\
    results s' = results s_m ++ [class_il_accs accs] /\
    results_mask_classes s' =
      results_mask_classes s_m ++ [task_il_accs accs].
Proof.
  unfold train_task.
  intros ([] & s_m & Htrain & Hrest)%bind_ok.
  apply bind_ok in Hrest as ([] & s2 & Hclose & Hrest).
  injection Hrest as <- <-.
  apply task_closing_ok in Hclose as (accs & Heval & _ & _ & Hr & Hrm & _).
  by exists s_m, accs.
Qed.

Lemma train_task_grown args t s f s' :
  train_task args t s = (Ok f, s') -> grown s s'.
Proof.
  intros (s_m & accs & [Hg Hgm]%task_training_grown & _ & Hr & Hrm)
    %train_task_appends.
  split; intros i old Hi.
  - destruct (Hg _ _ Hi) as [more Hi']. exists more.
    rewrite Hr. by apply lookup_app_l_Some.
  - destruct (Hgm _ _ Hi) as [more Hi']. exists more.
    rewrite Hrm. by apply lookup_app_l_Some.
Qed.

Lemma tasks_loop_grown args (ts : list nat) : forall s s',
  for_loop ts (train_task args) s = (Ok tt, s') -> grown s s'.
Proof.
  induction ts as [|t ts IH]; intros s s'; cbn [for_loop].
  - by intros [= <-].
  - intros (f & s1 & Hstep & Hrest)%bind_ok.
    pose proof (train_task_ok _ _ _ _ _ Hstep) as [-> _].
    etrans; [by eapply train_task_grown | by apply IH].
Qed.

(** C3. A run of train that returns has processed the tasks
    0 .. N_TASKS-1 one after the other. For every t up to N_TASKS the
    first t iterations complete in a state with t entries in results
    and in results_mask_classes, after the end-of-task evaluation of
    every task below t, having called nothing on behalf of a later
    task; whatever follows is called on behalf of no task below t and
    of none beyond N_TASKS-1, and leaves each of these t entries at its
    index (extending it at most). Iteration t < N_TASKS then appends
    what its end-of-task evaluation returns as entry t of each list,
    and that entry is still at index t, extended at most, when train
    returns. On return both lists have N_TASKS entries. *)
Theorem train_sequential model dataset args s' :
  train model dataset args = (Ok tt, s') ->
  let n := Z.to_nat (N_TASKS dataset) in
  length (results s') = n /\
  length (results_mask_classes s') = n /\
  forall t : nat, (t <= n)%nat ->
    exists s_t rest,
      (start args ;; for_loop (range (Z.of_nat t)) (train_task args))
        (init_state model dataset) = (Ok tt, s_t) /\
      trace s' = trace s_t ++ rest /\
      length (results s_t) = t /\
      length (results_mask_classes s_t) = t /\
      (forall u : nat, (u < t)%nat -> Evaluate u false ∈ trace s_t) /\
      Forall (fun e => forall u, event_task e = Some u -> (u < t)%nat)
        (trace s_t) /\
      Forall (fun e => forall u, event_task e = Some u -> (t <= u < n)%nat)
        rest /\
      (* the entries of the first t tasks stay where they are *)
      (forall (i : nat) old, results s_t !! i = Some old ->
         exists more, results s' !! i = Some (old ++ more)) /\
      (forall (i : nat) old, results_mask_classes s_t !! i = Some old ->
         exists more, results_mask_classes s' !! i = Some (old ++ more)) /\
      (* iteration t appends the entry of task t *)
      ((t < n)%nat ->
       exists s_m accs model_e s_next more more_mask,
         task_training args t s_t = (Ok tt, s_m) /\
         length (results s_m) = t /\
         length (results_mask_classes s_m) = t /\
         evaluate (st_model s_m) (st_dataset s_m) false
           = (Ok accs, model_e) /\
         train_task args t s_t = (Ok Next, s_next) /\
         results s_next = results s_m ++ [class_il_accs accs] /\
         results_mask_classes s_next =
           results_mask_classes s_m ++ [task_il_accs accs] /\
         results s' !! t = Some (class_il_accs accs ++ more) /\
         results_mask_classes s' !! t
           = Some (task_il_accs accs ++ more_mask)).
Proof.
  intros Hrun. cbv zeta. set (n := Z.to_nat (N_TASKS dataset)).
  destruct (train_ok _ _ _ _ Hrun)
    as (s1 & s2 & segs & Hstart & Hloop & Ht1 & Ht2 & Ht3 & Hlen & Hsegs
        & Hr & Hrm & _).
  fold n in Hloop, Hlen, Hr, Hrm. split_and!; [done..|].
  assert (Hfin : results s' = results s2 /\
                 results_mask_classes s' = results_mask_classes s2).
  { unfold train in Hrun.
    apply bind_ok in Hrun as ([] & s1' & Hstart' & Hrun).
    unfold bind at 1, gets at 1 in Hrun.
    apply bind_ok in Hrun as ([] & s2' & Hloop' & Hfinish).
    assert (s1' = s1) as -> by congruence.
    pose proof (start_ok _ _ _ Hstart) as (_ & Hd1 & _).
    cbn in Hd1. rewrite Hd1 in Hloop'. unfold range in Hloop'.
    fold n in Hloop'. assert (s2' = s2) as -> by congruence.
    by apply finish_ok in Hfinish as (_ & _ & _ & _ & ? & ? & _). }
  destruct Hfin as [Hfr Hfrm].
  intros t Ht.
  replace n with (t + (n - t))%nat in Hloop by lia.
  rewrite seq_app, for_loop_app in Hloop;
    [|by intros x s f s0 (-> & _)%train_task_ok].
  apply bind_ok in Hloop as ([] & s_t & Hfirst & Hsecond).
  pose proof (start_ok _ _ _ Hstart) as (_ & _ & Hr1 & Hrm1 & _).
  pose proof (tasks_loop _ _ _ _ _ Hfirst) as Hfirst'.
  rewrite Hr1, Hrm1 in Hfirst'.
  destruct (Hfirst' eq_refl eq_refl)
    as (Hrt & Hrmt & _ & _ & segsA & HlenA & HtA & HsegsA).
  cbn in Hrt, Hrmt, Hsecond.
  destruct (tasks_loop _ _ _ _ _ Hsecond Hrt Hrmt)
    as (_ & _ & _ & _ & segsB & HlenB & HtB & HsegsB).
  pose proof (tasks_loop_grown _ _ _ _ Hsecond) as [Hg Hgm].
  exists s_t,
    (concat segsB
     ++ finish_events args (results s') (results_mask_classes s')
          wandb_run_url).
  split_and!.
  - unfold bind. rewrite Hstart. unfold range. by rewrite Nat2Z.id.
  - rewrite Ht3, app_assoc, <- Ht2, HtB, <- app_assoc. done.
  - done.
  - done.
  - intros u Hu. rewrite HtA. apply elem_of_app. right.
    eapply (segments_evaluation args _ _ segsA 0 u); [|lia].
    intros i seg Hi. by apply HsegsA.
  - rewrite HtA, Ht1. apply Forall_app. split.
    + eapply Forall_impl; [apply start_events_untagged|].
      intros e [He _] u. by rewrite He.
    + eapply Forall_impl.
      * apply (segments_tags args segsA 0). intros i seg Hi.
        by apply HsegsA.
      * intros e (_ & v & Hv & Hrange) u. rewrite Hv. intros [= <-]. lia.
  - apply Forall_app. split.
    + eapply Forall_impl.
      * apply (segments_tags args segsB t). intros i seg Hi.
        by apply HsegsB.
      * intros e (_ & v & Hv & Hrange) u. rewrite Hv. intros [= <-]. lia.
    + eapply Forall_impl; [apply finish_events_untagged|].
      intros e He u. by rewrite He.
  - rewrite Hfr. apply Hg.
  - rewrite Hfrm. apply Hgm.
  - intros Hlt.
    destruct (n - t)%nat as [|m] eqn:Hm; [lia|].
    cbn [seq for_loop] in Hsecond.
    apply bind_ok in Hsecond as (f & s_next & Hstep & Hlater).
    pose proof (train_task_ok _ _ _ _ _ Hstep) as [-> _].
    pose proof (train_task_appends _ _ _ _ _ Hstep)
      as (s_m & accs & Htrain & Heval & Hrn & Hrmn).
    pose proof (task_training_steady _ _ _ _ _ Htrain) as (Hlr & Hlrm & _).
    destruct (tasks_loop_grown _ _ _ _ Hlater) as [Hl Hlm].
    destruct (Hl t (class_il_accs accs)) as [more Hmore].
    { rewrite Hrn. apply list_lookup_middle. congruence. }
    destruct (Hlm t (task_il_accs accs)) as [more_mask Hmore_mask].
    { rewrite Hrmn. apply list_lookup_middle. congruence. }
    exists s_m, accs, (st_model s_next), s_next, more, more_mask.
    rewrite Hfr, Hfrm. split_and!; try done; congruence.
Qed.

(** *** Checkpoints *)

(** Without a local logger a checkpoint raises once it has opened the
    results file: the name [logger] was never bound. *)
Lemma checkpoint_without_logger args t sal_metrics s :
  savecheck args = true ->
  disable_log args = true ->
  exists s',
    checkpoint args t sal_metrics s = (Raise UnboundLocalError, s') /\
    trace s' =
      trace s ++ [Print (Some t); MakeDir t; SaveNet t]
      ++ (if has_saliency_net (st_model s) then [SaveSaliencyNet t] else [])
      ++ (if buffer_size_in_args (st_model s)
          then [OpenFile BufferPickle t; DumpBuffer t] else [])
      ++ [OpenFile ArgsPickle t; DumpArgs t; OpenFile ResultsPickle t].
Proof.
  intros Hsave Hlog. unfold checkpoint, tell. rewrite Hsave, Hlog.
  unfold when, bind, modify, gets, raise, ret. cbn.
  destruct (has_saliency_net (st_model s)),
    (buffer_size_in_args (st_model s));
    cbn; eexists; (split; [done|]); cbn; by rewrite <- ?app_assoc.
Qed.

(** So a run that checkpoints at least one task returns only if it has
    a local logger. *)
Lemma train_needs_logger_to_checkpoint model dataset args s' :
  train model dataset args = (Ok tt, s') ->
  (0 < N_TASKS dataset)%Z ->
  savecheck args = true ->
  disable_log args = false.
Proof.
  intros Hrun Hn.
  destruct (train_ok _ _ _ _ Hrun)
    as (s1 & s2 & segs & _ & _ & _ & _ & _ & _ & _ & _ & _ & _ & Hok).
  apply Hok. lia.
Qed.

End Train.

(** ** The training loop on the small instance *)

Section Instances.
#[local] Existing Instance Toy.payload.
#[local] Existing Instance Toy.collaborators.

(** C5. With args.savecheck and args.disable_log both true, train does
    not pickle the accumulated results: the checkpoint of the first
    task saves the state dict of the net and pickles the args, opens
    the results file, and raises UnboundLocalError on logger.dump();
    no later task is trained. *)
Theorem checkpoint_without_logger_fails :
  exists s,
    train Toy.model Toy.dataset Toy.args_no_log
      = (Raise UnboundLocalError, s) /\
    results s = [[PyFloat 50]] /\
    trace s =
      [Print None; Print None; GetDataLoaders 0; BeginTask 0;
       Print (Some 0%nat); MetaObserve 0 0 0; Progress 0 0 0;
       MetaObserve 0 0 1; Progress 0 0 1; SchedulerStep 0 0; EndTask 0;
       Evaluate 0 false; Print (Some 0%nat); Print (Some 0%nat);
       MakeDir 0; SaveNet 0; OpenFile ArgsPickle 0; DumpArgs 0;
       OpenFile ResultsPickle 0].
Proof. eexists. split_and!; vm_compute; reflexivity. Qed.

(** The same run with a local logger checkpoints both tasks. *)
Example checkpoint_with_logger :
  (train Toy.model Toy.dataset Toy.args).1 = Ok tt /\
  filter (fun e => is_file_event e = true)
    (trace (train Toy.model Toy.dataset Toy.args).2) =
    [MakeDir 0; SaveNet 0; OpenFile ArgsPickle 0; DumpArgs 0;
     OpenFile ResultsPickle 0;
     DumpResults 0 [[PyFloat 50]] [[PyFloat 100]] [0; 0; 0]%float;
     MakeDir 1; SaveNet 1; OpenFile ArgsPickle 1; DumpArgs 1;
     OpenFile ResultsPickle 1;
     DumpResults 1 [[PyFloat 50; PyFloat 50]; [PyFloat 50; PyFloat 50]]
       [[PyFloat 100; PyFloat 100]; [PyFloat 100; PyFloat 100]]
       [0; 0; 0]%float].
Proof. split; vm_compute; reflexivity. Qed.

(** Without the wandb library and with args.nowand false, nothing is
    trained. *)
Example train_offline :
  exists s,
    @train _ Toy.offline Toy.model Toy.dataset Toy.args
      = (Raise AssertionError, s) /\
    trace s = [Print None].
Proof. eexists. split; vm_compute; reflexivity. Qed.

(** With last=True only the newest task is evaluated. *)
Example evaluate_last_example :
  evaluate Toy.saliency_model Toy.dataset_seen true
    = (Ok Toy.evaluated_last, Toy.saliency_model).
Proof. vm_compute. reflexivity. Qed.

(** A saliency model has nothing to return before the first task. *)
Example evaluate_too_early :
  evaluate Toy.saliency_model Toy.dataset false
    = (Raise UnboundLocalError, Toy.saliency_model).
Proof. vm_compute. reflexivity. Qed.

Lemma mask_classes_spec_witness :
  ((0 <= 1 < N_TASKS Toy.dataset)%Z /\
   Forall (fun row =>
     (N_TASKS Toy.dataset * N_CLASSES_PER_TASK Toy.dataset
      <= Z.of_nat (length row))%Z) Toy.outputs) /\
  length (mask_classes Toy.outputs Toy.dataset 1) = length Toy.outputs /\
  forall (i : nat) (row : list float),
    Toy.outputs !! i = Some row ->
    exists row',
      mask_classes Toy.outputs Toy.dataset 1 !! i = Some row' /\
      length row' = length row /\
      forall j : nat,
        ((Z.of_nat j < 1 * N_CLASSES_PER_TASK Toy.dataset)%Z \/
         ((1 + 1) * N_CLASSES_PER_TASK Toy.dataset <= Z.of_nat j
          < N_TASKS Toy.dataset * N_CLASSES_PER_TASK Toy.dataset)%Z ->
         row' !! j = Some neg_inf) /\
        ((1 * N_CLASSES_PER_TASK Toy.dataset <= Z.of_nat j
          < (1 + 1) * N_CLASSES_PER_TASK Toy.dataset)%Z ->
         row' !! j = row !! j).
Proof.
  assert (H1 : (0 <= 1 < N_TASKS Toy.dataset)%Z) by (cbn; lia).
  assert (H2 : Forall (fun row =>
     (N_TASKS Toy.dataset * N_CLASSES_PER_TASK Toy.dataset
      <= Z.of_nat (length row))%Z) Toy.outputs)
    by (repeat constructor; cbn; lia).
  split; [by split|].
  exact (mask_classes_spec Toy.outputs Toy.dataset 1 H1 H2).
Defined.


Lemma evaluate_return_shape_witness :
  evaluate Toy.saliency_model Toy.dataset_seen false
    = (Ok Toy.evaluated_all, Toy.saliency_model) /\
  match saliency_net Toy.saliency_model with
  | Some _ => exists a am scores, Toy.evaluated_all = Tuple3 a am scores
  | None => exists a am, Toy.evaluated_all = Tuple2 a am
  end.
Proof.
  assert (Hrun : evaluate Toy.saliency_model Toy.dataset_seen false
                 = (Ok Toy.evaluated_all, Toy.saliency_model))
    by (vm_compute; reflexivity).
  split; [exact Hrun|].
  exact (evaluate_return_shape _ _ _ _ _ Hrun).
Defined.

(** With the saliency network inside net, or net inside the saliency
    network, evaluate returns with a flag that is not what it was. *)
Lemma evaluate_loses_nested_flag :
  (evaluate Edge.nested_model Toy.dataset_seen false
     = (Ok Toy.evaluated_all, Edge.nested_model_after) /\
   training <$> saliency_net Edge.nested_model = Some true /\
   training <$> saliency_net Edge.nested_model_after = Some false) /\
  (evaluate Edge.enclosed_model Toy.dataset_seen false
     = (Ok Toy.evaluated_all, Edge.enclosed_model_after) /\
   training (net Edge.enclosed_model) = false /\
   training (net Edge.enclosed_model_after) = true).
Proof. split_and!; vm_compute; reflexivity. Qed.

Lemma evaluate_restores_training_witness :
  evaluate Toy.saliency_model Toy.dataset_seen false
    = (Ok Toy.evaluated_all, Toy.saliency_model) /\
  (net_in_saliency Toy.saliency_model = false \/
   saliency_net Toy.saliency_model = None ->
   training (net Toy.saliency_model) = training (net Toy.saliency_model)) /\
  (saliency_in_net Toy.saliency_model = false ->
   training <$> saliency_net Toy.saliency_model
     = training <$> saliency_net Toy.saliency_model) /\
  (forall fwd sal_fwd,
     (forall m inputs task, in_eval_mode m ->
        fwd m inputs task = forward m inputs task /\
        sal_fwd m inputs task = saliency_forward m inputs task) ->
     @evaluate _ (with_forward fwd sal_fwd) Toy.saliency_model
       Toy.dataset_seen false
     = (Ok Toy.evaluated_all, Toy.saliency_model)) /\
  forall b1 b2 : bool,
    (evaluate
       (set_saliency_net (nn_train b2 <$> saliency_net Toy.saliency_model)
          (set_net (nn_train b1 (net Toy.saliency_model))
             Toy.saliency_model))
       Toy.dataset_seen false).1 = Ok Toy.evaluated_all.
Proof.
  assert (Hrun : evaluate Toy.saliency_model Toy.dataset_seen false
                 = (Ok Toy.evaluated_all, Toy.saliency_model))
    by (vm_compute; reflexivity).
  split; [exact Hrun|].
  exact (evaluate_restores_training _ _ _ _ _ Hrun).
Defined.

Lemma train_sequential_witness :
  train Toy.saliency_model Toy.dataset Toy.args = (Ok tt, Toy.final_state) /\
  let model := Toy.saliency_model in
  let dataset := Toy.dataset in
  let args := Toy.args in
  let s' := Toy.final_state in
  let n := Z.to_nat (N_TASKS dataset) in
  length (results s') = n /\
  length (results_mask_classes s') = n /\
  forall t : nat, (t <= n)%nat ->
    exists s_t rest,
      (start args ;; for_loop (range (Z.of_nat t)) (train_task args))
        (init_state model dataset) = (Ok tt, s_t) /\
      trace s' = trace s_t ++ rest /\
      length (results s_t) = t /\
      length (results_mask_classes s_t) = t /\
      (forall u : nat, (u < t)%nat -> Evaluate u false ∈ trace s_t) /\
      Forall (fun e => forall u, event_task e = Some u -> (u < t)%nat)
        (trace s_t) /\
      Forall (fun e => forall u, event_task e = Some u -> (t <= u < n)%nat)
        rest /\
      (forall (i : nat) old, results s_t !! i = Some old ->
         exists more, results s' !! i = Some (old ++ more)) /\
      (forall (i : nat) old, results_mask_classes s_t !! i = Some old ->
         exists more, results_mask_classes s' !! i = Some (old ++ more)) /\
      ((t < n)%nat ->
       exists s_m accs model_e s_next more more_mask,
         task_training args t s_t = (Ok tt, s_m) /\
         length (results s_m) = t /\
         length (results_mask_classes s_m) = t /\
         evaluate (st_model s_m) (st_dataset s_m) false
           = (Ok accs, model_e) /\
         train_task args t s_t = (Ok Next, s_next) /\
         results s_next = results s_m ++ [class_il_accs accs] /\
         results_mask_classes s_next =
           results_mask_classes s_m ++ [task_il_accs accs] /\
         results s' !! t = Some (class_il_accs accs ++ more) /\
         results_mask_classes s' !! t
           = Some (task_il_accs accs ++ more_mask)).
Proof.
  assert (Hrun : train Toy.saliency_model Toy.dataset Toy.args
                 = (Ok tt, Toy.final_state))
    by (vm_compute; reflexivity).
  split; [exact Hrun|].
  exact (train_sequential _ _ _ _ Hrun).
Defined.

(** In the run of the witness the entry of the first task is extended
    by the evaluation that precedes the training on the second. *)
Example results_in_task_order :
  results Toy.final_state
  = [[PyFloat 50; PyFloat 50]; [PyFloat 50; PyFloat 50]] /\
  results Toy.after_first_task = [[PyFloat 50]].
Proof. split; vm_compute; reflexivity. Qed.

Lemma train_metrics_once_witness :
  train Toy.saliency_model Toy.dataset Toy.args = (Ok tt, Toy.final_state) /\
  exists before after,
    trace Toy.final_state =
      before
      ++ (if negb (disable_log Toy.args)
             && negb (ignore_other_metrics Toy.args)
          then [LoggerAddBwt (results Toy.final_state)
                  (results_mask_classes Toy.final_state);
                LoggerAddForgetting (results Toy.final_state)
                  (results_mask_classes Toy.final_state)]
          else [])
      ++ after /\
    Forall (fun e => is_metrics_event e = false) before /\
    (forall t : nat, (t < Z.to_nat (N_TASKS Toy.dataset))%nat ->
       Evaluate t false ∈ before) /\
    Forall (fun e => is_metrics_event e = false /\ event_task e = None)
      after.
Proof.
  assert (Hrun : train Toy.saliency_model Toy.dataset Toy.args
                 = (Ok tt, Toy.final_state))
    by (vm_compute; reflexivity).
  split; [exact Hrun|].
  exact (train_metrics_once _ _ _ _ Hrun).
Defined.

Lemma train_logging_witness :
  train Toy.saliency_model Toy.dataset Toy.args = (Ok tt, Toy.final_state) /\
  (disable_log Toy.args = true ->
   Forall (fun e => is_logger_event e = false) (trace Toy.final_state)) /\
  (nowand Toy.args = true ->
   Forall (fun e => is_wandb_event e = false) (trace Toy.final_state)) /\
  (nowand Toy.args = false -> wandb = false ->
   Ok tt = Raise AssertionError /\ trace Toy.final_state = [Print None]) /\
  (Ok tt = Ok tt ->
   exists segs,
     length segs = Z.to_nat (N_TASKS Toy.dataset) /\
     trace Toy.final_state =
       start_events Toy.args ++ concat segs
       ++ finish_events Toy.args (results Toy.final_state)
            (results_mask_classes Toy.final_state) wandb_run_url /\
     forall t seg, segs !! t = Some seg ->
       exists work mean_acc accs sal_metrics with_sal_lr saved,
         seg = work ++ [Evaluate t false]
               ++ report_events Toy.args t mean_acc accs sal_metrics
                    with_sal_lr
               ++ saved /\
         Forall (fun e => is_logger_event e = false /\
                          is_wandb_event e = false)
           (work ++ [Evaluate t false] ++ saved)).
Proof.
  assert (Hrun : train Toy.saliency_model Toy.dataset Toy.args
                 = (Ok tt, Toy.final_state))
    by (vm_compute; reflexivity).
  split; [exact Hrun|].
  exact (train_logging _ _ _ _ _ Hrun).
Defined.

Lemma train_evaluates_previous_witness :
  (1%nat <> 0%nat /\ ignore_other_metrics Toy.args = false /\
   task_training Toy.args 1 Toy.after_first_task
     = (Ok tt, Toy.trained_second_task)) /\
  let s := Toy.after_first_task in
  let s' := Toy.trained_second_task in
  let dataset := (get_data_loaders (st_dataset s)).2 in
  let model :=
    let model := train_mode_net true (st_model s) in
    if has_begin_task model
    then set_params (begin_task model dataset) model
    else model in
  exists accs model_e old trained,
    evaluate model dataset true = (Ok accs, model_e) /\
    (forall earlier earlier' newest,
       test_loaders dataset = earlier ++ [newest] ->
       length earlier' = length earlier ->
       evaluate model (with_test_loaders (earlier' ++ [newest]) dataset) true
       = evaluate model dataset true) /\
    trace s' =
      trace s ++ [GetDataLoaders 1]
      ++ (if has_begin_task (st_model s) then [BeginTask 1] else [])
      ++ [Evaluate 1 true] ++ trained /\
    Forall (work_of 1) trained /\
    Forall (fun e => forall last, e <> Evaluate 1 last) trained /\
    results s !! (1 - 1)%nat = Some old /\
    results s' = <[(1 - 1)%nat := old ++ class_il_accs accs]> (results s) /\
    (forall i : nat, i <> (1 - 1)%nat -> results s' !! i = results s !! i) /\
    (if class_il_setting dataset
     then exists old_mask,
            results_mask_classes s !! (1 - 1)%nat = Some old_mask /\
            results_mask_classes s' =
              <[(1 - 1)%nat := old_mask ++ task_il_accs accs]>
                (results_mask_classes s)
     else results_mask_classes s' = results_mask_classes s) /\
    (forall i : nat, i <> (1 - 1)%nat ->
       results_mask_classes s' !! i = results_mask_classes s !! i).
Proof.
  assert (H1 : 1%nat <> 0%nat) by lia.
  assert (H2 : ignore_other_metrics Toy.args = false) by reflexivity.
  assert (H3 : task_training Toy.args 1 Toy.after_first_task
               = (Ok tt, Toy.trained_second_task))
    by (vm_compute; reflexivity).
  split; [by split_and!|].
  exact (train_evaluates_previous Toy.args 1 _ _ H1 H2 H3).
Defined.

End Instances.

(** * Further properties *)

(** ** mask_classes beyond its intended use *)

Section MaskClassesEdges.
Context `{Payload}.

Lemma slice_fill_idempotent start stop v row :
  slice_fill start stop v (slice_fill start stop v row)
  = slice_fill start stop v row.
Proof.
  apply list_eq. intros j.
  rewrite !slice_fill_lookup, slice_fill_length.
  destruct (row !! j) as [x|]; [cbn|done].
  by destruct (_ && _).
Qed.

(** Two slice assignments of the same value commute. *)
Lemma slice_fill_comm a b c d v row :
  slice_fill a b v (slice_fill c d v row)
  = slice_fill c d v (slice_fill a b v row).
Proof.
  apply list_eq. intros j.
  rewrite !slice_fill_lookup, !slice_fill_length.
  destruct (row !! j) as [x|]; [cbn|done].
  by do 2 destruct (_ && _).
Qed.

(** X1. Masking is idempotent: masking for task k a tensor already
    masked for task k changes nothing, whatever the tensor, the dataset
    and k. *)
Theorem mask_classes_idempotent outputs (dataset : ContinualDataset) (k : Z) :
  mask_classes (mask_classes outputs dataset k) dataset k
  = mask_classes outputs dataset k.
Proof.
  apply list_eq. intros i. rewrite !mask_classes_row.
  destruct (outputs !! i) as [row|]; [|done].
  cbn [fmap option_fmap option_map]. f_equal.
  rewrite (slice_fill_comm 0). by rewrite !slice_fill_idempotent.
Qed.

(** X2. For 0 <= k < N_TASKS and a non-negative number of classes per
    task, mask_classes never writes beyond the class columns: every
    column from N_TASKS * N_CLASSES_PER_TASK on holds what it held. *)
Theorem mask_classes_beyond_classes outputs (dataset : ContinualDataset)
  (k : Z) :
  (0 <= k < N_TASKS dataset)%Z ->
  (0 <= N_CLASSES_PER_TASK dataset)%Z ->
  forall (i : nat) (row : list float),
    outputs !! i = Some row ->
    exists row',
      mask_classes outputs dataset k !! i = Some row' /\
      forall j : nat,
        (N_TASKS dataset * N_CLASSES_PER_TASK dataset <= Z.of_nat j)%Z ->
        row' !! j = row !! j.
Proof.
  intros Hk Hc i row Hrow. rewrite mask_classes_row, Hrow. cbn.
  eexists. split; [done|]. intros j Hj.
  rewrite !slice_fill_lookup, slice_fill_length.
  destruct (row !! j) as [x|]; [cbn; f_equal|done].
  unfold slice_index.
  repeat (case_match; try lia; try nia; try done);
    repeat match goal with
           | E : andb _ _ = _ |- _ =>
               first [apply andb_true_iff in E as [? ?]
                     |apply andb_false_iff in E as [?|?]]
           end; lia || nia.
Qed.

(** X3. mask_classes does not check k: for k >= N_TASKS (and a
    non-negative number of classes per task) it raises nothing and sets
    every class column a row has to -infinity. *)
Theorem mask_classes_beyond_tasks outputs (dataset : ContinualDataset)
  (k : Z) :
  (N_TASKS dataset <= k)%Z ->
  (0 <= N_CLASSES_PER_TASK dataset)%Z ->
  forall (i : nat) (row : list float),
    outputs !! i = Some row ->
    exists row',
      mask_classes outputs dataset k !! i = Some row' /\
      length row' = length row /\
      forall j : nat,
        (j < length row)%nat ->
        (Z.of_nat j < N_TASKS dataset * N_CLASSES_PER_TASK dataset)%Z ->
        row' !! j = Some neg_inf.
Proof.
  intros Hk Hc i row Hrow. rewrite mask_classes_row, Hrow. cbn.
  eexists. split; [done|]. split; [by rewrite !slice_fill_length|].
  intros j Hj Hclass.
  rewrite !slice_fill_lookup, slice_fill_length.
  destruct (lookup_lt_is_Some_2 row j Hj) as [x ->]. cbn. f_equal.
  unfold slice_index.
  repeat (case_match; try lia; try nia; try done);
    repeat match goal with
           | E : andb _ _ = _ |- _ =>
               first [apply andb_true_iff in E as [? ?]
                     |apply andb_false_iff in E as [?|?]]
           end; lia || nia.
Qed.

End MaskClassesEdges.

(** ** evaluate: when it raises, and how its two modes relate *)

Section EvaluateEdges.
Context `{Collaborators}.

(** X4. On a dataset without test loaders evaluate looks at nothing: a
    model without saliency_net gets two empty lists back, a model with
    one gets an UnboundLocalError (final_sal_scores was never assigned).
    Either way the flags have been set back by then: net.training is as
    on entry unless net is saliency_net or one of its sub-modules, and
    saliency_net.training is as on entry unless saliency_net is net or
    one of its sub-modules. *)
Theorem evaluate_without_test_loaders model dataset last :
  test_loaders dataset = [] ->
  exists model',
    evaluate model dataset last =
    (match saliency_net model with
     | Some _ => Raise UnboundLocalError
     | None => Ok (Tuple2 [] [])
     end, model') /\
    (net_in_saliency model = false \/ saliency_net model = None ->
     training (net model') = training (net model)) /\
    (saliency_in_net model = false ->
     training <$> saliency_net model' = training <$> saliency_net model).
Proof.
  intros Hnil. exists (after_evaluate model).
  split; [|apply after_evaluate_flags].
  rewrite evaluate_unfold. cbv zeta. rewrite Hnil. cbn.
  by destruct (saliency_net model).
Qed.

(** X5. With last=True and a newest test loader that yields no batch,
    evaluate raises ZeroDivisionError (the accuracy divides by a total
    of 0.0), for every model, and the exception leaves both networks in
    evaluation mode. *)
Theorem evaluate_empty_newest_loader model dataset earlier :
  test_loaders dataset = earlier ++ [[]] ->
  evaluate model dataset true =
  (Raise ZeroDivisionError,
   set_saliency_net (nn_train false <$> saliency_net model)
     (set_net (nn_train false (net model)) model)).
Proof.
  intros Hloaders. rewrite evaluate_unfold. cbv zeta.
  rewrite (last_loader_only _ _ earlier []) by done.
  cbn [for_loop]. unfold bind at 1. unfold evaluate_loader.
  rewrite Hloaders, length_app. cbn [length].
  replace (Z.of_nat (length earlier)
           <? Z.of_nat (length earlier + 1) - 1)%Z with false
    by (symmetry; apply Z.ltb_ge; lia).
  cbn. by destruct (class_il_compatible _).
Qed.

(** X6. An exception raised while evaluate goes through the loaders is
    not caught: the model is handed back with both networks in
    evaluation mode, whatever their mode was, and nothing else
    changed. *)
Theorem evaluate_raise_leaves_eval_mode model dataset last e model' :
  evaluate model dataset last = (Raise e, model') ->
  e <> UnboundLocalError ->
  model' =
    set_saliency_net (nn_train false <$> saliency_net model)
      (set_net (nn_train false (net model)) model).
Proof.
  rewrite evaluate_unfold. cbv zeta.
  destruct (for_loop _ _ _) as [[[]|e0] l]; [|by intros [= _ <-]].
  destruct (saliency_net model); [|done].
  destruct (final_sal_scores l); [done|]. by intros [= <- _].
Qed.

End EvaluateEdges.

Section EvaluateOutcome.
Context `{Collaborators}.

(** Without a saliency network, a loader whose labels count to 0.0
    raises when its accuracy is computed. *)
Lemma evaluate_loader_zero model dataset k loader l :
  has_saliency_net model = false ->
  forallb (comparable model dataset k) loader = true ->
  PrimFloat.eqb (loader_total loader) 0 = true ->
  exists l',
    evaluate_loader model dataset false (k, loader) l
    = (Raise ZeroDivisionError, l').
Proof.
  intros Hsal Hfit Hzero. unfold evaluate_loader. cbn [andb].
  unfold bind at 1, modify at 1. unfold bind at 1.
  destruct (batches_return model dataset k loader (set_counts 0 0 0 l) Hsal
              Hfit)
    as (l1 & -> & Htotal).
  change (total (set_counts 0 0 0 l)) with 0%float in Htotal.
  fold (loader_total loader) in Htotal.
  unfold py_div, when, bind, gets, modify, ret, raise.
  destruct (class_il_compatible model); cbn.
  - rewrite Htotal, Hzero. by eexists.
  - rewrite Htotal, Hzero. by eexists.
Qed.

(** The loader loop of a model without a saliency network, over
    batches whose predictions can be compared with their labels, ends
    well exactly when no loader counts to 0.0. *)
Lemma loaders_outcome model dataset (entries : list (nat * list Batch)) :
  forall l,
  has_saliency_net model = false ->
  forallb (fun e => forallb (comparable model dataset e.1) e.2) entries
  = true ->
  exists l',
    for_loop entries (evaluate_loader model dataset false) l =
    (if forallb (fun e => negb (PrimFloat.eqb (loader_total e.2) 0)) entries
     then Ok tt else Raise ZeroDivisionError, l').
Proof.
  induction entries as [|[k loader] entries IH]; intros l Hsal Hfit.
  - by eexists.
  - cbn [forallb fst snd] in Hfit.
    apply andb_true_iff in Hfit as [Hloader Hfit].
    cbn [for_loop forallb snd]. unfold bind at 1.
    destruct (PrimFloat.eqb (loader_total loader) 0) eqn:Hzero; cbn [negb andb].
    + destruct (evaluate_loader_zero model dataset k loader l Hsal Hloader
                  Hzero)
        as (l1 & ->). by eexists.
    + destruct (evaluate_loader_returns model dataset false k loader l Hsal
                  Hloader Hzero) as (l1 & ->).
      by apply IH.
Qed.

Lemma forallb_enumerate {A : Type} (g : A -> bool) (xs : list A) :
  forallb (fun e => g e.2) (enumerate xs) = forallb g xs.
Proof.
  unfold enumerate. generalize 0%nat.
  induction xs as [|x xs IH]; intros n; cbn; [done|]. by rewrite IH.
Qed.

(** X7. For a model without saliency_net and test batches whose
    predictions, made in evaluation mode, can be compared with their
    labels (as many predictions as labels, or one of either),
    evaluate(last=False) returns a pair, with net.training as on entry,
    exactly when the labels of every test loader count to a non-zero
    total; when some loader has none it raises ZeroDivisionError and
    leaves the network in evaluation mode. *)
Theorem evaluate_returns_or_divides_by_zero model dataset :
  saliency_net model = None ->
  forallb (fun e =>
    forallb
      (comparable
         (set_saliency_net (nn_train false <$> saliency_net model)
            (set_net (nn_train false (net model)) model))
         dataset e.1) e.2)
    (enumerate (test_loaders dataset)) = true ->
  if forallb (fun loader => negb (PrimFloat.eqb (loader_total loader) 0))
       (test_loaders dataset)
  then exists a am model',
         evaluate model dataset false = (Ok (Tuple2 a am), model') /\
         training (net model') = training (net model)
  else evaluate model dataset false =
       (Raise ZeroDivisionError,
        set_saliency_net (nn_train false <$> saliency_net model)
          (set_net (nn_train false (net model)) model)).
Proof.
  intros Hnone Hfit. rewrite evaluate_unfold. cbv zeta.
  match goal with
  | |- context [for_loop ?xs (evaluate_loader ?m _ _) ?l] =>
      destruct (loaders_outcome m dataset xs l) as (l' & ->)
  end.
  { unfold has_saliency_net. cbn. by rewrite Hnone. }
  { done. }
  rewrite (forallb_enumerate
             (fun loader => negb (PrimFloat.eqb (loader_total loader) 0))).
  rewrite Hnone. clear Hfit. destruct (forallb _ _); [|done].
  eexists _, _, _. split; [done|].
  apply after_evaluate_flags. by right.
Qed.

End EvaluateOutcome.

Section EvaluateModes.
Context `{Collaborators}.

(** What a batch adds to the three counters does not depend on them. *)
Lemma evaluate_batch_counts model dataset k data l1 l2 f1 f2 l1' l2' :
  evaluate_batch model dataset k data l1 = (Ok f1, l1') ->
  evaluate_batch model dataset k data l2 = (Ok f2, l2') ->
  correct l1 = correct l2 ->
  correct_mask_classes l1 = correct_mask_classes l2 ->
  total l1 = total l2 ->
  correct l1' = correct l2' /\
  correct_mask_classes l1' = correct_mask_classes l2' /\
  total l1' = total l2'.
Proof.
  unfold evaluate_batch. destruct data as [inputs labels].
  intros H1 H2 Hc Hcm Ht. exec; cbn; rewrite ?Hc, ?Hcm, ?Ht; done.
Qed.

Lemma batches_counts model dataset k loader : forall l1 l2 l1' l2',
  for_loop loader (evaluate_batch model dataset k) l1 = (Ok tt, l1') ->
  for_loop loader (evaluate_batch model dataset k) l2 = (Ok tt, l2') ->
  correct l1 = correct l2 ->
  correct_mask_classes l1 = correct_mask_classes l2 ->
  total l1 = total l2 ->
  correct l1' = correct l2' /\
  correct_mask_classes l1' = correct_mask_classes l2' /\
  total l1' = total l2'.
Proof.
  induction loader as [|data loader IH]; intros l1 l2 l1' l2'; cbn [for_loop].
  - by intros [= <-] [= <-].
  - intros (f1 & m1 & Hb1 & Hr1)%bind_ok (f2 & m2 & Hb2 & Hr2)%bind_ok
      Hc Hcm Ht.
    destruct (evaluate_batch_counts _ _ _ _ _ _ _ _ _ _ Hb1 Hb2 Hc Hcm Ht)
      as (Hc' & Hcm' & Ht').
    assert (f1 = Next) as ->.
    { unfold evaluate_batch in Hb1. destruct data. by exec. }
    assert (f2 = Next) as ->.
    { unfold evaluate_batch in Hb2. destruct data. by exec. }
    by eapply IH.
Qed.

(** The two entries an iteration appends, from the counters its batches
    leave behind. *)
Lemma evaluate_loader_entry model dataset last k loader l f l' :
  evaluate_loader model dataset last (k, loader) l = (Ok f, l') ->
  last && (Z.of_nat k <? Z.of_nat (length (test_loaders dataset)) - 1)%Z
    = false ->
  exists counted,
    for_loop loader (evaluate_batch model dataset k) (set_counts 0 0 0 l)
      = (Ok tt, counted) /\
    accs l' =
      accs l ++ [if class_il_compatible model
                 then PyFloat (correct counted / total counted * 100)
                 else PyInt 0] /\
    accs_mask_classes l' =
      accs_mask_classes l
      ++ [PyFloat (correct_mask_classes counted / total counted * 100)].
Proof.
  unfold evaluate_loader. intros Hrun Hskip. rewrite Hskip in Hrun.
  unfold bind at 1, modify at 1 in Hrun.
  unfold bind at 1 in Hrun.
  destruct (for_loop loader _ _) as [[[]|e] l1] eqn:Hbatches; [|done].
  exists l1. split; [done|].
  apply batches_frame in Hbatches as (Ha & Hb & Hc). cbn in Ha, Hb, Hc.
  destruct (has_saliency_net model) eqn:Hsal.
  - exec;
      match goal with
      | Hm : for_loop ?ms _ ?l0 = (?r, ?l1) |- _ =>
          pose proof (metrics_frame ms l0 r l1 (ex_intro _ [] eq_refl) Hm)
            as (Hx & Hy & _);
          cbn in Hx, Hy; rewrite Hx, Hy, Ha, Hb
      end; done.
  - exec; cbn; rewrite ?Ha, ?Hb; done.
Qed.

(** X8. What evaluate(last=True) returns is the tail of what
    evaluate(last=False) returns: when both calls return, the
    accuracies of the first are the last entries of the second
    (everything from index len(test_loaders) - 1 on), for the class-il
    and for the task-il list alike. *)
Theorem evaluate_last_is_tail model dataset r_all r_last model1 model2 :
  evaluate model dataset false = (Ok r_all, model1) ->
  evaluate model dataset true = (Ok r_last, model2) ->
  class_il_accs r_last
    = drop (length (test_loaders dataset) - 1) (class_il_accs r_all) /\
  task_il_accs r_last
    = drop (length (test_loaders dataset) - 1) (task_il_accs r_all).
Proof.
  intros (l_all & Hall & -> & -> & _)%evaluate_ok
         (l_last & Hlast & -> & -> & _)%evaluate_ok.
  pose proof (loaders_loop _ _ _ _ Hall) as (Hlen & Hcount & _).
  pose proof (loaders_loop _ _ _ _ Hlast) as (Hlen' & Hcount' & _).
  cbv zeta in Hcount, Hcount'.
  assert (Hcase : test_loaders dataset = []
                  \/ exists l x, test_loaders dataset = l ++ [x]).
  { destruct (test_loaders dataset) as [|x l _] using rev_ind; eauto. }
  destruct Hcase as [Hloaders|(l & x & Hloaders)].
  - rewrite Hloaders in Hcount, Hcount' |- *. cbn in Hcount, Hcount'.
    destruct (accs l_all), (accs l_last),
      (accs_mask_classes l_all), (accs_mask_classes l_last);
      cbn in *; try done; lia.
  - rewrite (last_loader_only _ dataset l x) in Hlast by done.
    rewrite Hloaders in Hall at 1.
    rewrite enumerate_snoc, for_loop_app in Hall;
      [|by intros [k loader] s f s' [-> _]%evaluate_loader_ok].
    apply bind_ok in Hall as ([] & l_mid & _ & Hall).
    cbn [for_loop] in Hall, Hlast.
    apply bind_ok in Hall as (f1 & l1 & Hall & Hret1).
    apply bind_ok in Hlast as (f2 & l2 & Hlast & Hret2).
    assert (l1 = l_all) as -> by (destruct f1; by injection Hret1).
    assert (l2 = l_last) as -> by (destruct f2; by injection Hret2).
    apply evaluate_loader_entry in Hall as (c1 & Hb1 & Ha1 & Hm1); [|done].
    apply evaluate_loader_entry in Hlast as (c2 & Hb2 & Ha2 & Hm2).
    2:{ rewrite Hloaders, length_app. cbn.
        apply Z.ltb_ge. lia. }
    destruct (batches_counts _ _ _ _ _ _ _ _ Hb1 Hb2 eq_refl eq_refl eq_refl)
      as (Hc & Hcm & Ht).
    rewrite Hloaders, length_app in Hcount |- *.
    cbn [length] in Hcount |- *.
    rewrite Ha1, length_app in Hcount. cbn in Hcount.
    assert (Hmid : length (accs l_mid) = length l) by lia.
    assert (Hmidm : length (accs_mask_classes l_mid) = length l).
    { rewrite Ha1, Hm1, !length_app in Hlen. cbn in Hlen. lia. }
    rewrite Ha1, Hm1, Ha2, Hm2, Hc, Hcm, Ht.
    rewrite !drop_app_length' by lia. done.
Qed.

End EvaluateModes.

(** ** train: what its guards keep out *)

Section TrainGuards.
Context `{Collaborators}.

Lemma evaluate_previous_guarded args t :
  respects (extends_with (guarded args)) (evaluate_previous args t).
Proof.
  unfold evaluate_previous. respects_rule respects_when. intros Hcond.
  apply andb_true_iff in Hcond as [Ht Hflag].
  apply negb_true_iff in Ht, Hflag. apply Nat.eqb_neq in Ht.
  respects_rule respects_bind.
  { by apply call_evaluate_extends. }
  intros accs. respects_auto.
Qed.

Lemma train_batch_guarded args t epoch entry :
  args_model args <> "joint" ->
  respects (extends_with (guarded args)) (train_batch args t epoch entry).
Proof.
  intros Hmodel. unfold train_batch. destruct entry as [i data].
  destruct (debug_mode args && (3 <? i)%nat) eqn:Hdebug.
  { respects_auto. }
  assert (Hi : debug_mode args = true -> (i <= 3)%nat).
  { intros Hd. rewrite Hd in Hdebug. by apply Nat.ltb_ge in Hdebug. }
  respects_auto; by split.
Qed.

Lemma train_epoch_guarded args t loader scheduler epoch :
  respects (extends_with (guarded args))
    (train_epoch args t loader scheduler epoch).
Proof.
  unfold train_epoch. case_bool_decide as Hmodel; [respects_auto|].
  pose proof (train_batch_guarded args t epoch) as Hbatch.
  respects_rule respects_bind.
  { respects_rule respects_for_loop. intros entry. by apply Hbatch. }
  intros _. respects_auto.
Qed.

Lemma task_training_guarded args t :
  respects (extends_with (guarded args)) (task_training args t).
Proof.
  pose proof (evaluate_previous_guarded args t).
  pose proof (train_epoch_guarded args t).
  unfold task_training. respects_auto.
Qed.

Lemma report_guarded args t accs sal_metrics :
  respects (extends_with (guarded args)) (report args t accs sal_metrics).
Proof. unfold report. respects_auto. Qed.

Lemma checkpoint_guarded args t sal_metrics :
  respects (extends_with (guarded args)) (checkpoint args t sal_metrics).
Proof.
  destruct (savecheck args) eqn:Hsave, (disable_log args) eqn:Hlog.
  - intros s r s' Hrun.
    destruct (checkpoint_without_logger args t sal_metrics s Hsave Hlog)
      as (s1 & Hraise & Htrace).
    rewrite Hraise in Hrun. injection Hrun as _ <-.
    eexists. split; [by rewrite Htrace|].
    destruct (has_saliency_net _), (buffer_size_in_args _);
      repeat (apply Forall_cons; split; [done|]); by apply Forall_nil.
  - unfold checkpoint. rewrite Hsave, Hlog. respects_auto.
  - unfold checkpoint. rewrite Hsave. respects_auto.
  - unfold checkpoint. rewrite Hsave. respects_auto.
Qed.

Lemma train_task_guarded args t :
  respects (extends_with (guarded args)) (train_task args t).
Proof.
  pose proof (task_training_guarded args t).
  pose proof (report_guarded args t).
  pose proof (checkpoint_guarded args t).
  unfold train_task, task_closing. respects_rule respects_bind; [done|].
  intros _. respects_rule respects_bind.
  - respects_rule respects_bind; [by apply call_evaluate_extends|].
    intros accs. respects_auto.
  - intros _. respects_auto.
Qed.

(** However a run ends, every call it made passed its guard. *)
Lemma train_guarded model dataset args r s' :
  train model dataset args = (r, s') -> Forall (guarded args) (trace s').
Proof.
  unfold train. intros Hrun.
  enough (Hall : extends_with (guarded args) (init_state model dataset) s').
  { destruct Hall as (evs & -> & Hall). done. }
  revert Hrun. generalize (init_state model dataset). intros s0.
  revert s0 r s'.
  change (respects (extends_with (guarded args))
    (start args ;;
     dataset <- gets st_dataset ;;
     for_loop (range (N_TASKS dataset)) (train_task args) ;;
     finish args)).
  pose proof (train_task_guarded args).
  unfold start, finish. respects_auto.
Qed.

End TrainGuards.

Section TrainEdges.
Context `{Collaborators}.

(** X9. In debug mode at most four batches of an epoch are trained on:
    however the run ends, it has called meta_observe and the progress
    bar only for batches of index 0 to 3. *)
Theorem train_debug_mode model dataset args r s' :
  train model dataset args = (r, s') ->
  debug_mode args = true ->
  forall t epoch i : nat,
    MetaObserve t epoch i ∈ trace s' \/ Progress t epoch i ∈ trace s' ->
    (i <= 3)%nat.
Proof.
  intros Hrun Hdebug t epoch i Hin.
  pose proof (train_guarded _ _ _ _ _ Hrun) as Hall.
  rewrite Forall_forall in Hall.
  destruct Hin as [Hin|Hin]; apply Hall in Hin as [_ Hi]; auto.
Qed.

(** X10. With args.model == 'joint' the loop trains on nothing: however
    the run ends, it has not called meta_observe, the progress bar or
    either scheduler. *)
Theorem train_joint_observes_nothing model dataset args r s' :
  train model dataset args = (r, s') ->
  args_model args = "joint" ->
  forall t epoch i : nat,
    (MetaObserve t epoch i ∉ trace s') /\
    (Progress t epoch i ∉ trace s') /\
    (SchedulerStep t epoch ∉ trace s') /\
    (SaliencySchedulerStep t epoch ∉ trace s').
Proof.
  intros Hrun Hjoint t epoch i.
  pose proof (train_guarded _ _ _ _ _ Hrun) as Hall.
  rewrite Forall_forall in Hall.
  split_and!; intros Hin; apply Hall in Hin; cbn in Hin; tauto.
Qed.

(** X11. The evaluation with last=True is made in no first iteration
    and in no run with args.ignore_other_metrics: if a run, however it
    ends, has made it in iteration t, then t >= 1 and the flag is
    false. *)
Theorem train_evaluates_newest_only_later model dataset args r s' (t : nat) :
  train model dataset args = (r, s') ->
  Evaluate t true ∈ trace s' ->
  t <> 0%nat /\ ignore_other_metrics args = false.
Proof.
  intros Hrun Hin.
  pose proof (train_guarded _ _ _ _ _ Hrun) as Hall.
  rewrite Forall_forall in Hall. by apply Hall in Hin.
Qed.

(** X12. Without a local logger no run pickles its results, however it
    ends; and with args.savecheck and at least one task such a run does
    not return: it ends in an exception. *)
Theorem train_without_logger_dumps_nothing model dataset args r s' :
  train model dataset args = (r, s') ->
  disable_log args = true ->
  (forall t rs rms sal_metrics,
     DumpResults t rs rms sal_metrics ∉ trace s') /\
  (savecheck args = true -> (0 < N_TASKS dataset)%Z ->
   exists e, r = Raise e).
Proof.
  intros Hrun Hlog. split.
  - intros t rs rms sal Hin.
    pose proof (train_guarded _ _ _ _ _ Hrun) as Hall.
    rewrite Forall_forall in Hall. apply Hall in Hin as [_ Hin].
    congruence.
  - intros Hsave Hn. destruct r as [[]|e]; [|by eexists].
    pose proof (train_needs_logger_to_checkpoint _ _ _ _ Hrun Hn Hsave).
    congruence.
Qed.

(** X13. Without args.savecheck no run touches the file system, however
    it ends: no directory made, no state dict saved, no file opened or
    pickled into. *)
Theorem train_without_savecheck model dataset args r s' :
  train model dataset args = (r, s') ->
  savecheck args = false ->
  Forall (fun e => is_file_event e = false) (trace s').
Proof.
  intros Hrun Hsave. eapply Forall_impl; [by eapply train_flagged|].
  intros e (_ & _ & Hfile). by apply Hfile.
Qed.

Lemma work_not_filed e : is_work_event e = true -> is_file_event e = false.
Proof. by destruct e as [[]| | | | | | | | | | | | |? []| | | | | | | | | | | |]. Qed.

Lemma report_events_not_filed args t mean_acc accs sal_metrics with_sal_lr :
  Forall (fun e => is_file_event e = false)
    (report_events args t mean_acc accs sal_metrics with_sal_lr).
Proof.
  unfold report_events.
  destruct (disable_log args), (nowand args); repeat constructor.
Qed.

(** X14. A run with args.savecheck that returns has made one checkpoint
    per task, after everything else the iteration does: the directory,
    the state dict of the net, that of the saliency net exactly when the
    model has one, the pickled buffer exactly when 'buffer_size' is in
    model.args, the pickled args, and the pickled results, which hold
    t+1 entries in task t. These are all its file-system calls. *)
Theorem train_checkpoints_every_task model dataset args s' :
  train model dataset args = (Ok tt, s') ->
  savecheck args = true ->
  exists segs,
    length segs = Z.to_nat (N_TASKS dataset) /\
    trace s' =
      start_events args ++ concat segs
      ++ finish_events args (results s') (results_mask_classes s')
           wandb_run_url /\
    Forall (fun e => is_file_event e = false) (start_events args) /\
    Forall (fun e => is_file_event e = false)
      (finish_events args (results s') (results_mask_classes s')
         wandb_run_url) /\
    forall t seg, segs !! t = Some seg ->
      exists before rs rms sal_metrics,
        seg =
          before
          ++ [Print (Some t); MakeDir t; SaveNet t]
          ++ (if has_saliency_net model then [SaveSaliencyNet t] else [])
          ++ (if buffer_size_in_args model
              then [OpenFile BufferPickle t; DumpBuffer t] else [])
          ++ [OpenFile ArgsPickle t; DumpArgs t; OpenFile ResultsPickle t;
              DumpResults t rs rms sal_metrics] /\
        Forall (fun e => is_file_event e = false) before /\
        length rs = Datatypes.S t /\
        length rms = Datatypes.S t.
Proof.
  intros Hrun Hsave.
  destruct (train_ok _ _ _ _ Hrun)
    as (s1 & s2 & segs & _ & _ & _ & _ & Ht3 & Hlen & Hsegs & _).
  exists segs. split_and!; [done..| | |].
  - unfold start_events.
    destruct (nowand args), (disable_log args); repeat constructor.
  - unfold finish_events.
    destruct (nowand args), (disable_log args), (ignore_other_metrics args);
      repeat constructor.
  - intros t seg
      (_ & work & mean & accs & sal & lr & rs & rms & -> & Hwork & Hr & Hrm)
      %Hsegs.
    exists (work ++ [Evaluate t false]
            ++ report_events args t mean accs sal lr), rs, rms, sal.
    split_and!; [|  |done..].
    + unfold checkpoint_events. rewrite Hsave.
      by rewrite <- !app_assoc.
    + apply Forall_app. split.
      * eapply Forall_impl; [done|]. apply work_not_filed.
      * apply Forall_cons. split; [done|]. apply report_events_not_filed.
Qed.

End TrainEdges.

Section TrainResults.
Context `{Collaborators}.

Lemma report_steady args t accs sal_metrics :
  respects steady (report args t accs sal_metrics).
Proof. unfold report. respects_auto. Qed.

Lemma checkpoint_steady args t sal_metrics :
  respects steady (checkpoint args t sal_metrics).
Proof. unfold checkpoint. respects_auto. Qed.

Lemma steady_balanced s s' : steady s s' -> balanced s -> balanced s'.
Proof. unfold balanced. intros (-> & -> & _). done. Qed.

Lemma task_closing_balanced args t s r s' :
  balanced s -> task_closing args t s = (r, s') -> balanced s'.
Proof.
  intros Hs. unfold task_closing.
  intros [(e' & Hrun & _)|(accs & s3 & Hrun & Hrest)]%bind_any;
    apply call_evaluate_steady in Hrun;
    pose proof (steady_balanced _ _ Hrun Hs) as Hs3; [done|].
  clear Hrun Hs.
  unfold bind at 1, modify at 1 in Hrest.
  unfold bind at 1, modify at 1 in Hrest.
  unfold bind at 1, gets at 1 in Hrest.
  destruct (split_saliency _ _) as [sal accs'].
  assert (balanced
            (set_results_mask_classes (fun r => r ++ [task_il_accs accs])
               (set_results (fun r => r ++ [class_il_accs accs]) s3)))
    as Hs4.
  { unfold balanced in *. cbn. rewrite !length_app. cbn. lia. }
  apply bind_any in Hrest as [(e' & Hrun & _)|([] & s5 & Hrun & Hrest)];
    apply report_steady in Hrun;
    pose proof (steady_balanced _ _ Hrun Hs4) as Hs5; [done|].
  apply checkpoint_steady in Hrest. by eapply steady_balanced.
Qed.

Lemma train_task_balanced args t s r s' :
  balanced s -> train_task args t s = (r, s') -> balanced s'.
Proof.
  intros Hs. unfold train_task.
  intros [(e & Hrun & _)|([] & s1 & Hrun & Hrest)]%bind_any;
    apply task_training_steady in Hrun;
    pose proof (steady_balanced _ _ Hrun Hs) as Hs1; [done|].
  clear Hrun Hs.
  apply bind_any in Hrest as [(e & Hrun & _)|([] & s2 & Hrun & Hrest)];
    apply (task_closing_balanced _ _ _ _ _ Hs1) in Hrun; [done|].
  by injection Hrest as _ <-.
Qed.

Lemma start_balanced args s r s' :
  balanced s -> start args s = (r, s') -> balanced s'.
Proof.
  unfold start, tell, balanced. intros Hs Hrun.
  destruct (nowand args), (disable_log args), (ignore_other_metrics args),
    wandb; exec;
    repeat match goal with
           | Hloop : for_loop _ _ _ = _ |- _ =>
               apply warm_up_loop in Hloop
                 as (? & Ht & Hd & Hr & Hrm & Hsh);
               cbn in Ht, Hd, Hr, Hrm, Hsh
           end;
    simplify_eq; cbn; congruence.
Qed.

(** X15. However a run ends, results and results_mask_classes hold
    equally many entries: no exception separates the two appends, and
    the first-look evaluation only extends entries that exist. *)
Theorem train_results_in_step model dataset args r s' :
  train model dataset args = (r, s') ->
  length (results s') = length (results_mask_classes s').
Proof.
  unfold train.
  assert (balanced (init_state model dataset)) as Hinit by done.
  intros [(e & Hrun & _)|([] & s1 & Hrun & Hrest)]%bind_any;
    apply (start_balanced _ _ _ _ Hinit) in Hrun; [done|].
  unfold bind at 1, gets at 1 in Hrest.
  apply bind_any in Hrest as [(e & Hloop & _)|([] & s2 & Hloop & Hrest)];
    apply (for_loop_preserves balanced) in Hloop;
    try done; try (intros; by eapply train_task_balanced).
  apply finish_ok in Hrest as (_ & _ & _ & _ & Hr & Hrm & _).
  unfold balanced in *. congruence.
Qed.

Lemma start_returns args s :
  nowand args = true \/ wandb = true ->
  exists s1, start args s = (Ok tt, s1).
Proof.
  intros Hwandb. unfold start, tell.
  destruct (start args s) as [r s1] eqn:Hrun. unfold start, tell in Hrun.
  rewrite Hrun.
  destruct (nowand args), (disable_log args), (ignore_other_metrics args),
    wandb; try (by destruct Hwandb); exec;
    repeat match goal with
           | Hloop : for_loop _ _ _ = _ |- _ =>
               apply warm_up_loop in Hloop as (? & _)
           end;
    simplify_eq; by eexists.
Qed.

(** X16. For a dataset without tasks (N_TASKS <= 0) train returns
    without training or evaluating: when wandb is installed or
    args.nowand is set, it makes the calls that precede the loop and
    those that follow it, on empty results, and nothing else. *)
Theorem train_without_tasks model dataset args :
  (N_TASKS dataset <= 0)%Z ->
  nowand args = true \/ wandb = true ->
  exists s',
    train model dataset args = (Ok tt, s') /\
    results s' = [] /\ results_mask_classes s' = [] /\
    trace s' = start_events args ++ finish_events args [] [] wandb_run_url.
Proof.
  intros Hn Hwandb. unfold train.
  destruct (start_returns args (init_state model dataset) Hwandb)
    as [s1 Hstart].
  pose proof (start_ok _ _ _ Hstart) as (Ht & Hd & Hr & Hrm & _).
  unfold bind at 1. rewrite Hstart.
  unfold bind at 1, gets at 1. rewrite Hd. cbn [st_dataset init_state].
  unfold range. replace (Z.to_nat (N_TASKS dataset)) with 0%nat by lia.
  cbn [seq for_loop]. unfold bind at 1, ret at 1.
  destruct (finish args s1) as [r s2] eqn:Hfin.
  apply finish_ok in Hfin as (-> & Ht2 & _ & _ & Hr2 & Hrm2 & _).
  exists s2. rewrite Hr2, Hrm2, Ht2, Ht, Hr, Hrm. done.
Qed.

(** What [assert not math.isnan(...)] looks at: the loss, or the first
    entry of a list of losses. *)
Lemma check_loss_nan loss (s : TrainState) r s' :
  match loss with
  | LossFloat x => is_nan x = true
  | LossList xs => exists x rest, xs = x :: rest /\ is_nan x = true
  end ->
  check_loss loss s = (r, s') -> r = Raise AssertionError /\ s' = s.
Proof.
  unfold check_loss. destruct loss as [x|xs].
  - intros ->. by intros [= <- <-].
  - intros (x & rest & -> & Hx). cbn. unfold bind, ret, assert.
    cbn. rewrite Hx. by intros [= <- <-].
Qed.

(** X17. A batch whose loss is NaN, or whose list of losses starts with
    NaN, is never completed. Unless debug mode has cut the epoch or the
    batch does not unpack, the model is updated by meta_observe first,
    then the assertion fails, and the progress bar is not advanced. *)
Theorem train_batch_nan_loss args t epoch i data s r s' loss p :
  train_batch args t epoch (i, data) s = (r, s') ->
  meta_observe (st_model s) data = (loss, p) ->
  match loss with
  | LossFloat x => is_nan x = true
  | LossList xs => exists x rest, xs = x :: rest /\ is_nan x = true
  end ->
  (r = Ok Break /\ s' = s /\ debug_mode args = true /\ (3 < i)%nat) \/
  (r = Raise ValueError /\ s' = s) \/
  (r = Raise AssertionError /\
   params (st_model s') = p /\
   trace s' = trace s ++ [MetaObserve t epoch i]).
Proof.
  unfold train_batch. intros Hrun Hobs Hnan.
  destruct (debug_mode args && (3 <? i)%nat) eqn:Hcut.
  - left. injection Hrun as <- <-.
    apply andb_true_iff in Hcut as [? ?%Nat.ltb_lt]. done.
  - right. unfold bind at 1, gets at 1 in Hrun.
    apply bind_any in Hrun as [(e & Hrun & ->)|([] & s1 & Hrun & Hrest)].
    + left. unfold unpack in Hrun.
      destruct (has_logits _), (tb_logits data);
        unfold ret, raise in Hrun; by simplify_eq.
    + right.
      assert (s1 = s) as ->.
      { unfold unpack in Hrun.
        destruct (has_logits _), (tb_logits data);
        unfold ret, raise in Hrun; by simplify_eq. }
      unfold bind at 1, gets at 1 in Hrest. rewrite Hobs in Hrest.
      unfold tell, bind at 1, modify at 1 in Hrest.
      unfold bind at 1, modify at 1 in Hrest.
      apply bind_any in Hrest as [(e & Hrun' & ->)|(u & s2 & Hrun' & _)];
        apply (check_loss_nan _ _ _ _ Hnan) in Hrun' as [? ->];
        by simplify_eq.
Qed.

(** X18. Of a list of losses only the first entry is checked: when that
    is a number, the assertion holds whatever the other entries are. *)
Theorem train_batch_checks_first_loss args t epoch i data s r s' x rest p :
  train_batch args t epoch (i, data) s = (r, s') ->
  meta_observe (st_model s) data = (LossList (x :: rest), p) ->
  is_nan x = false ->
  r <> Raise AssertionError /\ r <> Raise IndexError.
Proof.
  unfold train_batch. intros Hrun Hobs Hx.
  destruct (debug_mode args && (3 <? i)%nat); [by injection Hrun as <- _|].
  unfold bind at 1, gets at 1 in Hrun.
  apply bind_any in Hrun as [(e & Hrun & ->)|([] & s1 & Hrun & Hrest)].
  - unfold unpack in Hrun.
    destruct (has_logits _), (tb_logits data);
        unfold ret, raise in Hrun; by simplify_eq.
  - assert (s1 = s) as ->.
    { unfold unpack in Hrun.
      destruct (has_logits _), (tb_logits data);
        unfold ret, raise in Hrun; by simplify_eq. }
    unfold bind at 1, gets at 1 in Hrest. rewrite Hobs in Hrest.
    unfold tell, bind at 1, modify at 1 in Hrest.
    unfold bind at 1, modify at 1 in Hrest.
    unfold check_loss in Hrest. cbn in Hrest.
    unfold bind, ret, assert, modify in Hrest. cbn in Hrest.
    rewrite Hx in Hrest. cbn in Hrest. by injection Hrest as <- _.
Qed.

End TrainResults.

Section EvaluateSetting.
Context `{Collaborators}.

(** Outside the class-il setting a batch leaves the masked counter
    alone and adds the number of its labels to the total. *)
Lemma evaluate_batch_unmasked model dataset k data l f l' :
  class_il_setting dataset = false ->
  evaluate_batch model dataset k data l = (Ok f, l') ->
  f = Next /\
  correct_mask_classes l' = correct_mask_classes l /\
  total l' = (total l + float_of_nat (length data.2))%float.
Proof.
  unfold evaluate_batch. destruct data as [inputs labels].
  intros -> Hrun. by exec.
Qed.

Lemma batches_unmasked model dataset k loader : forall l l',
  class_il_setting dataset = false ->
  for_loop loader (evaluate_batch model dataset k) l = (Ok tt, l') ->
  correct_mask_classes l' = correct_mask_classes l /\
  total l' =
    foldl (fun t data => (t + float_of_nat (length data.2))%float)
      (total l) loader.
Proof.
  induction loader as [|data loader IH]; intros l l' Hset; cbn [for_loop foldl].
  - by intros [= <-].
  - intros (f & l1 & Hb & Hrest)%bind_ok.
    apply evaluate_batch_unmasked in Hb as (-> & Hcm & Ht); [|done].
    apply IH in Hrest as [-> ->]; [|done]. by rewrite Hcm, Ht.
Qed.

Lemma loaders_unmasked model dataset (entries : list (nat * list Batch)) :
  forall l l',
  class_il_setting dataset = false ->
  for_loop entries (evaluate_loader model dataset false) l = (Ok tt, l') ->
  accs_mask_classes l' =
    accs_mask_classes l
    ++ ((fun loader => PyFloat (0 / loader_total loader * 100)) <$> entries.*2).
Proof.
  induction entries as [|[k loader] entries IH]; intros l l' Hset;
    cbn [for_loop fmap list_fmap snd].
  - intros [= <-]. by rewrite app_nil_r.
  - intros (f & l1 & Hstep & Hrest)%bind_ok.
    pose proof (evaluate_loader_ok _ _ _ _ _ _ _ _ Hstep) as [-> _].
    apply evaluate_loader_entry in Hstep as (c & Hb & _ & Hm); [|done].
    apply batches_unmasked in Hb as [Hcm Ht]; [|done].
    cbn in Hcm, Ht. fold (loader_total loader) in Ht.
    apply IH in Hrest; [|done].
    rewrite Hrest, Hm, Hcm, Ht, <- app_assoc. done.
Qed.

Lemma enumerate_values {A : Type} (xs : list A) : (enumerate xs).*2 = xs.
Proof. unfold enumerate. apply snd_zip. by rewrite length_seq. Qed.

(** X19. For a dataset whose SETTING is not 'class-il' the task-il
    accuracies evaluate(last=False) returns say nothing about the
    model: the entry of every test loader is 0.0 / total * 100, with
    total the number of the loader's labels. *)
Theorem evaluate_task_il_outside_class_il model dataset r model' :
  SETTING dataset <> "class-il" ->
  evaluate model dataset false = (Ok r, model') ->
  task_il_accs r =
    (fun loader => PyFloat (0 / loader_total loader * 100))
      <$> test_loaders dataset.
Proof.
  intros Hset (l & Hloop & _ & -> & _)%evaluate_ok.
  apply loaders_unmasked in Hloop.
  - by rewrite Hloop, enumerate_values.
  - unfold class_il_setting. by apply bool_decide_eq_false.
Qed.

End EvaluateSetting.

(** ** The further properties on the toy inputs *)

Section FurtherInstances.
#[local] Existing Instance Toy.payload.
#[local] Existing Instance Toy.collaborators.

(** In debug mode the fifth batch of an epoch is not trained on. *)
Example debug_mode_example :
  Edge.debug_run.1 = Ok tt /\
  filter (fun e => match e with MetaObserve _ _ _ => true | _ => false end
                   = true)
    (trace Edge.debug_run.2) =
    [MetaObserve 0 0 0; MetaObserve 0 0 1; MetaObserve 0 0 2;
     MetaObserve 0 0 3; MetaObserve 1 0 0; MetaObserve 1 0 1;
     MetaObserve 1 0 2; MetaObserve 1 0 3].
Proof. split; vm_compute; reflexivity. Qed.

Lemma mask_classes_beyond_classes_witness :
  ((0 <= 1 < N_TASKS Toy.dataset)%Z /\
   (0 <= N_CLASSES_PER_TASK Toy.dataset)%Z) /\
  forall (i : nat) (row : list float),
    Edge.wide_outputs !! i = Some row ->
    exists row',
      mask_classes Edge.wide_outputs Toy.dataset 1 !! i = Some row' /\
      forall j : nat,
        (N_TASKS Toy.dataset * N_CLASSES_PER_TASK Toy.dataset
         <= Z.of_nat j)%Z ->
        row' !! j = row !! j.
Proof.
  assert (H1 : (0 <= 1 < N_TASKS Toy.dataset)%Z) by (cbn; lia).
  assert (H2 : (0 <= N_CLASSES_PER_TASK Toy.dataset)%Z) by (cbn; lia).
  split; [by split|].
  exact (mask_classes_beyond_classes Edge.wide_outputs Toy.dataset 1 H1 H2).
Defined.

Lemma mask_classes_beyond_tasks_witness :
  ((N_TASKS Toy.dataset <= 2)%Z /\
   (0 <= N_CLASSES_PER_TASK Toy.dataset)%Z) /\
  forall (i : nat) (row : list float),
    Edge.wide_outputs !! i = Some row ->
    exists row',
      mask_classes Edge.wide_outputs Toy.dataset 2 !! i = Some row' /\
      length row' = length row /\
      forall j : nat,
        (j < length row)%nat ->
        (Z.of_nat j
         < N_TASKS Toy.dataset * N_CLASSES_PER_TASK Toy.dataset)%Z ->
        row' !! j = Some neg_inf.
Proof.
  assert (H1 : (N_TASKS Toy.dataset <= 2)%Z) by (cbn; lia).
  assert (H2 : (0 <= N_CLASSES_PER_TASK Toy.dataset)%Z) by (cbn; lia).
  split; [by split|].
  exact (mask_classes_beyond_tasks Edge.wide_outputs Toy.dataset 2 H1 H2).
Defined.

Lemma evaluate_without_test_loaders_witness :
  test_loaders Toy.dataset = [] /\
  exists model',
    evaluate Edge.nested_model Toy.dataset true =
    (match saliency_net Edge.nested_model with
     | Some _ => Raise UnboundLocalError
     | None => Ok (Tuple2 [] [])
     end, model') /\
    (net_in_saliency Edge.nested_model = false \/
     saliency_net Edge.nested_model = None ->
     training (net model') = training (net Edge.nested_model)) /\
    (saliency_in_net Edge.nested_model = false ->
     training <$> saliency_net model'
     = training <$> saliency_net Edge.nested_model).
Proof.
  assert (H1 : test_loaders Toy.dataset = []) by reflexivity.
  split; [exact H1|].
  exact (evaluate_without_test_loaders Edge.nested_model Toy.dataset true
           H1).
Defined.

Lemma evaluate_empty_newest_loader_witness :
  test_loaders Edge.dataset_stale = [[Toy.test_batch 0]] ++ [[]] /\
  evaluate Toy.saliency_model Edge.dataset_stale true =
  (Raise ZeroDivisionError,
   set_saliency_net (nn_train false <$> saliency_net Toy.saliency_model)
     (set_net (nn_train false (net Toy.saliency_model))
        Toy.saliency_model)).
Proof.
  assert (H1 : test_loaders Edge.dataset_stale
               = [[Toy.test_batch 0]] ++ [[]]) by reflexivity.
  split; [exact H1|].
  exact (evaluate_empty_newest_loader Toy.saliency_model Edge.dataset_stale
           [[Toy.test_batch 0]] H1).
Defined.

Lemma evaluate_raise_leaves_eval_mode_witness :
  (evaluate Toy.saliency_model Edge.dataset_stale false
     = (Raise ZeroDivisionError, Edge.saliency_model_eval) /\
   ZeroDivisionError <> UnboundLocalError) /\
  Edge.saliency_model_eval =
    set_saliency_net (nn_train false <$> saliency_net Toy.saliency_model)
      (set_net (nn_train false (net Toy.saliency_model))
         Toy.saliency_model).
Proof.
  assert (H1 : evaluate Toy.saliency_model Edge.dataset_stale false
               = (Raise ZeroDivisionError, Edge.saliency_model_eval))
    by (vm_compute; reflexivity).
  assert (H2 : ZeroDivisionError <> UnboundLocalError) by discriminate.
  split; [by split|].
  exact (evaluate_raise_leaves_eval_mode _ _ _ _ _ H1 H2).
Defined.

Lemma evaluate_returns_or_divides_by_zero_witness :
  (saliency_net Toy.model = None /\
   forallb (fun e =>
     forallb
       (comparable
          (set_saliency_net (nn_train false <$> saliency_net Toy.model)
             (set_net (nn_train false (net Toy.model)) Toy.model))
          Edge.dataset_stale e.1) e.2)
     (enumerate (test_loaders Edge.dataset_stale)) = true) /\
  if forallb (fun loader => negb (PrimFloat.eqb (loader_total loader) 0))
       (test_loaders Edge.dataset_stale)
  then exists a am model',
         evaluate Toy.model Edge.dataset_stale false
         = (Ok (Tuple2 a am), model') /\
         training (net model') = training (net Toy.model)
  else evaluate Toy.model Edge.dataset_stale false =
       (Raise ZeroDivisionError,
        set_saliency_net (nn_train false <$> saliency_net Toy.model)
          (set_net (nn_train false (net Toy.model)) Toy.model)).
Proof.
  assert (H1 : saliency_net Toy.model = None) by reflexivity.
  assert (H2 : forallb (fun e =>
     forallb
       (comparable
          (set_saliency_net (nn_train false <$> saliency_net Toy.model)
             (set_net (nn_train false (net Toy.model)) Toy.model))
          Edge.dataset_stale e.1) e.2)
     (enumerate (test_loaders Edge.dataset_stale)) = true)
    by (vm_compute; reflexivity).
  split; [by split|].
  exact (evaluate_returns_or_divides_by_zero Toy.model Edge.dataset_stale
           H1 H2).
Defined.

Lemma evaluate_last_is_tail_witness :
  (evaluate Toy.saliency_model Toy.dataset_seen false
     = (Ok Toy.evaluated_all, Toy.saliency_model) /\
   evaluate Toy.saliency_model Toy.dataset_seen true
     = (Ok Toy.evaluated_last, Toy.saliency_model)) /\
  class_il_accs Toy.evaluated_last
    = drop (length (test_loaders Toy.dataset_seen) - 1)
        (class_il_accs Toy.evaluated_all) /\
  task_il_accs Toy.evaluated_last
    = drop (length (test_loaders Toy.dataset_seen) - 1)
        (task_il_accs Toy.evaluated_all).
Proof.
  assert (H1 : evaluate Toy.saliency_model Toy.dataset_seen false
               = (Ok Toy.evaluated_all, Toy.saliency_model))
    by (vm_compute; reflexivity).
  assert (H2 : evaluate Toy.saliency_model Toy.dataset_seen true
               = (Ok Toy.evaluated_last, Toy.saliency_model))
    by (vm_compute; reflexivity).
  split; [by split|].
  exact (evaluate_last_is_tail _ _ _ _ _ _ H1 H2).
Defined.

Lemma evaluate_task_il_outside_class_il_witness :
  (SETTING Edge.dataset_task_il <> "class-il" /\
   evaluate Toy.model Edge.dataset_task_il false
     = (Ok (Tuple2 [PyFloat 50; PyFloat 50] [PyFloat 0; PyFloat 0]),
        Toy.model)) /\
  task_il_accs (Tuple2 [PyFloat 50; PyFloat 50] [PyFloat 0; PyFloat 0]) =
    (fun loader => PyFloat (0 / loader_total loader * 100))
      <$> test_loaders Edge.dataset_task_il.
Proof.
  assert (H1 : SETTING Edge.dataset_task_il <> "class-il") by discriminate.
  assert (H2 : evaluate Toy.model Edge.dataset_task_il false
               = (Ok (Tuple2 [PyFloat 50; PyFloat 50]
                        [PyFloat 0; PyFloat 0]), Toy.model))
    by (vm_compute; reflexivity).
  split; [by split|].
  exact (evaluate_task_il_outside_class_il _ _ _ _ H1 H2).
Defined.

Lemma train_debug_mode_witness :
  (@train _ Edge.long_epochs Toy.model Toy.dataset Edge.args_debug
     = (Edge.debug_run.1, Edge.debug_run.2) /\
   debug_mode Edge.args_debug = true) /\
  forall t epoch i : nat,
    MetaObserve t epoch i ∈ trace Edge.debug_run.2 \/
    Progress t epoch i ∈ trace Edge.debug_run.2 ->
    (i <= 3)%nat.
Proof.
  assert (H1 : @train _ Edge.long_epochs Toy.model Toy.dataset
                 Edge.args_debug
               = (Edge.debug_run.1, Edge.debug_run.2))
    by (vm_compute; reflexivity).
  assert (H2 : debug_mode Edge.args_debug = true) by reflexivity.
  split; [by split|].
  exact (@train_debug_mode _ Edge.long_epochs _ _ _ _ _ H1 H2).
Defined.

Lemma train_joint_observes_nothing_witness :
  (train Toy.model Toy.dataset Edge.args_joint
     = (Edge.joint_run.1, Edge.joint_run.2) /\
   args_model Edge.args_joint = "joint") /\
  forall t epoch i : nat,
    (MetaObserve t epoch i ∉ trace Edge.joint_run.2) /\
    (Progress t epoch i ∉ trace Edge.joint_run.2) /\
    (SchedulerStep t epoch ∉ trace Edge.joint_run.2) /\
    (SaliencySchedulerStep t epoch ∉ trace Edge.joint_run.2).
Proof.
  assert (H1 : train Toy.model Toy.dataset Edge.args_joint
               = (Edge.joint_run.1, Edge.joint_run.2))
    by (vm_compute; reflexivity).
  assert (H2 : args_model Edge.args_joint = "joint") by reflexivity.
  split; [by split|].
  exact (train_joint_observes_nothing _ _ _ _ _ H1 H2).
Defined.

Lemma train_evaluates_newest_only_later_witness :
  (train Toy.saliency_model Toy.dataset Toy.args = (Ok tt, Toy.final_state) /\
   Evaluate 1 true ∈ trace Toy.final_state) /\
  1%nat <> 0%nat /\ ignore_other_metrics Toy.args = false.
Proof.
  assert (H1 : train Toy.saliency_model Toy.dataset Toy.args
               = (Ok tt, Toy.final_state))
    by (vm_compute; reflexivity).
  assert (H2 : Evaluate 1 true ∈ trace Toy.final_state).
  { apply list_elem_of_In. vm_compute. tauto. }
  split; [by split|].
  exact (train_evaluates_newest_only_later _ _ _ _ _ 1%nat H1 H2).
Defined.

Lemma train_without_logger_dumps_nothing_witness :
  (train Toy.model Toy.dataset Toy.args_no_log
     = (Edge.no_log_run.1, Edge.no_log_run.2) /\
   disable_log Toy.args_no_log = true) /\
  (forall t rs rms sal_metrics,
     DumpResults t rs rms sal_metrics ∉ trace Edge.no_log_run.2) /\
  (savecheck Toy.args_no_log = true -> (0 < N_TASKS Toy.dataset)%Z ->
   exists e, Edge.no_log_run.1 = Raise e).
Proof.
  assert (H1 : train Toy.model Toy.dataset Toy.args_no_log
               = (Edge.no_log_run.1, Edge.no_log_run.2))
    by (vm_compute; reflexivity).
  assert (H2 : disable_log Toy.args_no_log = true) by reflexivity.
  split; [by split|].
  exact (train_without_logger_dumps_nothing _ _ _ _ _ H1 H2).
Defined.

Lemma train_without_savecheck_witness :
  (@train _ Edge.long_epochs Toy.model Toy.dataset Edge.args_debug
     = (Edge.debug_run.1, Edge.debug_run.2) /\
   savecheck Edge.args_debug = false) /\
  Forall (fun e => is_file_event e = false) (trace Edge.debug_run.2).
Proof.
  assert (H1 : @train _ Edge.long_epochs Toy.model Toy.dataset
                 Edge.args_debug
               = (Edge.debug_run.1, Edge.debug_run.2))
    by (vm_compute; reflexivity).
  assert (H2 : savecheck Edge.args_debug = false) by reflexivity.
  split; [by split|].
  exact (@train_without_savecheck _ Edge.long_epochs _ _ _ _ _ H1 H2).
Defined.

Lemma train_checkpoints_every_task_witness :
  (train Toy.saliency_model Toy.dataset Toy.args = (Ok tt, Toy.final_state) /\
   savecheck Toy.args = true) /\
  exists segs,
    length segs = Z.to_nat (N_TASKS Toy.dataset) /\
    trace Toy.final_state =
      start_events Toy.args ++ concat segs
      ++ finish_events Toy.args (results Toy.final_state)
           (results_mask_classes Toy.final_state) wandb_run_url /\
    Forall (fun e => is_file_event e = false) (start_events Toy.args) /\
    Forall (fun e => is_file_event e = false)
      (finish_events Toy.args (results Toy.final_state)
         (results_mask_classes Toy.final_state) wandb_run_url) /\
    forall t seg, segs !! t = Some seg ->
      exists before rs rms sal_metrics,
        seg =
          before
          ++ [Print (Some t); MakeDir t; SaveNet t]
          ++ (if has_saliency_net Toy.saliency_model
              then [SaveSaliencyNet t] else [])
          ++ (if buffer_size_in_args Toy.saliency_model
              then [OpenFile BufferPickle t; DumpBuffer t] else [])
          ++ [OpenFile ArgsPickle t; DumpArgs t; OpenFile ResultsPickle t;
              DumpResults t rs rms sal_metrics] /\
        Forall (fun e => is_file_event e = false) before /\
        length rs = Datatypes.S t /\
        length rms = Datatypes.S t.
Proof.
  assert (H1 : train Toy.saliency_model Toy.dataset Toy.args
               = (Ok tt, Toy.final_state))
    by (vm_compute; reflexivity).
  assert (H2 : savecheck Toy.args = true) by reflexivity.
  split; [by split|].
  exact (train_checkpoints_every_task _ _ _ _ H1 H2).
Defined.

Lemma train_results_in_step_witness :
  train Toy.model Toy.dataset Toy.args_no_log
    = (Edge.no_log_run.1, Edge.no_log_run.2) /\
  length (results Edge.no_log_run.2)
    = length (results_mask_classes Edge.no_log_run.2).
Proof.
  assert (H1 : train Toy.model Toy.dataset Toy.args_no_log
               = (Edge.no_log_run.1, Edge.no_log_run.2))
    by (vm_compute; reflexivity).
  split; [exact H1|].
  exact (train_results_in_step _ _ _ _ _ H1).
Defined.

Lemma train_without_tasks_witness :
  ((N_TASKS Edge.dataset_no_task <= 0)%Z /\
   (nowand Toy.args = true \/ wandb = true)) /\
  exists s',
    train Toy.model Edge.dataset_no_task Toy.args = (Ok tt, s') /\
    results s' = [] /\ results_mask_classes s' = [] /\
    trace s' =
      start_events Toy.args ++ finish_events Toy.args [] [] wandb_run_url.
Proof.
  assert (H1 : (N_TASKS Edge.dataset_no_task <= 0)%Z) by (cbn; lia).
  assert (H2 : nowand Toy.args = true \/ wandb = true)
    by (right; reflexivity).
  split; [by split|].
  exact (train_without_tasks Toy.model Edge.dataset_no_task Toy.args H1 H2).
Defined.

Lemma train_batch_nan_loss_witness :
  let run :=
    @train_batch _ Edge.diverging Edge.args_debug 0 0
      (0%nat, Toy.train_batch_of 0) Edge.first_batch_state in
  (@meta_observe _ Edge.diverging (st_model Edge.first_batch_state)
     (Toy.train_batch_of 0) = (LossList [nan; 0.5]%float, 1%nat) /\
   exists x rest, [nan; 0.5]%float = x :: rest /\ is_nan x = true) /\
  ((run.1 = Ok Break /\ run.2 = Edge.first_batch_state /\
    debug_mode Edge.args_debug = true /\ (3 < 0)%nat) \/
   (run.1 = Raise ValueError /\ run.2 = Edge.first_batch_state) \/
   (run.1 = Raise AssertionError /\
    params (st_model run.2) = 1%nat /\
    trace run.2
      = trace Edge.first_batch_state ++ [MetaObserve 0 0 0])).
Proof.
  intros run.
  assert (H1 : @train_batch _ Edge.diverging Edge.args_debug 0 0
                 (0%nat, Toy.train_batch_of 0) Edge.first_batch_state
               = (run.1, run.2))
    by (vm_compute; reflexivity).
  assert (H2 : @meta_observe _ Edge.diverging
                 (st_model Edge.first_batch_state) (Toy.train_batch_of 0)
               = (LossList [nan; 0.5]%float, 1%nat)) by reflexivity.
  assert (H3 : exists x rest,
             [nan; 0.5]%float = x :: rest /\ is_nan x = true)
    by (eexists _, _; split; reflexivity).
  split; [by split|].
  exact (@train_batch_nan_loss _ Edge.diverging _ _ _ _ _ _ _ _ _ _
           H1 H2 H3).
Defined.

Lemma train_batch_checks_first_loss_witness :
  let run :=
    @train_batch _ Edge.diverging_late Edge.args_debug 0 0
      (0%nat, Toy.train_batch_of 0) Edge.first_batch_state in
  (@meta_observe _ Edge.diverging_late (st_model Edge.first_batch_state)
     (Toy.train_batch_of 0) = (LossList [0.5; nan]%float, 1%nat) /\
   is_nan 0.5 = false) /\
  run.1 <> Raise AssertionError /\ run.1 <> Raise IndexError.
Proof.
  intros run.
  assert (H1 : @train_batch _ Edge.diverging_late Edge.args_debug 0 0
                 (0%nat, Toy.train_batch_of 0) Edge.first_batch_state
               = (run.1, run.2))
    by (vm_compute; reflexivity).
  assert (H2 : @meta_observe _ Edge.diverging_late
                 (st_model Edge.first_batch_state) (Toy.train_batch_of 0)
               = (LossList [0.5; nan]%float, 1%nat)) by reflexivity.
  assert (H3 : is_nan 0.5 = false) by reflexivity.
  split; [by split|].
  exact (@train_batch_checks_first_loss _ Edge.diverging_late
           _ _ _ _ _ _ _ _ _ _ _ H1 H2 H3).
Defined.

(** A loss that starts with NaN ends the run in the first batch. *)
Example train_diverging :
  Edge.diverging_run.1 = Raise AssertionError /\
  trace Edge.diverging_run.2 =
    [Print None; LoggerNew; Print None; GetDataLoaders 0; BeginTask 0;
     Print (Some 0%nat); MetaObserve 0 0 0].
Proof. split; vm_compute; reflexivity. Qed.

End FurtherInstances.
